(** * Sauce Demo web-automation test framework: page objects, configuration,
      test data and fixtures, embedded from the Python sources.

    Layout of the development:
    - [Py]: the exceptions and the interpreter builtins the sources call
      ([str.lower], [str.replace], [str.split], [in], indexing, [repr],
      [float], [int], [round]);
    - [Exec]: the state-and-exception monad the methods run in;
    - [Playwright]: the browser-automation driver as an interface, with the
      calls made through it;
    - [Settings], [TestData], [BasePage], [InventoryPage], [CartPage],
      [CheckoutStepTwoPage], [Conftest]: the repository's code, one module
      per source file;
    - [StaticPage], [CountingFaker]: a canned page and a counting random
      generator, on which every method can be evaluated;
    - [Spec]: the vocabulary the properties are stated in;
    - [Loops], [BasePageScreenshot], [LoginPage], [CheckoutStepOnePage],
      [CheckoutCompletePage], [InventoryPageBulk], [CartPageBulk]: more of
      the page objects, with the loops of the bulk operations;
    - [ShopPage]: a page whose buttons change when clicked;
    - [Observe]: the vocabulary of the further properties;
    - the properties.

    Text is modelled by [string]; each character stands for one code point
    below 256. Floats are the binary64 floats of the kernel. *)

From Stdlib Require Import ZArith String Ascii List Bool Lia Floats.
From stdpp Require Import base option list gmap strings pretty.
Import ListNotations.

Local Open Scope Z_scope.

(* ===================================================================== *)
(** * Interpreter builtins                                                *)
(* ===================================================================== *)

Module Py.

(** ** Exceptions

    The exception classes the sources and their collaborators raise; every
    one of them derives from [Exception]. The argument is the message. *)

Inductive exn : Type :=
| ValueError (msg : string)
| IndexError (msg : string)
| OSError (msg : string)
| TimeoutError (msg : string)      (* playwright.sync_api.TimeoutError *)
| Error (msg : string).            (* playwright.sync_api.Error *)

(** [str(e)] *)
Definition exn_str (e : exn) : string :=
  match e with
  | ValueError m | IndexError m | OSError m | TimeoutError m | Error m => m
  end.

Inductive result (A : Type) : Type :=
| Ok (a : A)
| Raise (e : exn).

Arguments Ok {A} a.
Arguments Raise {A} e.

Definition is_ok {A} (r : result A) : bool :=
  match r with Ok _ => true | Raise _ => false end.

(** ** Characters *)

Definition ord (c : ascii) : Z := Z.of_N (N_of_ascii c).

Definition chr (n : Z) : ascii := ascii_of_N (Z.to_N n).

(** Upper-case letters among the code points below 256: A-Z, and the
    accented capitals U+00C0..U+00DE except the multiplication sign. *)
Definition isupper_char (c : ascii) : bool :=
  let n := ord c in
  ((65 <=? n) && (n <=? 90)) || ((192 <=? n) && (n <=? 222) && negb (n =? 215)).

Definition lower_char (c : ascii) : ascii :=
  if isupper_char c then chr (ord c + 32) else c.

Definition isdigit_char (c : ascii) : bool :=
  let n := ord c in (48 <=? n) && (n <=? 57).

(** White space as [float] and [int] see it once the text has been brought
    to ASCII: tab, line feed, vertical tab, form feed, carriage return and
    space, and the two code points (next line, no-break space) that the
    transformation turns into a space. *)
Definition isspace_char (c : ascii) : bool :=
  let n := ord c in
  ((9 <=? n) && (n <=? 13)) || (n =? 32) || (n =? 133) || (n =? 160).

Definition digit_value (c : ascii) : Z := ord c - 48.

(** ** Strings *)

Fixpoint map_chars (f : ascii -> ascii) (s : string) : string :=
  match s with
  | EmptyString => EmptyString
  | String c s' => String (f c) (map_chars f s')
  end.

Fixpoint forallb_chars (p : ascii -> bool) (s : string) : bool :=
  match s with
  | EmptyString => true
  | String c s' => p c && forallb_chars p s'
  end.

(** [s.lower()] *)
Definition lower (s : string) : string := map_chars lower_char s.

Fixpoint startswith (p s : string) : bool :=
  match p, s with
  | EmptyString, _ => true
  | String a p', String b s' => Ascii.eqb a b && startswith p' s'
  | String _ _, EmptyString => false
  end.

(** Left-to-right scan shared by [replace] and [split]: [skip] counts the
    characters of a match that are still to be passed over. *)
Fixpoint replace_scan (old new : string) (skip : nat) (s : string) : string :=
  match s with
  | EmptyString => EmptyString
  | String c s' =>
      match skip with
      | S k => replace_scan old new k s'
      | O =>
          if startswith old s
          then new +:+ replace_scan old new (Nat.pred (String.length old)) s'
          else String c (replace_scan old new O s')
      end
  end.

Fixpoint intersperse_chars (new s : string) : string :=
  match s with
  | EmptyString => new
  | String c s' => new +:+ String c (intersperse_chars new s')
  end.

(** [s.replace(old, new)]: every non-overlapping occurrence, leftmost first;
    an empty [old] matches before every character and at the end. *)
Definition replace (s old new : string) : string :=
  match old with
  | EmptyString => intersperse_chars new s
  | String _ _ => replace_scan old new O s
  end.

(** The pieces of [s] between occurrences of [sep]; [cur] is the piece being
    read, most recent character first. *)
Fixpoint split_scan (sep : string) (skip : nat) (cur : string) (s : string)
  : list string :=
  match s with
  | EmptyString => [String.rev cur]
  | String c s' =>
      match skip with
      | S k => split_scan sep k cur s'
      | O =>
          if startswith sep s
          then String.rev cur
               :: split_scan sep (Nat.pred (String.length sep)) EmptyString s'
          else split_scan sep O (String c cur) s'
      end
  end.

(** [s.split(sep)] for a given separator. *)
Definition split (s sep : string) : result (list string) :=
  match sep with
  | EmptyString => Raise (ValueError "empty separator")
  | String _ _ => Ok (split_scan sep O EmptyString s)
  end.

(** [sub in s] for texts. *)
Fixpoint contains (sub s : string) : bool :=
  startswith sub s ||
  match s with
  | EmptyString => false
  | String _ s' => contains sub s'
  end.

(** [len(l)] *)
Definition len {A} (l : list A) : Z := Z.of_nat (length l).

(** [l[i]]: a negative index counts from the end. *)
Definition getitem {A} (l : list A) (i : Z) : result A :=
  let j := if i <? 0 then i + len l else i in
  if j <? 0 then Raise (IndexError "list index out of range")
  else match nth_error l (Z.to_nat j) with
       | Some a => Ok a
       | None => Raise (IndexError "list index out of range")
       end.

Fixpoint span_chars (p : ascii -> bool) (s : string) : string * string :=
  match s with
  | EmptyString => (EmptyString, EmptyString)
  | String c s' =>
      if p c
      then let '(a, b) := span_chars p s' in (String c a, b)
      else (EmptyString, s)
  end.

Fixpoint lstrip_space (s : string) : string :=
  match s with
  | EmptyString => EmptyString
  | String c s' => if isspace_char c then lstrip_space s' else s
  end.

Fixpoint rstrip_space (s : string) : string :=
  match s with
  | EmptyString => EmptyString
  | String c s' =>
      match rstrip_space s' with
      | EmptyString => if isspace_char c then EmptyString else String c EmptyString
      | r => String c r
      end
  end.

Fixpoint digits_value_from (acc : Z) (s : string) : Z :=
  match s with
  | EmptyString => acc
  | String c s' => digits_value_from (acc * 10 + digit_value c) s'
  end.

(** The number a string of decimal digits denotes. *)
Definition digits_value (s : string) : Z := digits_value_from 0 s.

(** ** [repr] of a text *)

(** The code points [repr] shows as they are: the printable ASCII ones,
    and among U+00A1..U+00FF all but the soft hyphen. *)
Definition isprintable_char (c : ascii) : bool :=
  let n := ord c in
  ((32 <=? n) && (n <? 127)) || ((161 <=? n) && negb (n =? 173)).

Definition hex_digit (n : Z) : ascii :=
  chr (if n <? 10 then 48 + n else 87 + n).

(** One character inside the quotes: the quote in use and the backslash
    get a backslash, tab, line feed and carriage return their letter, and
    what is not printable its two hexadecimal digits. *)
Definition repr_char (quote c : ascii) : string :=
  let n := ord c in
  if Ascii.eqb c quote || (n =? 92)
  then String (chr 92) (String c EmptyString)
  else if n =? 9 then String (chr 92) (String "t" EmptyString)
  else if n =? 10 then String (chr 92) (String "n" EmptyString)
  else if n =? 13 then String (chr 92) (String "r" EmptyString)
  else if isprintable_char c then String c EmptyString
  else String (chr 92)
         (String "x" (String (hex_digit (n / 16))
                        (String (hex_digit (n mod 16)) EmptyString))).

Fixpoint repr_chars (quote : ascii) (s : string) : string :=
  match s with
  | EmptyString => EmptyString
  | String c s' => repr_char quote c +:+ repr_chars quote s'
  end.

(** [repr(s)]: single quotes, unless the text holds a single quote and no
    double quote. *)
Definition repr (s : string) : string :=
  let single := chr 39 in
  let double := chr 34 in
  let quote :=
    if contains (String single EmptyString) s
       && negb (contains (String double EmptyString) s)
    then double else single in
  String quote (repr_chars quote s +:+ String quote EmptyString).

(** ** Numbers from text *)

(** The pass [float] makes over a text that holds an underscore: an
    underscore is accepted only between two digits, and is dropped. [prev]
    is the character before [s] (NUL at the start). *)
Fixpoint drop_underscores (prev : ascii) (s : string) : option string :=
  match s with
  | EmptyString => if Ascii.eqb prev "_" then None else Some EmptyString
  | String c s' =>
      if Ascii.eqb c "_"
      then if isdigit_char prev then drop_underscores c s' else None
      else if Ascii.eqb prev "_" && negb (isdigit_char c) then None
           else String c <$> drop_underscores c s'
  end.

(** The binary64 value nearest to [(-1)^neg * m * 10^e] (ties to even,
    overflow to infinity), as the interpreter's correctly rounded
    decimal-to-binary conversion gives it. *)
Definition decimal_to_float (neg : bool) (m : Z) (e : Z) : float :=
  match m with
  | Zpos p =>
      if 0 <=? e
      then SF2Prim (binary_normalize prec emax
                      (if neg then - (m * 10 ^ e) else m * 10 ^ e) 0 false)
      else match 10 ^ (- e) with
           | Zpos q =>
               SF2Prim (SFdiv prec emax (S754_finite neg p 0) (S754_finite false q 0))
           | _ => nan
           end
  | _ => if neg then neg_zero else zero
  end.

Definition take_sign (s : string) : bool * string :=
  match s with
  | String "-" s' => (true, s')
  | String "+" s' => (false, s')
  | _ => (false, s)
  end.

Definition is_exponent_mark (c : ascii) : bool :=
  Ascii.eqb c "e" || Ascii.eqb c "E".

(** A decimal literal: digits with an optional point, at least one digit,
    and an optional exponent; the whole of [s] after the sign must be
    consumed. *)
Definition parse_decimal (neg : bool) (s : string) : option float :=
  let '(ip, s1) := span_chars isdigit_char s in
  let '(fp, s2) :=
    match s1 with
    | String "." s1' => span_chars isdigit_char s1'
    | _ => (EmptyString, s1)
    end in
  match ip +:+ fp with
  | EmptyString => None
  | ds =>
      let scale := - Z.of_nat (String.length fp) in
      match s2 with
      | EmptyString => Some (decimal_to_float neg (digits_value ds) scale)
      | String c s3 =>
          if is_exponent_mark c
          then let '(eneg, s4) := take_sign s3 in
               let '(ed, s5) := span_chars isdigit_char s4 in
               match ed, s5 with
               | String _ _, EmptyString =>
                   let x := digits_value ed in
                   Some (decimal_to_float neg (digits_value ds)
                           (scale + (if eneg then - x else x)))
               | _, _ => None
               end
          else None
      end
  end.

(** [inf], [infinity] and [nan], in any case. *)
Definition parse_inf_nan (neg : bool) (s : string) : option float :=
  let w := lower s in
  if String.eqb w "inf" || String.eqb w "infinity"
  then Some (if neg then neg_infinity else infinity)
  else if String.eqb w "nan" then Some nan else None.

Definition parse_float (s : string) : option float :=
  let '(neg, body) := take_sign s in
  match parse_decimal neg body with
  | Some x => Some x
  | None => parse_inf_nan neg body
  end.

(** [float(s)] for a text [s]. *)
Definition str_to_float (s : string) : result float :=
  match drop_underscores "000" s with
  | None => Raise (ValueError ("could not convert string to float: " +:+ repr s))
  | Some t =>
      match parse_float (rstrip_space (lstrip_space t)) with
      | Some x => Ok x
      | None =>
          Raise (ValueError ("could not convert string to float: " +:+ repr s))
      end
  end.

(** Decimal digits in which single underscores may separate digits; the
    result is the value read and the text left over. *)
Fixpoint int_digits (after_underscore : bool) (acc : Z) (s : string)
  : option (Z * string) :=
  match s with
  | EmptyString => if after_underscore then None else Some (acc, EmptyString)
  | String c s' =>
      if isdigit_char c then int_digits false (acc * 10 + digit_value c) s'
      else if Ascii.eqb c "_"
           then if after_underscore then None else int_digits true acc s'
           else if after_underscore then None else Some (acc, s)
  end.

Definition parse_int (s : string) : option Z :=
  let '(neg, body) := take_sign (lstrip_space s) in
  match body with
  | String c _ =>
      if isdigit_char c
      then match int_digits false 0 body with
           | Some (n, rest) =>
               match lstrip_space rest with
               | EmptyString => Some (if neg then - n else n)
               | String _ _ => None
               end
           | None => None
           end
      else None
  | EmptyString => None
  end.

(** [sys.int_info.default_max_str_digits]: the longest run of digits [int]
    converts. *)
Definition int_max_str_digits : Z := 4300.

(** The digits in the run of digits and underscores [s] starts with. *)
Fixpoint count_digits (s : string) : Z :=
  match s with
  | EmptyString => 0
  | String c s' =>
      if isdigit_char c then 1 + count_digits s'
      else if Ascii.eqb c "_" then count_digits s'
      else 0
  end.

Definition too_many_digits (digits : Z) : exn :=
  ValueError ("Exceeds the limit (" +:+ pretty int_max_str_digits
              +:+ " digits) for integer string conversion: value has "
              +:+ pretty digits
              +:+ " digits; use sys.set_int_max_str_digits() to increase the limit").

(** The message of a rejected literal shows at most 200 characters of the
    text's [repr]. *)
Definition invalid_literal (s : string) : exn :=
  ValueError ("invalid literal for int() with base 10: "
              +:+ String.substring 0 200 (repr s)).

(** [int(s)] for a text [s], base ten: once the run of digits is seen to be
    well formed its length is held against the limit, and only then is the
    rest of the text looked at. *)
Definition str_to_int (s : string) : result Z :=
  let body := snd (take_sign (lstrip_space s)) in
  match body with
  | String c _ =>
      if isdigit_char c
      then match int_digits false 0 body with
           | Some _ =>
               if int_max_str_digits <? count_digits body
               then Raise (too_many_digits (count_digits body))
               else match parse_int s with
                    | Some n => Ok n
                    | None => Raise (invalid_literal s)
                    end
           | None => Raise (invalid_literal s)
           end
      else Raise (invalid_literal s)
  | EmptyString => Raise (invalid_literal s)
  end.

(** ** Arithmetic on floats *)

(** The integer nearest to [num / den] for [den > 0], halves to the even
    neighbour. *)
Definition div_half_even (num den : Z) : Z :=
  let q := num / den in
  let r := num mod den in
  match 2 * r ?= den with
  | Lt => q
  | Gt => q + 1
  | Eq => if Z.even q then q else q + 1
  end.

(** [round(x, ndigits)] on a float: the exact value of [x] is rounded to
    [ndigits] decimal places, halves to even, and the decimal result is
    converted back; infinities and NaN round to themselves. (For a negative
    [ndigits] the interpreter raises where this gives an infinity.) *)
Definition round (x : float) (ndigits : Z) : float :=
  match Prim2SF x with
  | S754_finite neg m e =>
      let num := Zpos m * (if 0 <=? e then 2 ^ e else 1)
                        * (if 0 <=? ndigits then 10 ^ ndigits else 1) in
      let den := (if 0 <=? e then 1 else 2 ^ (- e))
                 * (if 0 <=? ndigits then 1 else 10 ^ (- ndigits)) in
      decimal_to_float neg (div_half_even num den) (- ndigits)
  | _ => x
  end.

End Py.


(* ===================================================================== *)
(** * Execution model                                                     *)
(* ===================================================================== *)

(** Methods run over a world [W] they may change, and either return or
    raise; what a statement changed before it raised stays changed. *)

Module Exec.
Export Py.

Section Monad.
Context {W : Type}.

Definition M (A : Type) : Type := W -> result A * W.

Definition ret {A} (a : A) : M A := fun w => (Ok a, w).

Definition raise {A} (e : exn) : M A := fun w => (Raise e, w).

Definition lift {A} (r : result A) : M A := fun w => (r, w).

Definition bind {A B} (m : M A) (k : A -> M B) : M B :=
  fun w =>
    match m w with
    | (Ok a, w') => k a w'
    | (Raise e, w') => (Raise e, w')
    end.

(** [try: body  except Exception as e: handler(e)] *)
Definition try_except {A} (body : M A) (handler : exn -> M A) : M A :=
  fun w =>
    match body w with
    | (Ok a, w') => (Ok a, w')
    | (Raise e, w') => handler e w'
    end.

Definition gets {A} (f : W -> A) : M A := fun w => (Ok (f w), w).

(** [[f(x) for x in l]], left to right. *)
Fixpoint for_each {A X} (f : X -> M A) (l : list X) : M (list A) :=
  match l with
  | [] => ret []
  | x :: l' => bind (f x) (fun a => bind (for_each f l') (fun r => ret (a :: r)))
  end.

End Monad.

Declare Scope exec_scope.
Delimit Scope exec_scope with exec.
Notation "'let*' x ':=' m 'in' k" := (bind m (fun x => k))
  (at level 10, x name, m at level 100, k at level 200) : exec_scope.

End Exec.

(* ===================================================================== *)
(** * The browser-automation driver                                       *)
(* ===================================================================== *)

Module Playwright.
Export Exec.

(** The calls the sources make on the driver (and, for the screenshot
    directory, on the file system), with their arguments. *)
Inductive Call : Type :=
| WaitFor (selector state : string) (timeout : Z)
| TextContent (selector : string) (timeout : Z)
| AllTextContents (selector : string)
| Count (selector : string)
| All (selector : string)
| NthClick (selector : string) (index : nat)
| Click (selector : string) (timeout : Z)
| Fill (selector value : string) (timeout : Z)
| SelectOption (selector value : string)
| Screenshot (path : string) (full_page : bool)
| Mkdir (path : string)
| NewContext (width height : Z) (record_video_dir : option string)
| NewPage
| PageClose
| TracingStart
| TracingStop (path : string)
| ContextClose.

(** The driver over a browser state [B]. Every call may change the browser
    and may raise. [locator_all] gives the number of matches: the list
    [locator(selector).all()] holds the locators [nth(0)], [nth(1)], ... *)
Class Driver (B : Type) : Type := {
  locator_wait_for : string -> string -> Z -> B -> result unit * B;
  locator_text_content : string -> Z -> B -> result (option string) * B;
  locator_all_text_contents : string -> B -> result (list string) * B;
  locator_count : string -> B -> result Z * B;
  locator_all : string -> B -> result nat * B;
  locator_nth_click : string -> nat -> B -> result unit * B;
  page_click : string -> Z -> B -> result unit * B;
  page_fill : string -> string -> Z -> B -> result unit * B;
  page_select_option : string -> string -> B -> result unit * B;
  page_screenshot : string -> bool -> B -> result unit * B;
  page_url : B -> string;
  page_close : B -> result unit * B;
  browser_new_context : Z -> Z -> option string -> B -> result unit * B;
  context_new_page : B -> result unit * B;
  context_close : B -> result unit * B;
  tracing_start : B -> result unit * B;
  tracing_stop : string -> B -> result unit * B;
  path_mkdir : string -> B -> result unit * B;
  (* pathlib: [p / name], [p.parent]; a path is written as its text *)
  path_div : string -> string -> string;
  path_parent : string -> string
}.

Inductive Level : Type := DEBUG | INFO | WARNING.

Record LogRecord : Type := {
  log_name : string;
  log_level : Level;
  log_message : string
}.

End Playwright.

(* ===================================================================== *)
(** * config/settings.py                                                  *)
(* ===================================================================== *)

Module Settings.

Record Settings : Type := {
  base_url : string;
  standard_user : string;
  locked_user : string;
  problem_user : string;
  performance_user : string;
  error_user : string;
  visual_user : string;
  default_password : string;
  timeout : Z;
  viewport_width : Z;
  viewport_height : Z;
  screenshot_on_failure : bool;
  video_on_failure : bool;
  trace_on_failure : bool;
  screenshot_dir : string;
  locale : string;
  project_root : string
}.

(** The field defaults, for a given project root. *)
Definition defaults (root : string) : Settings := {|
  base_url := "https://www.saucedemo.com";
  standard_user := "standard_user";
  locked_user := "locked_out_user";
  problem_user := "problem_user";
  performance_user := "performance_glitch_user";
  error_user := "error_user";
  visual_user := "visual_user";
  default_password := "secret_sauce";
  timeout := 30000;
  viewport_width := 1920;
  viewport_height := 1080;
  screenshot_on_failure := true;
  video_on_failure := true;
  trace_on_failure := true;
  screenshot_dir := "screenshots";
  locale := "en_US";
  project_root := root
|}.

Definition user_map (self : Settings) : gmap string string :=
  <["visual" := visual_user self]>
  (<["error" := error_user self]>
  (<["performance" := performance_user self]>
  (<["problem" := problem_user self]>
  (<["locked" := locked_user self]>
  (<["standard" := standard_user self]> ∅))))).

(** [get_user_credentials], settings.py:98. *)
Definition get_user_credentials (self : Settings) (user_type : string)
  : string * string :=
  let username := default (standard_user self) (user_map self !! user_type) in
  (username, default_password self).

End Settings.

(* ===================================================================== *)
(** * utils/test_data.py                                                  *)
(* ===================================================================== *)

Module TestData.

Record CheckoutData : Type := {
  first_name : string;
  last_name : string;
  postal_code : string
}.

Record UserCredentials : Type := {
  username : string;
  password : string;
  user_type : string
}.

(** The Faker library: one random generator for the whole process, which
    [Faker.seed] re-seeds and from which every provider of every [Faker]
    object draws; a provider is given the locale of the object it is
    called on. *)
Class Faker : Type := {
  rng : Type;
  faker_seed : Z -> rng;
  faker_first_name : string -> rng -> string * rng;
  faker_last_name : string -> rng -> string * rng;
  faker_postcode : string -> rng -> string * rng;
  faker_email : string -> rng -> string * rng;
  faker_password : string -> rng -> string * rng
}.

Section Generator.
Context {F : Faker}.

(** A computation over the shared generator. *)
Definition G (A : Type) : Type := rng -> A * rng.

Record TestDataGenerator : Type := { faker : string }.

(** [locale or settings.locale] *)
Definition locale_or (locale : option string) (fallback : string) : string :=
  match locale with
  | Some (String c l) => String c l
  | Some EmptyString | None => fallback
  end.

(** [__init__], test_data.py:31: the [Faker] object is made for the locale,
    then the shared generator is seeded with 42. *)
Definition init (settings : Settings.Settings) (locale : option string)
  : G TestDataGenerator :=
  fun _ => ({| faker := locale_or locale (Settings.locale settings) |},
            faker_seed 42).

Definition generate_checkout_data (self : TestDataGenerator) : G CheckoutData :=
  fun r =>
    let '(fn, r1) := faker_first_name (faker self) r in
    let '(ln, r2) := faker_last_name (faker self) r1 in
    let '(pc, r3) := faker_postcode (faker self) r2 in
    ({| first_name := fn; last_name := ln; postal_code := pc |}, r3).

Definition get_user_credentials (settings : Settings.Settings)
    (self : TestDataGenerator) (user_type : string) : UserCredentials :=
  let '(username, password) := Settings.get_user_credentials settings user_type in
  {| username := username; password := password; user_type := user_type |}.

Definition get_all_user_types (self : TestDataGenerator) : list string :=
  ["standard"; "locked"; "problem"; "performance"; "error"; "visual"].

Definition generate_invalid_credentials (self : TestDataGenerator)
  : G (list UserCredentials) :=
  fun r =>
    let '(em, r1) := faker_email (faker self) r in
    let '(pw, r2) := faker_password (faker self) r1 in
    ([ {| username := ""; password := ""; user_type := "empty" |};
       {| username := "invalid_user"; password := "wrong_pass";
          user_type := "invalid" |};
       {| username := "standard_user"; password := "wrong_password";
          user_type := "wrong_password" |};
       {| username := ""; password := "secret_sauce";
          user_type := "empty_username" |};
       {| username := "standard_user"; password := "";
          user_type := "empty_password" |};
       {| username := em; password := pw; user_type := "random" |} ], r2).

(** [[f() for _ in range(count)]] *)
Fixpoint repeat_draw {A} (f : G A) (count : nat) : G (list A) :=
  fun r =>
    match count with
    | O => ([], r)
    | S n => let '(a, r1) := f r in
             let '(l, r2) := repeat_draw f n r1 in (a :: l, r2)
    end.

Definition generate_postal_codes (self : TestDataGenerator) (count : Z)
  : G (list string) :=
  repeat_draw (faker_postcode (faker self)) (Z.to_nat count).

Definition generate_names (self : TestDataGenerator) (count : Z)
  : G (list (string * string)) :=
  repeat_draw
    (fun r => let '(fn, r1) := faker_first_name (faker self) r in
              let '(ln, r2) := faker_last_name (faker self) r1 in
              ((fn, ln), r2))
    (Z.to_nat count).

(** A run of the generator: it is built, then asked a sequence of
    questions. *)
Inductive Request : Type :=
| GenerateCheckoutData
| GenerateInvalidCredentials
| GeneratePostalCodes (count : Z)
| GenerateNames (count : Z).

Inductive Reply : Type :=
| CheckoutReply (d : CheckoutData)
| CredentialsReply (l : list UserCredentials)
| PostalCodesReply (l : list string)
| NamesReply (l : list (string * string)).

Definition answer (self : TestDataGenerator) (q : Request) : G Reply :=
  fun r =>
    match q with
    | GenerateCheckoutData =>
        let '(d, r') := generate_checkout_data self r in (CheckoutReply d, r')
    | GenerateInvalidCredentials =>
        let '(l, r') := generate_invalid_credentials self r in (CredentialsReply l, r')
    | GeneratePostalCodes n =>
        let '(l, r') := generate_postal_codes self n r in (PostalCodesReply l, r')
    | GenerateNames n =>
        let '(l, r') := generate_names self n r in (NamesReply l, r')
    end.

Fixpoint answers (self : TestDataGenerator) (qs : list Request) : G (list Reply) :=
  fun r =>
    match qs with
    | [] => ([], r)
    | q :: qs' => let '(a, r1) := answer self q r in
                  let '(l, r2) := answers self qs' r1 in (a :: l, r2)
    end.

Definition run (settings : Settings.Settings) (locale : option string)
    (qs : list Request) : G (list Reply) :=
  fun r => let '(g, r1) := init settings locale r in answers g qs r1.

End Generator.

End TestData.

(* ===================================================================== *)
(** * pages/base_page.py                                                  *)
(* ===================================================================== *)

Module BasePage.
Export Playwright.

(** The attributes of a page object: the page it wraps (a handle), the name
    of its logger, its timeout, and the URL a concrete page class adds. *)
Record PageObject : Type := {
  page : nat;
  logger : string;
  timeout : Z;
  url : option string
}.

(** What a method can see and change: the live browser, the page object it
    is called on, and the journals of driver calls and of logger calls. *)
Record World (B : Type) : Type := mkWorld {
  browser : B;
  this : PageObject;
  calls : list Call;
  log : list LogRecord
}.

Arguments mkWorld {B}.
Arguments browser {B}.
Arguments this {B}.
Arguments calls {B}.
Arguments log {B}.

Definition init (settings : Settings.Settings) (class_name : string) (page : nat)
  : PageObject :=
  {| page := page; logger := class_name;
     timeout := Settings.timeout settings; url := None |}.

(** The double quote of the attribute selectors. *)
Definition dq : string := String (ascii_of_nat 34) EmptyString.

(** [timeout or self.timeout] *)
Definition timeout_or (timeout : option Z) (self_timeout : Z) : Z :=
  match timeout with
  | Some t => if t =? 0 then self_timeout else t
  | None => self_timeout
  end.

(** [x or ""] for an optional text. *)
Definition text_or_empty (x : option string) : string :=
  match x with
  | Some s => s
  | None => EmptyString
  end.

Section Methods.
Context {B : Type} {D : Driver B}.

Local Open Scope exec_scope.

Definition invoke {A} (c : Call) (f : B -> result A * B) : M (W := World B) A :=
  fun w =>
    let '(r, b) := f (browser w) in
    (r, mkWorld b (this w) (calls w ++ [c]) (log w)).

(** A call on the logger called [name]. *)
Definition log_as (name : string) (level : Level) (message : string)
  : M (W := World B) unit :=
  fun w =>
    (Ok tt,
     mkWorld (browser w) (this w) (calls w)
       (log w ++ [ {| log_name := name; log_level := level;
                      log_message := message |} ])).

(** A call on [self.logger]. *)
Definition log_call (level : Level) (message : string) : M (W := World B) unit :=
  fun w => log_as (logger (this w)) level message w.

Definition self_timeout : M (W := World B) Z := gets (fun w => timeout (this w)).

Definition get_url : M (W := World B) string := gets (fun w => page_url (browser w)).

(** [click], base_page.py:55. *)
Definition click (selector : string) (timeout : option Z) : M unit :=
  let* _ := log_call DEBUG ("Clicking element: " +:+ selector) in
  let* d := self_timeout in
  invoke (Click selector (timeout_or timeout d))
         (page_click selector (timeout_or timeout d)).

Definition fill (selector value : string) (timeout : option Z) : M unit :=
  let* _ := log_call DEBUG
              ("Filling '" +:+ selector +:+ "' with: " +:+ value) in
  let* d := self_timeout in
  invoke (Fill selector value (timeout_or timeout d))
         (page_fill selector value (timeout_or timeout d)).

(** [get_text], base_page.py:78: the text content, or the empty text. *)
Definition get_text (selector : string) (timeout : option Z) : M string :=
  let* d := self_timeout in
  let* t := invoke (TextContent selector (timeout_or timeout d))
                   (locator_text_content selector (timeout_or timeout d)) in
  ret (text_or_empty t).

(** [is_visible], base_page.py:105: the wait runs inside [try], and any
    exception gives [False]. *)
Definition is_visible (selector : string) (timeout : option Z) : M bool :=
  try_except
    (let* d := self_timeout in
     let* _ := invoke (WaitFor selector "visible" (timeout_or timeout d))
                 (locator_wait_for selector "visible" (timeout_or timeout d)) in
     ret true)
    (fun _ => ret false).

(** [is_hidden], base_page.py:122. *)
Definition is_hidden (selector : string) (timeout : option Z) : M bool :=
  try_except
    (let* d := self_timeout in
     let* _ := invoke (WaitFor selector "hidden" (timeout_or timeout d))
                 (locator_wait_for selector "hidden" (timeout_or timeout d)) in
     ret true)
    (fun _ => ret false).

Definition wait_for_selector (selector state : string) (timeout : option Z)
  : M unit :=
  let* _ := log_call DEBUG
              ("Waiting for '" +:+ selector +:+ "' to be " +:+ state) in
  let* d := self_timeout in
  invoke (WaitFor selector state (timeout_or timeout d))
         (locator_wait_for selector state (timeout_or timeout d)).

Definition get_element_count (selector : string) : M Z :=
  invoke (Count selector) (locator_count selector).

Definition get_all_texts (selector : string) : M (list string) :=
  invoke (AllTextContents selector) (locator_all_text_contents selector).

(** [select_option], base_page.py:214. *)
Definition select_option (selector value : string) : M unit :=
  let* _ := log_call DEBUG
              ("Selecting option '" +:+ value +:+ "' from " +:+ selector) in
  invoke (SelectOption selector value) (page_select_option selector value).

(** [self.page.locator(selector).all()]: the locators [nth(0)], ... *)
Definition locator_all_list (selector : string) : M (list nat) :=
  let* n := invoke (All selector) (locator_all selector) in
  ret (seq 0 n).

End Methods.

End BasePage.

(* ===================================================================== *)
(** * pages/inventory_page.py                                             *)
(* ===================================================================== *)

Module InventoryPage.
Export BasePage.

Definition INVENTORY_CONTAINER : string := ".inventory_container".
Definition INVENTORY_ITEM : string := ".inventory_item".
Definition INVENTORY_ITEM_NAME : string := ".inventory_item_name".
Definition INVENTORY_ITEM_PRICE : string := ".inventory_item_price".
Definition ADD_TO_CART_BUTTON : string :=
  "[data-test^=" +:+ dq +:+ "add-to-cart" +:+ dq +:+ "]".
Definition REMOVE_BUTTON : string :=
  "[data-test^=" +:+ dq +:+ "remove" +:+ dq +:+ "]".
Definition SHOPPING_CART_BADGE : string := ".shopping_cart_badge".
Definition SHOPPING_CART_LINK : string := ".shopping_cart_link".
Definition PRODUCT_SORT_CONTAINER : string := ".product_sort_container".

Definition SORT_NAME_ASC : string := "az".
Definition SORT_NAME_DESC : string := "za".
Definition SORT_PRICE_ASC : string := "lohi".
Definition SORT_PRICE_DESC : string := "hilo".

Definition init (settings : Settings.Settings) (page : nat) : PageObject :=
  let self := BasePage.init settings "InventoryPage" page in
  {| page := BasePage.page self; logger := logger self;
     timeout := timeout self;
     url := Some (Settings.base_url settings +:+ "/inventory.html") |}.

(** [f'[data-test="{button_id}"]'] *)
Definition data_test (button_id : string) : string :=
  "[data-test=" +:+ dq +:+ button_id +:+ dq +:+ "]".

Section Methods.
Context {B : Type} {D : Driver B}.

Local Open Scope exec_scope.

(** [is_loaded], inventory_page.py:49. *)
Definition is_loaded : M (W := World B) bool :=
  is_visible INVENTORY_CONTAINER (Some 10000).

Definition get_product_count : M (W := World B) Z :=
  get_element_count INVENTORY_ITEM.

Definition get_all_product_names : M (W := World B) (list string) :=
  get_all_texts INVENTORY_ITEM_NAME.

(** [get_all_product_prices], inventory_page.py:76. *)
Definition get_all_product_prices : M (W := World B) (list float) :=
  let* price_texts := get_all_texts INVENTORY_ITEM_PRICE in
  for_each (fun price => lift (str_to_float (replace price "$" ""))) price_texts.

(** [add_product_to_cart_by_name], inventory_page.py:86. *)
Definition add_product_to_cart_by_name (product_name : string)
  : M (W := World B) unit :=
  let* _ := log_call INFO ("Adding product to cart: " +:+ product_name) in
  let button_id := "add-to-cart-" +:+ replace (lower product_name) " " "-" in
  click (data_test button_id) None.

(** [remove_product_from_cart_by_name], inventory_page.py:98. *)
Definition remove_product_from_cart_by_name (product_name : string)
  : M (W := World B) unit :=
  let* _ := log_call INFO ("Removing product from cart: " +:+ product_name) in
  let button_id := "remove-" +:+ replace (lower product_name) " " "-" in
  click (data_test button_id) None.

(** [add_product_to_cart_by_index], inventory_page.py:109. *)
Definition add_product_to_cart_by_index (index : Z) : M (W := World B) unit :=
  let* _ := log_call INFO
              ("Adding product at index " +:+ pretty index +:+ " to cart") in
  let* add_buttons := locator_all_list ADD_TO_CART_BUTTON in
  if index <? len add_buttons
  then let* k := lift (getitem add_buttons index) in
       invoke (NthClick ADD_TO_CART_BUTTON k)
              (locator_nth_click ADD_TO_CART_BUTTON k)
  else ret tt.

(** [get_cart_item_count], inventory_page.py:121. *)
Definition get_cart_item_count : M (W := World B) Z :=
  let* visible := is_visible SHOPPING_CART_BADGE (Some 2000) in
  if visible : bool
  then let* count_text := get_text SHOPPING_CART_BADGE None in
       lift (str_to_int count_text)
  else ret 0.

Definition is_cart_badge_visible : M (W := World B) bool :=
  is_visible SHOPPING_CART_BADGE (Some 2000).

Definition click_shopping_cart : M (W := World B) unit :=
  let* _ := log_call INFO "Navigating to shopping cart" in
  click SHOPPING_CART_LINK None.

(** [sort_products], inventory_page.py:147. *)
Definition sort_products (sort_option : string) : M (W := World B) unit :=
  let* _ := log_call INFO ("Sorting products by: " +:+ sort_option) in
  select_option PRODUCT_SORT_CONTAINER sort_option.

(** [get_product_name_by_index], inventory_page.py:177. *)
Definition get_product_name_by_index (index : Z) : M (W := World B) string :=
  let* names := get_all_product_names in
  if index <? len names then lift (getitem names index) else ret EmptyString.

(** [get_product_price_by_index], inventory_page.py:190: the prices are
    read and converted first, the index is tested after. *)
Definition get_product_price_by_index (index : Z) : M (W := World B) float :=
  let* prices := get_all_product_prices in
  if index <? len prices then lift (getitem prices index) else ret zero.

Definition is_product_in_cart (product_name : string) : M (W := World B) bool :=
  let button_id := "remove-" +:+ replace (lower product_name) " " "-" in
  is_visible (data_test button_id) (Some 2000).

End Methods.

End InventoryPage.

(* ===================================================================== *)
(** * pages/cart_page.py                                                  *)
(* ===================================================================== *)

Module CartPage.
Export BasePage.

Definition CART_ITEM : string := ".cart_item".
Definition CART_ITEM_NAME : string := ".inventory_item_name".
Definition CART_ITEM_PRICE : string := ".inventory_item_price".
Definition REMOVE_BUTTON : string :=
  "[data-test^=" +:+ dq +:+ "remove" +:+ dq +:+ "]".
Definition SHOPPING_CART_BADGE : string := ".shopping_cart_badge".

Definition init (settings : Settings.Settings) (page : nat) : PageObject :=
  let self := BasePage.init settings "CartPage" page in
  {| page := BasePage.page self; logger := logger self;
     timeout := timeout self;
     url := Some (Settings.base_url settings +:+ "/cart.html") |}.

Section Methods.
Context {B : Type} {D : Driver B}.

Local Open Scope exec_scope.

Definition is_loaded : M (W := World B) bool :=
  let* u := get_url in ret (contains "cart.html" u).

Definition get_cart_item_count : M (W := World B) Z :=
  get_element_count CART_ITEM.

Definition get_all_item_names : M (W := World B) (list string) :=
  get_all_texts CART_ITEM_NAME.

(** [get_all_item_prices], cart_page.py:64. *)
Definition get_all_item_prices : M (W := World B) (list float) :=
  let* price_texts := get_all_texts CART_ITEM_PRICE in
  for_each (fun price => lift (str_to_float (replace price "$" ""))) price_texts.

(** [remove_item_by_name], cart_page.py:83. *)
Definition remove_item_by_name (product_name : string) : M (W := World B) unit :=
  let* _ := log_call INFO ("Removing item from cart: " +:+ product_name) in
  let button_id := "remove-" +:+ replace (lower product_name) " " "-" in
  click (InventoryPage.data_test button_id) None.

(** [remove_item_by_index], cart_page.py:94. *)
Definition remove_item_by_index (index : Z) : M (W := World B) unit :=
  let* _ := log_call INFO ("Removing item at index " +:+ pretty index) in
  let* remove_buttons := locator_all_list REMOVE_BUTTON in
  if index <? len remove_buttons
  then let* k := lift (getitem remove_buttons index) in
       invoke (NthClick REMOVE_BUTTON k) (locator_nth_click REMOVE_BUTTON k)
  else ret tt.

(** [get_cart_badge_count], cart_page.py:160. *)
Definition get_cart_badge_count : M (W := World B) Z :=
  let* visible := is_visible SHOPPING_CART_BADGE (Some 2000) in
  if visible : bool
  then let* count_text := get_text SHOPPING_CART_BADGE None in
       lift (str_to_int count_text)
  else ret 0.

End Methods.

End CartPage.

(* ===================================================================== *)
(** * pages/checkout_page.py                                              *)
(* ===================================================================== *)

Module CheckoutStepTwoPage.
Export BasePage.

Definition CART_ITEM_PRICE : string := ".inventory_item_price".
Definition SUMMARY_SUBTOTAL : string := ".summary_subtotal_label".
Definition SUMMARY_TAX : string := ".summary_tax_label".
Definition SUMMARY_TOTAL : string := ".summary_total_label".

(** The float the literal [0.01] denotes. *)
Definition epsilon : float := 0x1.47ae147ae147bp-7%float.

Definition init (settings : Settings.Settings) (page : nat) : PageObject :=
  let self := BasePage.init settings "CheckoutStepTwoPage" page in
  {| page := BasePage.page self; logger := logger self;
     timeout := timeout self;
     url := Some (Settings.base_url settings +:+ "/checkout-step-two.html") |}.

Section Methods.
Context {B : Type} {D : Driver B}.

Local Open Scope exec_scope.

Definition is_loaded : M (W := World B) bool :=
  let* u := get_url in ret (contains "checkout-step-two" u).

(** [get_all_item_prices], checkout_page.py:159. *)
Definition get_all_item_prices : M (W := World B) (list float) :=
  let* price_texts := get_all_texts CART_ITEM_PRICE in
  for_each (fun price => lift (str_to_float (replace price "$" ""))) price_texts.

(** [float(text.split('$')[1])] *)
Definition amount_after_dollar (text : string) : result float :=
  match split text "$" with
  | Ok parts =>
      match getitem parts 1 with
      | Ok part => str_to_float part
      | Raise e => Raise e
      end
  | Raise e => Raise e
  end.

(** [get_subtotal], [get_tax], [get_total], checkout_page.py:169-200. *)
Definition get_subtotal : M (W := World B) float :=
  let* text := get_text SUMMARY_SUBTOTAL None in
  lift (amount_after_dollar text).

Definition get_tax : M (W := World B) float :=
  let* text := get_text SUMMARY_TAX None in
  lift (amount_after_dollar text).

Definition get_total : M (W := World B) float :=
  let* text := get_text SUMMARY_TOTAL None in
  lift (amount_after_dollar text).

(** [verify_total_calculation], checkout_page.py:202. *)
Definition verify_total_calculation : M (W := World B) bool :=
  let* subtotal := get_subtotal in
  let* tax := get_tax in
  let* total := get_total in
  let calculated_total := Py.round (subtotal + tax)%float 2 in
  ret (abs (calculated_total - total) <? epsilon)%float.

End Methods.

End CheckoutStepTwoPage.

(* ===================================================================== *)
(** * conftest.py                                                         *)
(* ===================================================================== *)

Module Conftest.
Export BasePage.

(** A phase report of the test runner, and the test item with the reports
    the [pytest_runtest_makereport] hook has attached to it. *)
Record TestReport : Type := {
  when : string;
  failed : bool
}.

Record Node : Type := {
  name : string;
  attributes : gmap string TestReport
}.

(** [setattr(item, f"rep_{rep.when}", rep)] *)
Definition pytest_runtest_makereport (item : Node) (rep : TestReport) : Node :=
  {| name := name item;
     attributes := <["rep_" +:+ when rep := rep]> (attributes item) |}.

(** [hasattr(node, 'rep_call') and node.rep_call.failed] *)
Definition call_failed (node : Node) : bool :=
  match attributes node !! "rep_call" with
  | Some rep => failed rep
  | None => false
  end.

Definition logger_name : string := "conftest".

Definition TRACE_PATH : string := "reports/trace.zip".

Section Fixtures.
Context {B : Type} {D : Driver B}.

Local Open Scope exec_scope.

Definition screenshots_path (settings : Settings.Settings) : string :=
  path_div (Settings.project_root settings) (Settings.screenshot_dir settings).

(** The path the [page] fixture saves a failure screenshot under. *)
Definition failure_screenshot_path (settings : Settings.Settings) (node : Node)
  : string :=
  let screenshot_name := "failure_" +:+ name node in
  path_div (screenshots_path settings) (screenshot_name +:+ ".png").

(** The [context] fixture up to its [yield], conftest.py:77. *)
Definition context_setup (settings : Settings.Settings) : M (W := World B) unit :=
  let video := if Settings.video_on_failure settings
               then Some "reports/videos" else None in
  let* _ := invoke (NewContext (Settings.viewport_width settings)
                               (Settings.viewport_height settings) video)
                   (browser_new_context (Settings.viewport_width settings)
                               (Settings.viewport_height settings) video) in
  if Settings.trace_on_failure settings
  then try_except
         (invoke TracingStart tracing_start)
         (fun e => log_as logger_name WARNING
                     ("Could not start tracing: " +:+ exn_str e))
  else ret tt.

(** The [context] fixture after its [yield]. *)
Definition context_teardown (settings : Settings.Settings)
  : M (W := World B) unit :=
  let* _ :=
    if Settings.trace_on_failure settings
    then try_except
           (invoke (TracingStop TRACE_PATH) (tracing_stop TRACE_PATH))
           (fun e => log_as logger_name WARNING
                       ("Could not stop tracing: " +:+ exn_str e))
    else ret tt in
  invoke ContextClose context_close.

(** The [page] fixture up to its [yield], conftest.py:115. *)
Definition page_setup : M (W := World B) unit :=
  invoke NewPage context_new_page.

(** The [try] block of the [page] fixture's teardown, conftest.py:132. *)
Definition capture_failure (settings : Settings.Settings) (node : Node)
  : M (W := World B) unit :=
  if call_failed node && Settings.screenshot_on_failure settings
  then
    let screenshot_path := failure_screenshot_path settings node in
    let* _ := invoke (Mkdir (path_parent screenshot_path))
                     (path_mkdir (path_parent screenshot_path)) in
    let* _ := invoke (Screenshot screenshot_path false)
                     (page_screenshot screenshot_path false) in
    log_as logger_name INFO ("Screenshot saved: " +:+ screenshot_path)
  else ret tt.

(** The [page] fixture after its [yield]. *)
Definition page_teardown (settings : Settings.Settings) (node : Node)
  : M (W := World B) unit :=
  let* _ :=
    try_except
      (capture_failure settings node)
      (fun e => log_as logger_name WARNING
                  ("Could not capture screenshot: " +:+ exn_str e)) in
  invoke PageClose page_close.

End Fixtures.

End Conftest.

(* ===================================================================== *)
(** * A canned page                                                       *)
(* ===================================================================== *)

(** A driver over a page that never changes by itself: the elements each
    selector matches are given with their texts, waits are answered at once,
    and two switches say whether the disk and the tracer work. It lets the
    methods above be evaluated on concrete pages. *)

Module StaticPage.
Export BasePage.

Record Page : Type := {
  elements : list (string * list string);
  current_url : string;
  disk_ok : bool;
  tracer_ok : bool;
  files : list string;
  clicked : list (string * nat)
}.

Fixpoint matches (els : list (string * list string)) (selector : string)
  : list string :=
  match els with
  | [] => []
  | (s, texts) :: els' =>
      if String.eqb s selector then texts else matches els' selector
  end.

Definition texts_of (p : Page) (selector : string) : list string :=
  matches (elements p) selector.

Definition timed_out {A} (selector : string) (p : Page) : result A * Page :=
  (Raise (TimeoutError ("Timeout exceeded waiting for " +:+ selector)), p).

Definition strict_violation {A} (selector : string) (p : Page) : result A * Page :=
  (Raise (Error ("strict mode violation: " +:+ selector)), p).

Definition with_click (selector : string) (k : nat) (p : Page) : Page :=
  {| elements := elements p; current_url := current_url p;
     disk_ok := disk_ok p; tracer_ok := tracer_ok p; files := files p;
     clicked := clicked p ++ [(selector, k)] |}.

Definition with_file (path : string) (p : Page) : Page :=
  {| elements := elements p; current_url := current_url p;
     disk_ok := disk_ok p; tracer_ok := tracer_ok p;
     files := files p ++ [path]; clicked := clicked p |}.

Definition on_single {A} (selector : string) (p : Page)
    (k : string -> result A * Page) : result A * Page :=
  match texts_of p selector with
  | [] => timed_out selector p
  | [t] => k t
  | _ :: _ :: _ => strict_violation selector p
  end.

Fixpoint parent_of (path : string) : string :=
  match path with
  | EmptyString => EmptyString
  | String c rest =>
      if contains "/" rest then String c (parent_of rest) else EmptyString
  end.

#[global] Instance driver : Driver Page := {|
  locator_wait_for selector state _ p :=
    match texts_of p selector with
    | [] => if String.eqb state "visible" then timed_out selector p
            else (Ok tt, p)
    | _ :: _ => if String.eqb state "hidden" then timed_out selector p
                else (Ok tt, p)
    end;
  locator_text_content selector _ p :=
    on_single selector p (fun t => (Ok (Some t), p));
  locator_all_text_contents selector p := (Ok (texts_of p selector), p);
  locator_count selector p := (Ok (len (texts_of p selector)), p);
  locator_all selector p := (Ok (length (texts_of p selector)), p);
  locator_nth_click selector k p :=
    if (k <? length (texts_of p selector))%nat
    then (Ok tt, with_click selector k p)
    else timed_out selector p;
  page_click selector _ p :=
    on_single selector p (fun _ => (Ok tt, with_click selector 0 p));
  page_fill selector _ _ p :=
    on_single selector p (fun _ => (Ok tt, p));
  page_select_option selector _ p :=
    on_single selector p (fun _ => (Ok tt, p));
  page_screenshot path _ p :=
    if disk_ok p then (Ok tt, with_file path p)
    else (Raise (Error ("cannot write " +:+ path)), p);
  page_url p := current_url p;
  page_close p := (Ok tt, p);
  browser_new_context _ _ _ p := (Ok tt, p);
  context_new_page p := (Ok tt, p);
  context_close p := (Ok tt, p);
  tracing_start p :=
    if tracer_ok p then (Ok tt, p)
    else (Raise (Error "Tracing has been already started"), p);
  tracing_stop path p :=
    if tracer_ok p then (Ok tt, with_file path p)
    else (Raise (Error "Must start tracing before stopping"), p);
  path_mkdir path p :=
    if disk_ok p then (Ok tt, p)
    else (Raise (OSError ("cannot create " +:+ path)), p);
  path_div a b := a +:+ "/" +:+ b;
  path_parent := parent_of
|}.

(** A world over the canned page, nothing called or logged yet. *)
Definition world (p : Page) (self : PageObject) : World Page :=
  mkWorld p self [] [].

Definition settings : Settings.Settings := Settings.defaults "/srv/framework".

(** The inventory page with the price of every product rendered as [texts]. *)
Definition priced (texts : list string) : Page :=
  {| elements := [(InventoryPage.INVENTORY_ITEM_PRICE, texts)];
     current_url := "https://www.saucedemo.com/inventory.html";
     disk_ok := true; tracer_ok := true; files := []; clicked := [] |}.

(** The checkout overview with its three summary labels. *)
Definition overview (subtotal tax total : string) : Page :=
  {| elements := [(CheckoutStepTwoPage.SUMMARY_SUBTOTAL, [subtotal]);
                  (CheckoutStepTwoPage.SUMMARY_TAX, [tax]);
                  (CheckoutStepTwoPage.SUMMARY_TOTAL, [total])];
     current_url := "https://www.saucedemo.com/checkout-step-two.html";
     disk_ok := true; tracer_ok := true; files := []; clicked := [] |}.

(** The inventory page with an empty cart (no badge), and with a badge
    that shows [text]. *)
Definition without_badge : World Page :=
  world (priced []) (InventoryPage.init settings 1).

Definition with_badge (text : string) : World Page :=
  world {| elements := [(InventoryPage.SHOPPING_CART_BADGE, [text])];
           current_url := "https://www.saucedemo.com/inventory.html";
           disk_ok := true; tracer_ok := true; files := []; clicked := [] |}
        (InventoryPage.init settings 1).

End StaticPage.

(** A stand-in for the Faker library: the shared generator is a counter,
    and each provider returns its name followed by the counter's value. *)

Module CountingFaker.

Definition provider (name : string) (locale : string) (r : Z) : string * Z :=
  (name +:+ "-" +:+ locale +:+ "-" +:+ pretty r, r + 1).

#[global] Instance faker : TestData.Faker := {|
  TestData.rng := Z;
  TestData.faker_seed n := n;
  TestData.faker_first_name := provider "first_name";
  TestData.faker_last_name := provider "last_name";
  TestData.faker_postcode := provider "postcode";
  TestData.faker_email := provider "email";
  TestData.faker_password := provider "password"
|}.

End CountingFaker.

(* ===================================================================== *)
(** * Vocabulary of the properties                                        *)
(* ===================================================================== *)

Module Spec.
Export BasePage.

(** The conversion every price list applies to a rendered price. *)
Definition price_of_text (price : string) : result float :=
  str_to_float (replace price "$" "").

Fixpoint remove_char (x : ascii) (s : string) : string :=
  match s with
  | EmptyString => EmptyString
  | String c s' =>
      if Ascii.eqb c x then remove_char x s' else String c (remove_char x s')
  end.

Definition is_digits (s : string) : Prop := forallb_chars isdigit_char s = true.

Definition is_spaces (s : string) : Prop := forallb_chars isspace_char s = true.

(** The text [X.XX] of an amount with two decimals, and the float nearest
    to the amount. *)
Definition amount_text (units : string) (d1 d2 : ascii) : string :=
  units +:+ String "." (String d1 (String d2 EmptyString)).

Definition amount (units : string) (d1 d2 : ascii) : float :=
  decimal_to_float false
    (digits_value (units +:+ String d1 (String d2 EmptyString))) (-2).



(** A rendered price of the shape [$X.XX], with nothing but white space
    before the currency symbol, and the amount it shows. *)
Inductive dollar_amount : string -> float -> Prop :=
| DollarAmount (ws : string) (c : ascii) (units : string) (d1 d2 : ascii) :
    is_spaces ws ->
    isdigit_char c = true -> is_digits units ->
    isdigit_char d1 = true -> isdigit_char d2 = true ->
    dollar_amount (ws +:+ "$" +:+ amount_text (String c units) d1 d2)
                  (amount (String c units) d1 d2).

(** [round(float(text), ndigits)] *)
Definition round_text (text : string) (ndigits : Z) : result float :=
  match str_to_float text with
  | Ok x => Ok (Py.round x ndigits)
  | Raise e => Raise e
  end.

(** The identifier suffix in the spec's words: the name lowercased, with
    every space replaced by a hyphen, character by character. *)
Definition slug_spec (product_name : string) : string :=
  map_chars (fun c => if Ascii.eqb c " " then "-"%char else lower_char c)
            product_name.

(** A warning of the fixtures' logger. *)
Definition warning (message : string) : LogRecord :=
  {| log_name := Conftest.logger_name; log_level := WARNING;
     log_message := message |}.

Section Observations.
Context {B : Type} {D : Driver B}.

Local Open Scope exec_scope.

(** The world after one driver call: the browser is what the driver left,
    the call is journalled, the page object and the log are untouched. *)
Definition after_call {A} (c : Call) (f : B -> result A * B) (w : World B)
  : World B :=
  mkWorld (snd (f (browser w))) (this w) (calls w ++ [c]) (log w).

(** The 2000 ms probe both badge queries start with. *)
Definition badge_probe (w : World B) : result unit * B :=
  locator_wait_for ".shopping_cart_badge" "visible" 2000 (browser w).

Definition after_badge_probe (w : World B) : World B :=
  after_call (WaitFor ".shopping_cart_badge" "visible" 2000)
             (locator_wait_for ".shopping_cart_badge" "visible" 2000) w.

(** Reading the badge: its text, converted by [int]. *)
Definition read_badge : M (W := World B) Z :=
  let* count_text := get_text ".shopping_cart_badge" None in
  lift (str_to_int count_text).

(** The world in which the [page] fixture closes the page: the one the
    guarded block left, with the warning when the block raised. *)
Definition after_capture (settings : Settings.Settings) (node : Conftest.Node)
    (w : World B) : World B :=
  match Conftest.capture_failure settings node w with
  | (Ok _, w') => w'
  | (Raise e, w') =>
      snd (log_as Conftest.logger_name WARNING
             ("Could not capture screenshot: " +:+ exn_str e) w')
  end.

End Observations.

(** A test item whose call phase has been reported. *)
Definition reported (name : string) (failed : bool) : Conftest.Node :=
  Conftest.pytest_runtest_makereport
    {| Conftest.name := name; Conftest.attributes := ∅ |}
    {| Conftest.when := "call"; Conftest.failed := failed |}.

End Spec.

(* ===================================================================== *)
(** * More of the page objects                                            *)
(* ===================================================================== *)

(** Loops of the sources. A [while] loop is run for at most [fuel] tests of
    its condition; [None] says that the loop was still running then. *)

Module Loops.
Export BasePage.

Section Loops.
Context {W : Type}.

Local Open Scope exec_scope.

Fixpoint while_loop (fuel : nat) (cond : M (W := W) bool) (body : M (W := W) unit)
  : M (W := W) (option unit) :=
  match fuel with
  | O => ret None
  | S fuel' =>
      let* go := cond in
      if go : bool
      then let* _ := body in while_loop fuel' cond body
      else ret (Some tt)
  end.

(** [for x in l: body(x)] *)
Fixpoint for_in {X} (l : list X) (body : X -> M (W := W) unit) : M (W := W) unit :=
  match l with
  | [] => ret tt
  | x :: l' => let* _ := body x in for_in l' body
  end.

End Loops.

(** [range(n)] *)
Definition range (n : Z) : list Z := map Z.of_nat (seq 0 (Z.to_nat n)).

End Loops.

(** ** pages/base_page.py, [screenshot] *)

Module BasePageScreenshot.
Export BasePage.

Section Methods.
Context {B : Type} {D : Driver B}.

Local Open Scope exec_scope.

(** [screenshot], base_page.py:186. *)
Definition screenshot (settings : Settings.Settings) (name : string)
    (full_page : bool) : M (W := World B) string :=
  let screenshot_path :=
    path_div (Conftest.screenshots_path settings) (name +:+ ".png") in
  let* _ := invoke (Mkdir (path_parent screenshot_path))
                   (path_mkdir (path_parent screenshot_path)) in
  let* _ := log_call INFO ("Taking screenshot: " +:+ screenshot_path) in
  let* _ := invoke (Screenshot screenshot_path full_page)
                   (page_screenshot screenshot_path full_page) in
  ret screenshot_path.

End Methods.

End BasePageScreenshot.

(** ** pages/login_page.py *)

Module LoginPage.
Export BasePage.

Definition USERNAME_INPUT : string :=
  "[data-test=" +:+ dq +:+ "username" +:+ dq +:+ "]".
Definition PASSWORD_INPUT : string :=
  "[data-test=" +:+ dq +:+ "password" +:+ dq +:+ "]".
Definition LOGIN_BUTTON : string :=
  "[data-test=" +:+ dq +:+ "login-button" +:+ dq +:+ "]".
Definition ERROR_MESSAGE : string :=
  "[data-test=" +:+ dq +:+ "error" +:+ dq +:+ "]".
Definition ERROR_BUTTON : string := ".error-button".
Definition LOGIN_LOGO : string := ".login_logo".
Definition LOGIN_CREDENTIALS_CONTAINER : string := "#login_credentials".
Definition LOGIN_PASSWORD_CONTAINER : string := ".login_password".

Definition init (settings : Settings.Settings) (page : nat) : PageObject :=
  let self := BasePage.init settings "LoginPage" page in
  {| page := BasePage.page self; logger := logger self;
     timeout := timeout self;
     url := Some (Settings.base_url settings) |}.

(** White space as [str.strip] sees it, among the code points below 256. *)
Definition isspace_str (c : ascii) : bool :=
  let n := ord c in
  ((9 <=? n) && (n <=? 13)) || ((28 <=? n) && (n <=? 32))
  || (n =? 133) || (n =? 160).

Fixpoint lstrip (s : string) : string :=
  match s with
  | EmptyString => EmptyString
  | String c s' => if isspace_str c then lstrip s' else s
  end.

Fixpoint rstrip (s : string) : string :=
  match s with
  | EmptyString => EmptyString
  | String c s' =>
      match rstrip s' with
      | EmptyString => if isspace_str c then EmptyString else String c EmptyString
      | r => String c r
      end
  end.

(** [s.strip()] *)
Definition strip (s : string) : string := rstrip (lstrip s).

(** The line feed. *)
Definition LF : string := String (ascii_of_nat 10) EmptyString.

(** [line.strip() and '_user' in line.lower()] *)
Definition is_username_line (line : string) : bool :=
  match strip line with
  | EmptyString => false
  | String _ _ => contains "_user" (lower line)
  end.

(** The list comprehension of [get_accepted_usernames]. *)
Definition usernames_of (credentials_text : string) : list string :=
  map strip (filter (fun line => is_username_line line = true)
               (split_scan LF O EmptyString credentials_text)).

Section Methods.
Context {B : Type} {D : Driver B}.

Local Open Scope exec_scope.

(** [login], login_page.py:40. *)
Definition login (username password : string) : M (W := World B) unit :=
  let* _ := log_call INFO ("Logging in with username: " +:+ username) in
  let* _ := fill USERNAME_INPUT username None in
  let* _ := fill PASSWORD_INPUT password None in
  click LOGIN_BUTTON None.

Definition enter_username (username : string) : M (W := World B) unit :=
  fill USERNAME_INPUT username None.

Definition enter_password (password : string) : M (W := World B) unit :=
  fill PASSWORD_INPUT password None.

Definition click_login_button : M (W := World B) unit :=
  click LOGIN_BUTTON None.

Definition get_error_message : M (W := World B) string :=
  get_text ERROR_MESSAGE None.

Definition is_error_displayed : M (W := World B) bool :=
  is_visible ERROR_MESSAGE (Some 5000).

Definition close_error_message : M (W := World B) unit :=
  click ERROR_BUTTON None.

Definition is_error_closed : M (W := World B) bool :=
  is_hidden ERROR_MESSAGE (Some 5000).

Definition get_logo_text : M (W := World B) string :=
  get_text LOGIN_LOGO None.

Definition is_logo_visible : M (W := World B) bool :=
  is_visible LOGIN_LOGO None.

(** [get_accepted_usernames], login_page.py:152. *)
Definition get_accepted_usernames : M (W := World B) (list string) :=
  let* credentials_text := get_text LOGIN_CREDENTIALS_CONTAINER None in
  ret (usernames_of credentials_text).

Definition get_password_hint : M (W := World B) string :=
  get_text LOGIN_PASSWORD_CONTAINER None.

End Methods.

End LoginPage.

(** ** pages/checkout_page.py, steps one and complete *)

Module CheckoutStepOnePage.
Export BasePage.

Definition FIRST_NAME_INPUT : string :=
  "[data-test=" +:+ dq +:+ "firstName" +:+ dq +:+ "]".
Definition LAST_NAME_INPUT : string :=
  "[data-test=" +:+ dq +:+ "lastName" +:+ dq +:+ "]".
Definition POSTAL_CODE_INPUT : string :=
  "[data-test=" +:+ dq +:+ "postalCode" +:+ dq +:+ "]".
Definition CONTINUE_BUTTON : string :=
  "[data-test=" +:+ dq +:+ "continue" +:+ dq +:+ "]".
Definition CANCEL_BUTTON : string :=
  "[data-test=" +:+ dq +:+ "cancel" +:+ dq +:+ "]".
Definition ERROR_MESSAGE : string :=
  "[data-test=" +:+ dq +:+ "error" +:+ dq +:+ "]".
Definition ERROR_BUTTON : string := ".error-button".

Definition init (settings : Settings.Settings) (page : nat) : PageObject :=
  let self := BasePage.init settings "CheckoutStepOnePage" page in
  {| page := BasePage.page self; logger := logger self;
     timeout := timeout self;
     url := Some (Settings.base_url settings +:+ "/checkout-step-one.html") |}.

Section Methods.
Context {B : Type} {D : Driver B}.

Local Open Scope exec_scope.

Definition is_loaded : M (W := World B) bool :=
  let* u := get_url in ret (contains "checkout-step-one" u).

(** [fill_information], checkout_page.py:44. *)
Definition fill_information (first_name last_name postal_code : string)
  : M (W := World B) unit :=
  let* _ := log_call INFO
              ("Filling checkout info: " +:+ first_name +:+ " " +:+ last_name
               +:+ ", " +:+ postal_code) in
  let* _ := fill FIRST_NAME_INPUT first_name None in
  let* _ := fill LAST_NAME_INPUT last_name None in
  fill POSTAL_CODE_INPUT postal_code None.

Definition enter_first_name (first_name : string) : M (W := World B) unit :=
  fill FIRST_NAME_INPUT first_name None.

Definition enter_last_name (last_name : string) : M (W := World B) unit :=
  fill LAST_NAME_INPUT last_name None.

Definition enter_postal_code (postal_code : string) : M (W := World B) unit :=
  fill POSTAL_CODE_INPUT postal_code None.

Definition click_continue : M (W := World B) unit := click CONTINUE_BUTTON None.

Definition click_cancel : M (W := World B) unit := click CANCEL_BUTTON None.

Definition get_error_message : M (W := World B) string :=
  get_text ERROR_MESSAGE None.

Definition is_error_displayed : M (W := World B) bool :=
  is_visible ERROR_MESSAGE (Some 2000).

Definition close_error_message : M (W := World B) unit :=
  click ERROR_BUTTON None.

End Methods.

End CheckoutStepOnePage.

Module CheckoutCompletePage.
Export BasePage.

Definition COMPLETE_HEADER : string := ".complete-header".
Definition COMPLETE_TEXT : string := ".complete-text".
Definition PONY_EXPRESS_IMAGE : string := ".pony_express".
Definition BACK_HOME_BUTTON : string :=
  "[data-test=" +:+ dq +:+ "back-to-products" +:+ dq +:+ "]".

Definition init (settings : Settings.Settings) (page : nat) : PageObject :=
  let self := BasePage.init settings "CheckoutCompletePage" page in
  {| page := BasePage.page self; logger := logger self;
     timeout := timeout self;
     url := Some (Settings.base_url settings +:+ "/checkout-complete.html") |}.

Section Methods.
Context {B : Type} {D : Driver B}.

Local Open Scope exec_scope.

Definition is_loaded : M (W := World B) bool :=
  let* u := get_url in ret (contains "checkout-complete" u).

Definition get_complete_header : M (W := World B) string :=
  get_text COMPLETE_HEADER None.

Definition get_complete_text : M (W := World B) string :=
  get_text COMPLETE_TEXT None.

Definition is_success_image_visible : M (W := World B) bool :=
  is_visible PONY_EXPRESS_IMAGE None.

Definition click_back_home : M (W := World B) unit :=
  let* _ := log_call INFO "Returning to products page" in
  click BACK_HOME_BUTTON None.

(** [is_order_complete], checkout_page.py:303: the three tests are joined
    by [and], so a test is made only when those before it held. *)
Definition is_order_complete : M (W := World B) bool :=
  let* loaded := is_loaded in
  if loaded : bool
  then let* header := is_visible COMPLETE_HEADER None in
       if header : bool then is_success_image_visible else ret false
  else ret false.

End Methods.

End CheckoutCompletePage.

(** ** pages/inventory_page.py and pages/cart_page.py, the bulk operations *)

Module InventoryPageBulk.
Export Loops.

Definition INVENTORY_ITEM_IMG : string := ".inventory_item_img".
Definition BURGER_MENU : string := "#react-burger-menu-btn".
Definition LOGOUT_LINK : string := "#logout_sidebar_link".

Section Methods.
Context {B : Type} {D : Driver B}.

Local Open Scope exec_scope.

Definition open_burger_menu : M (W := World B) unit :=
  let* _ := log_call INFO "Opening burger menu" in
  click BURGER_MENU None.

(** [logout], inventory_page.py:171. *)
Definition logout : M (W := World B) unit :=
  let* _ := log_call INFO "Logging out" in
  let* _ := open_burger_menu in
  click LOGOUT_LINK None.

(** [click_product_image], inventory_page.py:228. *)
Definition click_product_image (index : Z) : M (W := World B) unit :=
  let* _ := log_call INFO
              ("Clicking product image at index " +:+ pretty index) in
  let* images := locator_all_list INVENTORY_ITEM_IMG in
  if index <? len images
  then let* k := lift (getitem images index) in
       invoke (NthClick INVENTORY_ITEM_IMG k)
              (locator_nth_click INVENTORY_ITEM_IMG k)
  else ret tt.

(** [add_all_products_to_cart], inventory_page.py:253. *)
Definition add_all_products_to_cart : M (W := World B) unit :=
  let* _ := log_call INFO "Adding all products to cart" in
  let* product_count := InventoryPage.get_product_count in
  for_in (range product_count) InventoryPage.add_product_to_cart_by_index.

(** [remove_all_products_from_cart], inventory_page.py:260;
    [locator(...).first] is [nth(0)]. *)
Definition remove_all_products_from_cart (fuel : nat)
  : M (W := World B) (option unit) :=
  let* _ := log_call INFO "Removing all products from cart" in
  while_loop fuel
    (let* n := get_element_count InventoryPage.REMOVE_BUTTON in ret (0 <? n))
    (invoke (NthClick InventoryPage.REMOVE_BUTTON 0)
            (locator_nth_click InventoryPage.REMOVE_BUTTON 0)).

End Methods.

End InventoryPageBulk.

Module CartPageBulk.
Export Loops.

Definition CONTINUE_SHOPPING_BUTTON : string :=
  "[data-test=" +:+ dq +:+ "continue-shopping" +:+ dq +:+ "]".
Definition CHECKOUT_BUTTON : string :=
  "[data-test=" +:+ dq +:+ "checkout" +:+ dq +:+ "]".

Section Methods.
Context {B : Type} {D : Driver B}.

Local Open Scope exec_scope.

Definition continue_shopping : M (W := World B) unit :=
  let* _ := log_call INFO "Continuing shopping" in
  click CONTINUE_SHOPPING_BUTTON None.

Definition proceed_to_checkout : M (W := World B) unit :=
  let* _ := log_call INFO "Proceeding to checkout" in
  click CHECKOUT_BUTTON None.

(** [is_cart_empty], cart_page.py:116. *)
Definition is_cart_empty : M (W := World B) bool :=
  let* n := CartPage.get_cart_item_count in ret (n =? 0).

(** [is_item_in_cart], cart_page.py:125: [product_name in item_names]. *)
Definition is_item_in_cart (product_name : string) : M (W := World B) bool :=
  let* item_names := CartPage.get_all_item_names in
  ret (existsb (String.eqb product_name) item_names).

(** [remove_all_items], cart_page.py:154. *)
Definition remove_all_items (fuel : nat) : M (W := World B) (option unit) :=
  let* _ := log_call INFO "Removing all items from cart" in
  while_loop fuel
    (let* n := CartPage.get_cart_item_count in ret (0 <? n))
    (CartPage.remove_item_by_index 0).

End Methods.

End CartPageBulk.

(* ===================================================================== *)
(** * A shop that changes                                                 *)
(* ===================================================================== *)

(** A driver over a counting model of the application: so many products
    show an add button, so many a remove button; a click on the one turns it
    into the other. Waits succeed and nothing else changes the page. *)

Module ShopPage.
Export BasePage.

Record Shop : Type := {
  on_shelf : nat;
  in_cart : nat
}.

Definition matching (selector : string) (s : Shop) : nat :=
  if String.eqb selector InventoryPage.ADD_TO_CART_BUTTON then on_shelf s
  else if String.eqb selector InventoryPage.REMOVE_BUTTON then in_cart s
  else if String.eqb selector CartPage.CART_ITEM then in_cart s
  else if String.eqb selector InventoryPage.INVENTORY_ITEM
       then (on_shelf s + in_cart s)%nat
  else O.

Definition nth_click (selector : string) (k : nat) (s : Shop)
  : result unit * Shop :=
  if (k <? matching selector s)%nat
  then if String.eqb selector InventoryPage.ADD_TO_CART_BUTTON
       then (Ok tt, {| on_shelf := Nat.pred (on_shelf s);
                       in_cart := S (in_cart s) |})
       else if String.eqb selector InventoryPage.REMOVE_BUTTON
       then (Ok tt, {| on_shelf := S (on_shelf s);
                       in_cart := Nat.pred (in_cart s) |})
       else (Ok tt, s)
  else (Raise (TimeoutError ("Timeout exceeded waiting for " +:+ selector)), s).

#[global] Instance driver : Driver Shop := {|
  locator_wait_for _ _ _ s := (Ok tt, s);
  locator_text_content _ _ s := (Ok None, s);
  locator_all_text_contents _ s := (Ok [], s);
  locator_count selector s := (Ok (Z.of_nat (matching selector s)), s);
  locator_all selector s := (Ok (matching selector s), s);
  locator_nth_click := nth_click;
  page_click _ _ s := (Ok tt, s);
  page_fill _ _ _ s := (Ok tt, s);
  page_select_option _ _ s := (Ok tt, s);
  page_screenshot _ _ s := (Ok tt, s);
  page_url _ := "https://www.saucedemo.com/inventory.html";
  page_close s := (Ok tt, s);
  browser_new_context _ _ _ s := (Ok tt, s);
  context_new_page s := (Ok tt, s);
  context_close s := (Ok tt, s);
  tracing_start s := (Ok tt, s);
  tracing_stop _ s := (Ok tt, s);
  path_mkdir _ s := (Ok tt, s);
  path_div a b := a +:+ "/" +:+ b;
  path_parent := StaticPage.parent_of
|}.

Definition world (shelf cart : nat) : World Shop :=
  mkWorld {| on_shelf := shelf; in_cart := cart |}
          (InventoryPage.init StaticPage.settings 1) [] [].

End ShopPage.

(* ===================================================================== *)
(** * Vocabulary of the further properties                                *)
(* ===================================================================== *)

Module Observe.
Export Spec.

(** A record of a page object's logger. *)
Definition logged (self : PageObject) (level : Level) (message : string)
  : LogRecord :=
  {| log_name := logger self; log_level := level; log_message := message |}.

(** The clicks on the [k]-th match of a selector in a journal. *)
Definition is_nth_click (selector : string) (c : Call) : bool :=
  match c with
  | NthClick s _ => String.eqb s selector
  | _ => false
  end.

Definition nth_clicks (selector : string) (l : list Call) : nat :=
  length (filter (fun c => is_nth_click selector c = true) l).

(** The text before the first [x] of [s] (all of [s] when there is none),
    and the text after it. *)
Fixpoint before_char (x : ascii) (s : string) : string :=
  match s with
  | EmptyString => EmptyString
  | String c s' => if Ascii.eqb c x then EmptyString else String c (before_char x s')
  end.

Fixpoint after_char (x : ascii) (s : string) : option string :=
  match s with
  | EmptyString => None
  | String c s' => if Ascii.eqb c x then Some s' else after_char x s'
  end.

(** The add buttons left when [add_all_products_to_cart] has reached index
    [i] with [a] buttons on the page and [m] indexes to go, on a page where
    a clicked add button is an add button no more. *)
Fixpoint add_buttons_left (i a m : nat) : nat :=
  match m with
  | O => a
  | S m' => if (i <? a)%nat then add_buttons_left (S i) (Nat.pred a) m' else a
  end.

(** Canned pages for the further properties: the login form, and the
    order-complete page (reached or not). *)
Definition login_form : World StaticPage.Page :=
  StaticPage.world
    {| StaticPage.elements :=
         [(LoginPage.USERNAME_INPUT, [EmptyString]);
          (LoginPage.PASSWORD_INPUT, [EmptyString]);
          (LoginPage.LOGIN_BUTTON, ["Login"])];
       StaticPage.current_url := "https://www.saucedemo.com/";
       StaticPage.disk_ok := true; StaticPage.tracer_ok := true;
       StaticPage.files := []; StaticPage.clicked := [] |}
    (LoginPage.init StaticPage.settings 1).

(** A cart page that lists two items and shows no remove button. *)
Definition cart_without_buttons : World StaticPage.Page :=
  StaticPage.world
    {| StaticPage.elements :=
         [(CartPage.CART_ITEM, ["Sauce Labs Backpack"; "Sauce Labs Onesie"])];
       StaticPage.current_url := "https://www.saucedemo.com/cart.html";
       StaticPage.disk_ok := true; StaticPage.tracer_ok := true;
       StaticPage.files := []; StaticPage.clicked := [] |}
    (CartPage.init StaticPage.settings 1).

(** The inventory page with the images of six products. *)
Definition gallery : World StaticPage.Page :=
  StaticPage.world
    {| StaticPage.elements :=
         [(InventoryPageBulk.INVENTORY_ITEM_IMG,
           [EmptyString; EmptyString; EmptyString;
            EmptyString; EmptyString; EmptyString])];
       StaticPage.current_url := "https://www.saucedemo.com/inventory.html";
       StaticPage.disk_ok := true; StaticPage.tracer_ok := true;
       StaticPage.files := []; StaticPage.clicked := [] |}
    (InventoryPage.init StaticPage.settings 1).

(** The inventory page with three products, none in the cart. *)
Definition shelf_of_three : World StaticPage.Page :=
  StaticPage.world
    {| StaticPage.elements :=
         [(InventoryPage.INVENTORY_ITEM_NAME,
           ["Sauce Labs Backpack"; "Sauce Labs Bike Light"; "Sauce Labs Onesie"]);
          (InventoryPage.ADD_TO_CART_BUTTON,
           ["Add to cart"; "Add to cart"; "Add to cart"])];
       StaticPage.current_url := "https://www.saucedemo.com/inventory.html";
       StaticPage.disk_ok := true; StaticPage.tracer_ok := true;
       StaticPage.files := []; StaticPage.clicked := [] |}
    (InventoryPage.init StaticPage.settings 1).

Definition complete_page (url : string) : World StaticPage.Page :=
  StaticPage.world
    {| StaticPage.elements :=
         [(CheckoutCompletePage.COMPLETE_HEADER, ["Thank you for your order!"]);
          (CheckoutCompletePage.PONY_EXPRESS_IMAGE, [EmptyString])];
       StaticPage.current_url := url;
       StaticPage.disk_ok := true; StaticPage.tracer_ok := true;
       StaticPage.files := []; StaticPage.clicked := [] |}
    (CheckoutCompletePage.init StaticPage.settings 1).

End Observe.

(* ===================================================================== *)
(** * Properties                                                          *)
(* ===================================================================== *)

Import Spec.

(** ** The builtins on small inputs *)

Example lower_replace_backpack :
  replace (lower "Sauce Labs Backpack") " " "-" = "sauce-labs-backpack".
Proof. reflexivity. Qed.

Example replace_is_leftmost_first : replace "aaa" "aa" "b" = "ba".
Proof. reflexivity. Qed.

Example split_summary_label :
  split "Item total: $29.99" "$" = Ok ["Item total: "; "29.99"].
Proof. reflexivity. Qed.

Example getitem_from_the_end :
  getitem ["a"; "b"; "c"] (-1) = Ok "c"
  /\ getitem ["a"; "b"; "c"] 3 = Raise (IndexError "list index out of range").
Proof. split; reflexivity. Qed.

Example str_to_float_accepts :
  str_to_float " 1_0.5e1 " = str_to_float "105"
  /\ str_to_float "-Infinity" = Ok neg_infinity
  /\ is_ok (str_to_float "1__0") = false
  /\ is_ok (str_to_float "") = false.
Proof. repeat split; reflexivity. Qed.

Example str_to_int_accepts :
  str_to_int " -1_2 " = Ok (-12)
  /\ str_to_int "007" = Ok 7
  /\ is_ok (str_to_int "") = false
  /\ is_ok (str_to_int "1 2") = false.
Proof. repeat split; reflexivity. Qed.

(** [round] works on the exact binary value: 2.675 is stored just below
    2.675 and rounds down, 0.125 is a tie and rounds to the even 0.12. *)
Example round_two_decimals :
  round_text "2.675" 2 = str_to_float "2.67"
  /\ round_text "0.125" 2 = str_to_float "0.12"
  /\ round_text "32.39" 2 = str_to_float "32.39"
  /\ round_text "-0.001" 2 = str_to_float "-0.0".
Proof. repeat split; reflexivity. Qed.

(** ** The execution monad *)

Section ExecFacts.
Context {W : Type}.

Lemma bind_ok {A C} (m : M (W := W) A) (k : A -> M C) w a w' :
  m w = (Ok a, w') -> bind m k w = k a w'.
Proof. intros E. unfold bind. now rewrite E. Qed.

Lemma for_each_lift_Forall2 {A X} (f : X -> result A) (l : list X)
    (r : list A) (w : W) :
  Forall2 (fun x a => f x = Ok a) l r ->
  for_each (fun x => lift (f x)) l w = (Ok r, w).
Proof.
  induction 1 as [| x a l r Hx _ IH]; [reflexivity |].
  cbn [for_each]. unfold bind at 1, lift at 1. rewrite Hx.
  unfold bind at 1. now rewrite IH.
Qed.

Lemma for_each_lift_all_ok {A X} (f : X -> result A) (l : list X) (w : W) :
  Forall (fun x => is_ok (f x) = true) l ->
  exists r, for_each (fun x => lift (f x)) l w = (Ok r, w)
            /\ length r = length l.
Proof.
  induction 1 as [| x l Hx _ (r & IH & Hlen)].
  - now exists [].
  - destruct (f x) as [a | e] eqn:E; [| discriminate Hx].
    exists (a :: r). split; [| cbn; now rewrite Hlen].
    cbn [for_each]. unfold bind at 1, lift at 1. rewrite E.
    unfold bind at 1. now rewrite IH.
Qed.

End ExecFacts.

(** ** Driver calls *)

Section DriverFacts.
Context {B : Type} {D : Driver B}.

Lemma invoke_eq {A} (c : Call) (f : B -> result A * B) (w : World B) :
  invoke c f w = (fst (f (browser w)), after_call c f w).
Proof. unfold invoke, after_call. now destruct (f (browser w)). Qed.

Lemma click_eq (selector : string) (w : World B) :
  calls (snd (click selector None w))
  = calls w ++ [Click selector (BasePage.timeout (this w))].
Proof.
  unfold click, bind, log_call, log_as, self_timeout, gets.
  rewrite invoke_eq. reflexivity.
Qed.

(** What a probe does: one wait on the driver, whose outcome becomes the
    boolean. *)
Lemma is_visible_eq (selector : string) (timeout : option Z) (w : World B) :
  let t := timeout_or timeout (BasePage.timeout (this w)) in
  is_visible selector timeout w =
  (Ok (is_ok (fst (locator_wait_for selector "visible" t (browser w)))),
   after_call (WaitFor selector "visible" t)
              (locator_wait_for selector "visible" t) w).
Proof.
  cbv zeta. unfold is_visible, try_except, bind, self_timeout, gets, ret.
  rewrite invoke_eq.
  now destruct (fst (locator_wait_for _ _ _ _)).
Qed.

Lemma is_hidden_eq (selector : string) (timeout : option Z) (w : World B) :
  let t := timeout_or timeout (BasePage.timeout (this w)) in
  is_hidden selector timeout w =
  (Ok (is_ok (fst (locator_wait_for selector "hidden" t (browser w)))),
   after_call (WaitFor selector "hidden" t)
              (locator_wait_for selector "hidden" t) w).
Proof.
  cbv zeta. unfold is_hidden, try_except, bind, self_timeout, gets, ret.
  rewrite invoke_eq.
  now destruct (fst (locator_wait_for _ _ _ _)).
Qed.

Lemma get_all_texts_ok (selector : string) (w : World B) texts b :
  locator_all_text_contents selector (browser w) = (Ok texts, b) ->
  get_all_texts selector w
  = (Ok texts,
     after_call (AllTextContents selector)
                (locator_all_text_contents selector) w).
Proof. intros E. unfold get_all_texts. rewrite invoke_eq. now rewrite E. Qed.

Lemma locator_all_list_ok (selector : string) (w : World B) n b :
  locator_all selector (browser w) = (Ok n, b) ->
  locator_all_list selector w
  = (Ok (seq 0 n), after_call (All selector) (locator_all selector) w).
Proof.
  intros E. unfold locator_all_list, bind. rewrite invoke_eq. now rewrite E.
Qed.

End DriverFacts.

(** ** Credential lookup *)

Section Credentials.
Import Settings.

Lemma user_map_other (s : Settings) (user_type : string) :
  user_type ∉ ["standard"; "locked"; "problem"; "performance"; "error"; "visual"] ->
  user_map s !! user_type = None.
Proof.
  intros H. unfold user_map.
  repeat (rewrite lookup_insert_ne; [| intros <-; apply H; set_solver]).
  apply lookup_empty.
Qed.

(** C3. [get_user_credentials] is a total lookup: the password is always
    the configured default password; the user name is the configured user
    of each of the six user types, and the standard user for every other
    text. The test-data generator's variant returns the same pair, with the
    user type it was asked for. *)
Theorem get_user_credentials_lookup (s : Settings) (user_type : string) :
  snd (get_user_credentials s user_type) = default_password s
  /\ fst (get_user_credentials s "standard") = standard_user s
  /\ fst (get_user_credentials s "locked") = locked_user s
  /\ fst (get_user_credentials s "problem") = problem_user s
  /\ fst (get_user_credentials s "performance") = performance_user s
  /\ fst (get_user_credentials s "error") = error_user s
  /\ fst (get_user_credentials s "visual") = visual_user s
  /\ (user_type ∉ ["standard"; "locked"; "problem"; "performance"; "error"; "visual"] ->
      fst (get_user_credentials s user_type) = standard_user s)
  /\ (forall g : TestData.TestDataGenerator,
        TestData.get_user_credentials s g user_type =
        {| TestData.username := fst (get_user_credentials s user_type);
           TestData.password := default_password s;
           TestData.user_type := user_type |}).
Proof.
  unfold get_user_credentials, user_map; cbn [fst snd].
  repeat split; try (by simplify_map_eq).
  intros H. fold (user_map s). by rewrite (user_map_other s user_type H).
Qed.

End Credentials.

Lemma get_user_credentials_lookup_unknown :
  ("admin" ∉ ["standard"; "locked"; "problem"; "performance"; "error"; "visual"])
  /\ (Settings.get_user_credentials (Settings.defaults "/srv/framework") "admin"
      = ("standard_user", "secret_sauce")).
Proof.
  assert (H : "admin" ∉ ["standard"; "locked"; "problem"; "performance";
                          "error"; "visual"]).
  { intros H. repeat (apply elem_of_cons in H as [H | H]; [discriminate H |]).
    by apply elem_of_nil in H. }
  split; [exact H |].
  pose proof (get_user_credentials_lookup (Settings.defaults "/srv/framework")
                "admin") as (Hp & _ & _ & _ & _ & _ & _ & Hu & _).
  specialize (Hu H).
  destruct (Settings.get_user_credentials _ _) as [u p]; cbn in *. by subst.
Defined.

(** ** Test data *)

Section TestDataFacts.
Import TestData.
Context {F : Faker}.

Lemma init_forgets (settings : Settings.Settings) (locale : option string)
    (r1 r2 : rng) :
  init settings locale r1 = init settings locale r2.
Proof. reflexivity. Qed.

(** C7. Test-data generation is the same in every run: a generator built
    for a locale is seeded with 42 when it is built, so whatever the shared
    random generator held before, the same sequence of
    [generate_checkout_data], [generate_invalid_credentials],
    [generate_postal_codes] and [generate_names] calls gets the same
    replies (and leaves the random generator in the same state). *)
Theorem generation_deterministic_across_runs (settings : Settings.Settings)
    (locale : option string) (qs : list Request) (r1 r2 : rng) :
  run settings locale qs r1 = run settings locale qs r2.
Proof. unfold run. now rewrite (init_forgets settings locale r1 r2). Qed.

End TestDataFacts.

(** The generator is shared: of two generators built one after the other,
    the second continues where the first stopped, so their replies to the
    same question differ unless the second is built after the first was
    used. *)
Example instances_share_the_generator :
  let settings := Settings.defaults "/srv/framework" in
  let '(g1, r1) := TestData.init settings None 7 in
  let '(g2, r2) := TestData.init settings None r1 in
  let '(d1, r3) := TestData.generate_checkout_data g1 r2 in
  let '(d2, r4) := TestData.generate_checkout_data g2 r3 in
  TestData.first_name d1 = "first_name-en_US-42"
  /\ TestData.first_name d2 = "first_name-en_US-45".
Proof. split; reflexivity. Qed.

(** ** Probes *)

Section Probes.
Context {B : Type} {D : Driver B}.

(** C4. [is_visible] and [is_hidden] never raise, whatever the selector and
    the timeout: they return [True] when the driver's wait for the state
    returns, and [False] when it raises (a timeout or any other failure);
    so does the inventory page's [is_loaded], which is built on
    [is_visible]. *)
Theorem probes_never_raise (selector : string) (timeout : option Z)
    (w : World B) :
  let t := timeout_or timeout (BasePage.timeout (this w)) in
  (exists w',
      is_visible selector timeout w =
      (Ok (is_ok (fst (locator_wait_for selector "visible" t (browser w)))), w'))
  /\ (exists w',
      is_hidden selector timeout w =
      (Ok (is_ok (fst (locator_wait_for selector "hidden" t (browser w)))), w'))
  /\ (exists b w', InventoryPage.is_loaded w = (Ok b, w')).
Proof.
  cbv zeta. split; [| split].
  - eexists. apply is_visible_eq.
  - eexists. apply is_hidden_eq.
  - unfold InventoryPage.is_loaded. rewrite is_visible_eq. eauto.
Qed.

End Probes.

(** ** Sorting *)

Section Sorting.
Import InventoryPage.
Context {B : Type} {D : Driver B}.

(** C8. [sort_products] passes the token it is given, unchanged, to the
    application's sort control in exactly one driver call, for [az], [za],
    [lohi], [hilo] and any other token: that call is the only change to the
    browser and the only journalled call, the result is the driver's, and
    the page object (page handle, logger, timeout, URL) is left as it was;
    its locators are constants of the class. *)
Theorem sort_products_dispatches_once (sort_option : string) (w : World B) :
  let dispatch := page_select_option PRODUCT_SORT_CONTAINER sort_option in
  let out := sort_products sort_option w in
  fst out = fst (dispatch (browser w))
  /\ calls (snd out)
     = calls w ++ [SelectOption ".product_sort_container" sort_option]
  /\ browser (snd out) = snd (dispatch (browser w))
  /\ this (snd out) = this w.
Proof.
  cbv zeta. unfold sort_products, select_option, bind, log_call, log_as.
  rewrite invoke_eq. cbn. auto.
Qed.

End Sorting.

(** ** The cart badge *)

Section Badge.
Context {B : Type} {D : Driver B}.

Local Open Scope exec_scope.

Lemma badge_query_eq (w : World B) (found : bool) :
  is_ok (fst (badge_probe w)) = found ->
  (let* visible := is_visible ".shopping_cart_badge" (Some 2000) in
   if visible : bool then read_badge else ret 0) w
  = if found then read_badge (after_badge_probe w)
    else (Ok 0, after_badge_probe w).
Proof.
  intros H. erewrite bind_ok; [| apply is_visible_eq].
  cbn [timeout_or Z.eqb]. fold (badge_probe w). rewrite H.
  now destruct found.
Qed.

(** C10. Both cart-badge queries first wait at most 2000 ms for the badge
    to be visible. When that wait does not succeed they return 0 without
    raising and without reading anything; when it succeeds they return the
    badge's text converted to an integer. *)
Theorem cart_badge_count (w : World B) :
  (is_ok (fst (badge_probe w)) = false ->
     InventoryPage.get_cart_item_count w = (Ok 0, after_badge_probe w)
     /\ CartPage.get_cart_badge_count w = (Ok 0, after_badge_probe w))
  /\ (is_ok (fst (badge_probe w)) = true ->
     InventoryPage.get_cart_item_count w = read_badge (after_badge_probe w)
     /\ CartPage.get_cart_badge_count w = read_badge (after_badge_probe w)).
Proof.
  split; intros H; split; exact (badge_query_eq w _ H).
Qed.

End Badge.

Lemma cart_badge_count_absent_and_present :
  (is_ok (fst (badge_probe StaticPage.without_badge)) = false)
  /\ (fst (InventoryPage.get_cart_item_count StaticPage.without_badge) = Ok 0)
  /\ (is_ok (fst (badge_probe (StaticPage.with_badge "3"))) = true)
  /\ (fst (CartPage.get_cart_badge_count (StaticPage.with_badge "3")) = Ok 3).
Proof.
  destruct (cart_badge_count StaticPage.without_badge) as [Habsent _].
  destruct (cart_badge_count (StaticPage.with_badge "3")) as [_ Hpresent].
  split; [reflexivity |]. split.
  - rewrite (proj1 (Habsent eq_refl)). reflexivity.
  - split; [reflexivity |].
    rewrite (proj2 (Hpresent eq_refl)). reflexivity.
Defined.

(** ** The checkout total *)

Section Total.
Import CheckoutStepTwoPage.

(** The literal [0.01] of the source denotes [epsilon]. *)
Lemma epsilon_literal : str_to_float "0.01" = Ok epsilon.
Proof. reflexivity. Qed.


End Total.

(** A total that is subtotal plus tax passes the check. *)
Example exact_total_passes :
  fst (CheckoutStepTwoPage.verify_total_calculation
         (StaticPage.world
            (StaticPage.overview "Item total: $29.99" "Tax: $2.40" "Total: $32.39")
            (CheckoutStepTwoPage.init StaticPage.settings 1)))
  = Ok true.
Proof. vm_compute. reflexivity. Qed.

(** Whether a total one cent off passes is a matter of rounding: a
    displayed total one cent below subtotal plus tax passes the check at
    10.00 and fails it at 1.00. *)
Example one_cent_off :
  fst (CheckoutStepTwoPage.verify_total_calculation
         (StaticPage.world
            (StaticPage.overview "Item total: $10.00" "Tax: $0.01" "Total: $10.00")
            (CheckoutStepTwoPage.init StaticPage.settings 1)))
  = Ok true
  /\ fst (CheckoutStepTwoPage.verify_total_calculation
            (StaticPage.world
               (StaticPage.overview "Item total: $1.00" "Tax: $0.01" "Total: $1.00")
               (CheckoutStepTwoPage.init StaticPage.settings 1)))
     = Ok false.
Proof. split; vm_compute; reflexivity. Qed.

(** ** Product names and button identifiers *)

Section Slug.
Context {B : Type} {D : Driver B}.

Lemma replace_space_hyphen (s : string) :
  replace s " " "-" = map_chars (fun c => if Ascii.eqb c " " then "-"%char else c) s.
Proof.
  unfold replace. induction s as [| c s IH]; [reflexivity |].
  cbn [replace_scan startswith String.length Nat.pred map_chars].
  rewrite andb_true_r, (Ascii.eqb_sym " " c), IH.
  now destruct (Ascii.eqb c " ").
Qed.

Lemma lower_char_space (c : ascii) :
  Ascii.eqb (lower_char c) " " = Ascii.eqb c " ".
Proof. destruct c as [[] [] [] [] [] [] [] []]; reflexivity. Qed.

Lemma map_chars_compose (f g : ascii -> ascii) (s : string) :
  map_chars f (map_chars g s) = map_chars (fun c => f (g c)) s.
Proof. induction s as [| c s IH]; cbn; [reflexivity | now rewrite IH]. Qed.

Lemma map_chars_ext (f g : ascii -> ascii) (s : string) :
  (forall c, f c = g c) -> map_chars f s = map_chars g s.
Proof. intros H. induction s as [| c s IH]; cbn; [reflexivity | now rewrite H, IH]. Qed.

(** The transform of the code is the transform of the spec. *)
Lemma slug_code_spec (product_name : string) :
  replace (lower product_name) " " "-" = slug_spec product_name.
Proof.
  rewrite replace_space_hyphen. unfold lower, slug_spec.
  rewrite map_chars_compose. apply map_chars_ext.
  intros c. now rewrite lower_char_space.
Qed.

Lemma length_map_chars (f : ascii -> ascii) (s : string) :
  String.length (map_chars f s) = String.length s.
Proof. induction s as [| c s IH]; cbn; [reflexivity | now rewrite IH]. Qed.

Lemma get_map_chars (f : ascii -> ascii) (s : string) (i : nat) :
  String.get i (map_chars f s) = option_map f (String.get i s).
Proof.
  revert i. induction s as [| c s IH]; intros [| i]; cbn; try reflexivity.
  apply IH.
Qed.

(** C2. For every product name, the button clicked by
    [add_product_to_cart_by_name] is the one whose identifier is
    [add-to-cart-] followed by the name lowercased with every space turned
    into a hyphen, and the remove operations click [remove-] followed by the
    same suffix; the suffix has the length of the name, and a character of
    the name that is neither a space nor an upper-case letter is in it
    unchanged, at the same place. *)
Theorem product_button_identifier (product_name : string) (w : World B) :
  let slug := slug_spec product_name in
  let selector prefix := "[data-test=" +:+ dq +:+ prefix +:+ slug +:+ dq +:+ "]" in
  let t := BasePage.timeout (this w) in
  calls (snd (InventoryPage.add_product_to_cart_by_name product_name w))
    = calls w ++ [Click (selector "add-to-cart-") t]
  /\ calls (snd (InventoryPage.remove_product_from_cart_by_name product_name w))
    = calls w ++ [Click (selector "remove-") t]
  /\ calls (snd (CartPage.remove_item_by_name product_name w))
    = calls w ++ [Click (selector "remove-") t]
  /\ String.length slug = String.length product_name
  /\ (forall i c, String.get i product_name = Some c ->
        String.get i slug
        = Some (if Ascii.eqb c " " then "-"%char else lower_char c))
  /\ (forall i c, String.get i product_name = Some c ->
        c <> " "%char -> isupper_char c = false ->
        String.get i slug = Some c).
Proof.
  cbv zeta.
  unfold InventoryPage.add_product_to_cart_by_name,
    InventoryPage.remove_product_from_cart_by_name, CartPage.remove_item_by_name.
  rewrite !slug_code_spec.
  repeat split.
  - unfold bind at 1, log_call, log_as. cbn [fst snd]. now rewrite click_eq.
  - unfold bind at 1, log_call, log_as. cbn [fst snd]. now rewrite click_eq.
  - unfold bind at 1, log_call, log_as. cbn [fst snd]. now rewrite click_eq.
  - apply length_map_chars.
  - intros i c H. unfold slug_spec. now rewrite get_map_chars, H.
  - intros i c H Hs Hu. unfold slug_spec. rewrite get_map_chars, H. cbn.
    unfold lower_char. rewrite Hu.
    destruct (Ascii.eqb_spec c " "); [contradiction | reflexivity].
Qed.

End Slug.

Lemma product_button_identifier_backpack :
  String.get 1 "Sauce Labs Backpack" = Some "a"%char
  /\ String.get 1 (slug_spec "Sauce Labs Backpack") = Some "a"%char
  /\ slug_spec "Sauce Labs Backpack" = "sauce-labs-backpack".
Proof.
  pose proof (product_button_identifier "Sauce Labs Backpack"
                StaticPage.without_badge) as (_ & _ & _ & _ & _ & H).
  split; [reflexivity |]. split; [| reflexivity].
  apply (H 1%nat "a"%char); [reflexivity | discriminate | reflexivity].
Defined.

(** ** Failure artifacts *)

Section Capture.
Import Conftest.
Context {B : Type} {D : Driver B}.

Lemma page_teardown_eq (settings : Settings.Settings) (node : Node)
    (w : World B) :
  page_teardown settings node w
  = invoke PageClose page_close (after_capture settings node w).
Proof.
  unfold page_teardown, after_capture, bind, try_except.
  now destruct (capture_failure settings node w) as [[[] | e] w'].
Qed.

(** The guarded block, case by case. *)
Lemma capture_failure_eq (settings : Settings.Settings) (node : Node)
    (w : World B) :
  let path := failure_screenshot_path settings node in
  capture_failure settings node w =
  if call_failed node && Settings.screenshot_on_failure settings
  then match path_mkdir (path_parent path) (browser w) with
       | (Ok _, b1) =>
           match page_screenshot path false b1 with
           | (Ok _, b2) =>
               (Ok tt,
                mkWorld b2 (this w)
                  (calls w ++ [Mkdir (path_parent path); Screenshot path false])
                  (log w ++ [ {| log_name := logger_name; log_level := INFO;
                                 log_message := "Screenshot saved: " +:+ path |} ]))
           | (Raise e, b2) =>
               (Raise e,
                mkWorld b2 (this w)
                  (calls w ++ [Mkdir (path_parent path); Screenshot path false])
                  (log w))
           end
       | (Raise e, b1) =>
           (Raise e,
            mkWorld b1 (this w) (calls w ++ [Mkdir (path_parent path)]) (log w))
       end
  else (Ok tt, w).
Proof.
  cbv zeta. unfold capture_failure.
  destruct (call_failed node && Settings.screenshot_on_failure settings);
    [| reflexivity].
  unfold bind, invoke.
  destruct (path_mkdir _ (browser w)) as [[[] | e] b1]; [| reflexivity].
  cbn [browser this calls log].
  destruct (page_screenshot _ false b1) as [[[] | e] b2];
    unfold log_as; cbn [browser this calls log]; now rewrite <- app_assoc.
Qed.

Lemma context_setup_eq (settings : Settings.Settings) (w : World B) :
  let video := if Settings.video_on_failure settings
               then Some "reports/videos" else None in
  fst (context_setup settings w)
  = fst (browser_new_context (Settings.viewport_width settings)
           (Settings.viewport_height settings) video (browser w)).
Proof.
  cbv zeta. unfold context_setup, bind at 1. rewrite invoke_eq.
  destruct (browser_new_context _ _ _ (browser w)) as [[[] | e] b1];
    [| reflexivity].
  cbn [fst snd].
  destruct (Settings.trace_on_failure settings); [| reflexivity].
  unfold try_except. rewrite invoke_eq.
  now destruct (fst (tracing_start _)) as [[] | e].
Qed.

Lemma context_setup_warns (settings : Settings.Settings) (w : World B)
    (e : exn) (b1 : B) :
  browser_new_context (Settings.viewport_width settings)
    (Settings.viewport_height settings)
    (if Settings.video_on_failure settings
     then Some "reports/videos" else None) (browser w) = (Ok tt, b1) ->
  Settings.trace_on_failure settings = true ->
  fst (tracing_start b1) = Raise e ->
  In (warning ("Could not start tracing: " +:+ exn_str e))
     (log (snd (context_setup settings w))).
Proof.
  intros Hnew Htrace Hstart.
  unfold context_setup, bind at 1. rewrite invoke_eq, Hnew. cbn [fst snd].
  rewrite Htrace. unfold try_except. rewrite invoke_eq.
  unfold after_call at 1. cbn [browser]. rewrite Hnew. cbn [snd].
  rewrite Hstart. unfold log_as. cbn [snd log].
  apply in_or_app. right. now left.
Qed.

(** C5. At the teardown of a test, the [page] fixture asks for a screenshot
    only if the test's call phase failed and screenshots are enabled, and
    then for the file [failure_<test-name>.png] of the screenshots
    directory; when nothing raises in the guarded block, the screenshot is
    taken exactly in that case. Whatever the block raises (making the
    directory, taking the screenshot) is logged as a warning and goes no
    further: the teardown always reaches the close of the page, and its
    result is the result of that close. The [context] fixture treats the
    trace in the same way: a failure to stop it is logged as a warning and
    the context is closed all the same, and a failure to start it is logged
    as a warning and does not make the set-up fail. *)
Theorem artifact_capture_is_contained (settings : Settings.Settings)
    (node : Node) (w : World B) :
  let wanted := call_failed node && Settings.screenshot_on_failure settings in
  let path :=
    path_div (path_div (Settings.project_root settings)
                       (Settings.screenshot_dir settings))
             ("failure_" +:+ name node +:+ ".png") in
  let dir_made := is_ok (fst (path_mkdir (path_parent path) (browser w))) in
  (exists w1 new,
      page_teardown settings node w = invoke PageClose page_close w1
      /\ this w1 = this w
      /\ calls w1 = calls w ++ new
      /\ (forall p full, In (Screenshot p full) new ->
            wanted = true /\ p = path /\ full = false)
      /\ (is_ok (fst (capture_failure settings node w)) = true ->
            (In (Screenshot path false) new <-> wanted = true))
      /\ (wanted = true -> dir_made = true -> In (Screenshot path false) new)
      /\ (forall e, fst (capture_failure settings node w) = Raise e ->
            In (warning ("Could not capture screenshot: " +:+ exn_str e))
               (log w1)))
  /\ (exists w2,
      context_teardown settings w = invoke ContextClose context_close w2
      /\ (forall e, Settings.trace_on_failure settings = true ->
            fst (tracing_stop TRACE_PATH (browser w)) = Raise e ->
            In (warning ("Could not stop tracing: " +:+ exn_str e)) (log w2)))
  /\ fst (context_setup settings w)
     = fst (browser_new_context (Settings.viewport_width settings)
              (Settings.viewport_height settings)
              (if Settings.video_on_failure settings
               then Some "reports/videos" else None) (browser w))
  /\ (forall e b1,
        browser_new_context (Settings.viewport_width settings)
          (Settings.viewport_height settings)
          (if Settings.video_on_failure settings
           then Some "reports/videos" else None) (browser w) = (Ok tt, b1) ->
        Settings.trace_on_failure settings = true ->
        fst (tracing_start b1) = Raise e ->
        In (warning ("Could not start tracing: " +:+ exn_str e))
           (log (snd (context_setup settings w)))).
Proof.
  cbv zeta.
  split; [| split; [| split; [apply context_setup_eq
                           | apply context_setup_warns]]].
  - exists (after_capture settings node w).
    pose proof (capture_failure_eq settings node w) as E. cbv zeta in E.
    unfold failure_screenshot_path, screenshots_path in E.
    rewrite page_teardown_eq. unfold after_capture. rewrite E. clear E.
    set (path := path_div _ _).
    destruct (call_failed node && Settings.screenshot_on_failure settings).
    + destruct (path_mkdir (path_parent path) (browser w)) as [[[] | e] b1];
        cbn [fst is_ok].
      * exists [Mkdir (path_parent path); Screenshot path false].
        split; [reflexivity |].
        assert (Hin : In (Screenshot path false)
                        [Mkdir (path_parent path); Screenshot path false])
          by (right; now left).
        assert (Honly : forall p full,
                   In (Screenshot p full)
                      [Mkdir (path_parent path); Screenshot path false] ->
                   true = true /\ p = path /\ full = false).
        { intros p full [H | [H | []]]; [discriminate | now inversion H]. }
        destruct (page_screenshot path false b1) as [[[] | e] b2];
          cbn [snd log_as this calls log fst is_ok];
          (split; [reflexivity |]); (split; [reflexivity |]);
          (split; [exact Honly |]); (split; [tauto |]);
          (split; [tauto |]); intros e' H.
        -- discriminate H.
        -- inversion H; subst. apply in_or_app. right. now left.
      * exists [Mkdir (path_parent path)].
        split; [reflexivity |].
        cbn [snd log_as this calls log fst is_ok].
        split; [reflexivity |]. split; [reflexivity |].
        split; [intros p full [H | []]; discriminate H |].
        split; [intros H; discriminate H |].
        split; [intros _ H; discriminate H |].
        intros e' H. inversion H; subst. apply in_or_app. right. now left.
    + exists []. split; [reflexivity |].
      cbn [fst is_ok]. rewrite app_nil_r.
      split; [reflexivity |]. split; [reflexivity |].
      split; [intros p full [] |].
      split; [intros _; split; [intros [] | intros H; discriminate H] |].
      split; [intros H; discriminate H |].
      intros e H; discriminate H.
  - unfold context_teardown.
    destruct (Settings.trace_on_failure settings).
    + unfold try_except, bind at 1. rewrite invoke_eq.
      destruct (tracing_stop TRACE_PATH (browser w)) as [[[] | e] b1];
        cbn [fst snd].
      * eexists. split; [reflexivity |]. intros e _ H. discriminate H.
      * unfold log_as. eexists. split; [reflexivity |].
        intros e' _ H. inversion H; subst. cbn. apply in_or_app. right. now left.
    + unfold bind, ret. exists w. split; [reflexivity |].
      intros e H. discriminate H.
Qed.

End Capture.

Lemma artifact_capture_is_contained_disk_full :
  let w := StaticPage.world
             {| StaticPage.elements := [];
                StaticPage.current_url := "https://www.saucedemo.com/";
                StaticPage.disk_ok := false; StaticPage.tracer_ok := false;
                StaticPage.files := []; StaticPage.clicked := [] |}
             (InventoryPage.init StaticPage.settings 1) in
  let node := reported "test_login" true in
  (fst (Conftest.capture_failure StaticPage.settings node w)
   = Raise (OSError "cannot create /srv/framework/screenshots"))
  /\ (fst (Conftest.page_teardown StaticPage.settings node w) = Ok tt)
  /\ (exists w1,
        Conftest.page_teardown StaticPage.settings node w
        = invoke PageClose page_close w1
        /\ In (warning
                 "Could not capture screenshot: cannot create /srv/framework/screenshots")
              (log w1)).
Proof.
  cbv zeta.
  set (w := StaticPage.world _ _). set (node := reported _ _).
  destruct (artifact_capture_is_contained StaticPage.settings node w)
    as [(w1 & new & Ht & _ & _ & _ & _ & _ & Hw) _].
  split; [reflexivity |]. split.
  - rewrite Ht, invoke_eq. reflexivity.
  - exists w1. split; [exact Ht |].
    apply (Hw (OSError "cannot create /srv/framework/screenshots")).
    reflexivity.
Defined.

(** ** Prices from text *)

#[local] Arguments String.append : simpl nomatch.

Section Parsing.

Lemma replace_dollar (s : string) : replace s "$" "" = remove_char "$" s.
Proof.
  unfold replace. induction s as [| c s IH]; [reflexivity |].
  cbn [replace_scan startswith String.length Nat.pred remove_char].
  rewrite andb_true_r, (Ascii.eqb_sym "$" c), IH.
  now destruct (Ascii.eqb c "$").
Qed.

Lemma remove_char_app (x : ascii) (a b : string) :
  remove_char x (a +:+ b) = remove_char x a +:+ remove_char x b.
Proof.
  induction a as [| c a IH]; [reflexivity |]. cbn.
  destruct (Ascii.eqb c x); cbn; now rewrite IH.
Qed.

Lemma remove_char_absent (x : ascii) (p : ascii -> bool) (s : string) :
  p x = false -> forallb_chars p s = true -> remove_char x s = s.
Proof.
  intros Hx. induction s as [| c s IH]; [reflexivity |]. cbn.
  intros [Hc Hs]%andb_true_iff.
  destruct (Ascii.eqb_spec c x) as [-> | _]; [congruence |].
  now rewrite IH.
Qed.

Lemma forallb_chars_app (p : ascii -> bool) (a b : string) :
  forallb_chars p (a +:+ b) = forallb_chars p a && forallb_chars p b.
Proof.
  induction a as [| c a IH]; [reflexivity |]. cbn. now rewrite IH, andb_assoc.
Qed.

Lemma forallb_chars_impl (p q : ascii -> bool) (s : string) :
  (forall c, p c = true -> q c = true) ->
  forallb_chars p s = true -> forallb_chars q s = true.
Proof.
  intros Hpq. induction s as [| c s IH]; [reflexivity |]. cbn.
  intros [Hc Hs]%andb_true_iff. now rewrite (Hpq c Hc), (IH Hs).
Qed.

Lemma append_assoc (a b c : string) : (a +:+ b) +:+ c = a +:+ (b +:+ c).
Proof. induction a as [| x a IH]; cbn; [reflexivity | now rewrite IH]. Qed.

Lemma drop_underscores_none (prev : ascii) (s : string) :
  Ascii.eqb prev "_" = false ->
  forallb_chars (fun c => negb (Ascii.eqb c "_")) s = true ->
  drop_underscores prev s = Some s.
Proof.
  revert prev. induction s as [| c s IH]; intros prev Hp; cbn.
  - now rewrite Hp.
  - intros [Hc Hs]%andb_true_iff. apply negb_true_iff in Hc.
    rewrite Hc, Hp. cbn. now rewrite (IH c Hc Hs).
Qed.

Lemma lstrip_space_app (ws s : string) :
  is_spaces ws -> lstrip_space (ws +:+ s) = lstrip_space s.
Proof.
  unfold is_spaces. induction ws as [| c ws IH]; [reflexivity |]. cbn.
  intros [Hc Hs]%andb_true_iff. rewrite Hc. now apply IH.
Qed.

Lemma rstrip_space_last (a : string) (c : ascii) :
  isspace_char c = false ->
  rstrip_space (a +:+ String c EmptyString) = a +:+ String c EmptyString.
Proof.
  intros Hc. induction a as [| x a IH]; cbn.
  - now rewrite Hc.
  - rewrite IH. now destruct a.
Qed.

Lemma span_digits_app (ds rest : string) :
  is_digits ds ->
  match rest with
  | EmptyString => True
  | String c _ => isdigit_char c = false
  end ->
  span_chars isdigit_char (ds +:+ rest) = (ds, rest).
Proof.
  unfold is_digits. induction ds as [| c ds IH]; cbn.
  - intros _ H. destruct rest as [| c r]; [reflexivity |]. cbn. now rewrite H.
  - intros [Hc Hs]%andb_true_iff H. rewrite Hc. now rewrite (IH Hs H).
Qed.

(** What a digit is not. *)
Lemma digit_plain (c : ascii) :
  isdigit_char c = true ->
  isspace_char c = false
  /\ negb (Ascii.eqb c "_") = true
  /\ Ascii.eqb c "$" = false
  /\ (forall s, take_sign (String c s) = (false, String c s)).
Proof.
  destruct c as [[] [] [] [] [] [] [] []]; cbn; try discriminate; auto.
Qed.

Lemma space_plain (c : ascii) :
  isspace_char c = true ->
  negb (Ascii.eqb c "_") = true /\ negb (Ascii.eqb c "$") = true.
Proof.
  destruct c as [[] [] [] [] [] [] [] []]; cbn; try discriminate; auto.
Qed.

(** [float] on an amount [X.XX], white space before it or not. *)
Lemma str_to_float_amount (c : ascii) (units : string) (d1 d2 : ascii)
    (ws : string) :
  is_spaces ws -> isdigit_char c = true -> is_digits units ->
  isdigit_char d1 = true -> isdigit_char d2 = true ->
  str_to_float (ws +:+ amount_text (String c units) d1 d2)
  = Ok (amount (String c units) d1 d2).
Proof.
  intros Hws Hc Hu H1 H2. unfold str_to_float.
  destruct (digit_plain c Hc) as (Hcs & Hcu & _ & Hsign).
  destruct (digit_plain d1 H1) as (_ & H1u & _).
  destruct (digit_plain d2 H2) as (H2s & H2u & _).
  rewrite drop_underscores_none; [| reflexivity |].
  2:{ rewrite forallb_chars_app. apply andb_true_iff. split.
      - apply (forallb_chars_impl isspace_char); [| exact Hws].
        intros x Hx. apply (space_plain x Hx).
      - unfold amount_text. cbn [String.append forallb_chars].
        rewrite Hcu. cbn [andb].
        rewrite forallb_chars_app. cbn [forallb_chars].
        rewrite H1u, H2u. cbn. rewrite !andb_true_r.
        apply (forallb_chars_impl isdigit_char); [| exact Hu].
        intros x Hx. apply (digit_plain x Hx). }
  rewrite lstrip_space_app by exact Hws.
  unfold amount_text. cbn [String.append lstrip_space]. rewrite Hcs.
  replace (String c (units +:+ String "." (String d1 (String d2 EmptyString))))
    with ((String c (units +:+ String "." (String d1 EmptyString)))
          +:+ String d2 EmptyString)
    by (cbn; f_equal; now rewrite append_assoc).
  rewrite rstrip_space_last by exact H2s.
  cbn [String.append]. rewrite append_assoc. cbn [String.append].
  unfold parse_float. rewrite Hsign. unfold parse_decimal.
  change (String c (units +:+ String "." (String d1 (String d2 EmptyString))))
    with (String c units +:+ String "." (String d1 (String d2 EmptyString))).
  rewrite span_digits_app;
    [| unfold is_digits; cbn; rewrite Hc; exact Hu | reflexivity].
  cbn [span_chars]. rewrite H1, H2. cbn [String.append String.length].
  reflexivity.
Qed.

Lemma price_of_dollar_amount (text : string) (x : float) :
  dollar_amount text x -> price_of_text text = Ok x.
Proof.
  intros [ws c units d1 d2 Hws Hc Hu H1 H2]. unfold price_of_text.
  rewrite replace_dollar, remove_char_app, remove_char_app.
  rewrite (remove_char_absent "$" isspace_char ws eq_refl Hws).
  rewrite (remove_char_absent "$"
             (fun c => isdigit_char c || Ascii.eqb c ".")
             (amount_text (String c units) d1 d2) eq_refl).
  - cbn [remove_char Ascii.eqb Bool.eqb]. cbn [String.append].
    now apply str_to_float_amount.
  - unfold amount_text. cbn [String.append forallb_chars]. rewrite Hc.
    cbn [orb andb]. rewrite forallb_chars_app. cbn [forallb_chars].
    rewrite H1, H2. cbn. rewrite !andb_true_r.
    apply (forallb_chars_impl isdigit_char); [| exact Hu].
    intros x' Hx. now rewrite Hx.
Qed.

(** The pieces around the first [$] of a text. *)
Lemma split_scan_no_dollar (cur s : string) :
  forallb_chars (fun c => negb (Ascii.eqb c "$")) s = true ->
  split_scan "$" O cur s = [String.rev_app cur s].
Proof.
  revert cur. induction s as [| c s IH]; intros cur; [reflexivity |].
  cbn [forallb_chars split_scan startswith].
  intros [Hc Hs]%andb_true_iff. apply negb_true_iff in Hc.
  rewrite andb_true_r, (Ascii.eqb_sym "$" c), Hc.
  now rewrite (IH _ Hs).
Qed.

Lemma split_scan_dollar (cur label rest : string) :
  forallb_chars (fun c => negb (Ascii.eqb c "$")) label = true ->
  split_scan "$" O cur (label +:+ "$" +:+ rest)
  = String.rev_app cur label :: split_scan "$" O EmptyString rest.
Proof.
  revert cur. induction label as [| c label IH]; intros cur.
  - intros _. cbn. now destruct cur.
  - cbn [forallb_chars String.append split_scan startswith].
    intros [Hc Hs]%andb_true_iff. apply negb_true_iff in Hc.
    rewrite andb_true_r, (Ascii.eqb_sym "$" c), Hc.
    now rewrite (IH _ Hs).
Qed.

(** The summary getters skip whatever label comes before the [$]. *)
Lemma summary_label_amount (label : string) (c : ascii) (units : string)
    (d1 d2 : ascii) :
  forallb_chars (fun c => negb (Ascii.eqb c "$")) label = true ->
  isdigit_char c = true -> is_digits units ->
  isdigit_char d1 = true -> isdigit_char d2 = true ->
  CheckoutStepTwoPage.amount_after_dollar
    (label +:+ "$" +:+ amount_text (String c units) d1 d2)
  = Ok (amount (String c units) d1 d2).
Proof.
  intros Hl Hc Hu H1 H2. unfold CheckoutStepTwoPage.amount_after_dollar, split.
  rewrite (split_scan_dollar EmptyString label _ Hl).
  rewrite split_scan_no_dollar.
  - cbn [getitem Z.ltb Z.compare len length nth_error Z.to_nat Pos.to_nat
         Pos.iter_op Nat.add String.rev_app].
    apply (str_to_float_amount c units d1 d2 EmptyString); auto. reflexivity.
  - unfold amount_text. cbn [String.append forallb_chars].
    destruct (digit_plain c Hc) as (_ & _ & Hcd & _).
    destruct (digit_plain d1 H1) as (_ & _ & H1d & _).
    destruct (digit_plain d2 H2) as (_ & _ & H2d & _).
    rewrite Hcd. cbn [negb andb]. rewrite forallb_chars_app.
    cbn [forallb_chars]. rewrite H1d, H2d. cbn. rewrite !andb_true_r.
    apply (forallb_chars_impl isdigit_char); [| exact Hu].
    intros x Hx. destruct (digit_plain x Hx) as (_ & _ & Hxd & _).
    now rewrite Hxd.
Qed.

End Parsing.

Section PriceLists.
Context {B : Type} {D : Driver B}.

(** Every price list converts the texts the driver returns, one by one. *)
Lemma price_list_eq (w : World B) (texts : list string) (b : B) :
  locator_all_text_contents ".inventory_item_price" (browser w) = (Ok texts, b) ->
  let w' := after_call (AllTextContents ".inventory_item_price")
              (locator_all_text_contents ".inventory_item_price") w in
  InventoryPage.get_all_product_prices w
    = for_each (fun t => lift (price_of_text t)) texts w'
  /\ CartPage.get_all_item_prices w
    = for_each (fun t => lift (price_of_text t)) texts w'
  /\ CheckoutStepTwoPage.get_all_item_prices w
    = for_each (fun t => lift (price_of_text t)) texts w'.
Proof.
  intros E. cbv zeta.
  unfold InventoryPage.get_all_product_prices, CartPage.get_all_item_prices,
    CheckoutStepTwoPage.get_all_item_prices.
  repeat split; apply bind_ok; now apply get_all_texts_ok with (b := b).
Qed.

(** C6, as amended. The price lists of the inventory, cart and checkout
    pages remove every [$] of a rendered price and convert what is left
    with [float]. When every rendered price has the shape [$X.XX], with at
    most white space before the [$], the list holds, in order, the floats
    nearest to the amounts after the [$]. *)
Theorem price_lists_parse_dollar_amounts (w : World B) (texts : list string)
    (amounts : list float) (b : B) :
  locator_all_text_contents ".inventory_item_price" (browser w) = (Ok texts, b) ->
  Forall2 dollar_amount texts amounts ->
  let w' := after_call (AllTextContents ".inventory_item_price")
              (locator_all_text_contents ".inventory_item_price") w in
  InventoryPage.get_all_product_prices w = (Ok amounts, w')
  /\ CartPage.get_all_item_prices w = (Ok amounts, w')
  /\ CheckoutStepTwoPage.get_all_item_prices w = (Ok amounts, w')
  /\ (forall price, price_of_text price = str_to_float (remove_char "$" price)).
Proof.
  intros E Hshape. cbv zeta.
  destruct (price_list_eq w texts b E) as (Hi & Hc & Ho).
  assert (Hall : for_each (fun t => lift (price_of_text t)) texts
                   (after_call (AllTextContents ".inventory_item_price")
                      (locator_all_text_contents ".inventory_item_price") w)
                 = (Ok amounts,
                    after_call (AllTextContents ".inventory_item_price")
                      (locator_all_text_contents ".inventory_item_price") w)).
  { apply for_each_lift_Forall2.
    eapply Forall2_impl; [exact Hshape |].
    intros t x Htx. now apply price_of_dollar_amount. }
  rewrite Hi, Hc, Ho, Hall. repeat split.
  intros price. unfold price_of_text. now rewrite replace_dollar.
Qed.

End PriceLists.

Lemma price_lists_parse_dollar_amounts_catalog :
  fst (InventoryPage.get_all_product_prices
         (StaticPage.world (StaticPage.priced ["$29.99"; " $9.99"])
            (InventoryPage.init StaticPage.settings 1)))
  = Ok [amount "29" "9" "9"; amount "9" "9" "9"].
Proof.
  assert (Hshape : Forall2 dollar_amount ["$29.99"; " $9.99"]
                     [amount "29" "9" "9"; amount "9" "9" "9"]).
  { repeat constructor.
    - apply (DollarAmount "" "2" "9" "9" "9"); reflexivity.
    - apply (DollarAmount " " "9" "" "9" "9"); reflexivity. }
  set (w := StaticPage.world (StaticPage.priced ["$29.99"; " $9.99"])
              (InventoryPage.init StaticPage.settings 1)).
  assert (E : locator_all_text_contents ".inventory_item_price" (browser w)
              = (Ok ["$29.99"; " $9.99"], StaticPage.priced ["$29.99"; " $9.99"]))
    by reflexivity.
  destruct (price_lists_parse_dollar_amounts w _ _ _ E Hshape) as (H & _).
  now rewrite H.
Defined.

(** Characters before the [$] other than white space stay in the text that
    [float] is given: a label makes the conversion raise, and a digit
    changes the amount. *)
Lemma price_with_text_before_dollar :
  (fst (InventoryPage.get_all_product_prices
          (StaticPage.world (StaticPage.priced ["Price: $9.99"])
             (InventoryPage.init StaticPage.settings 1)))
   = Raise (ValueError "could not convert string to float: 'Price: 9.99'"))
  /\ (fst (CartPage.get_all_item_prices
             (StaticPage.world (StaticPage.priced ["1$9.99"])
                (CartPage.init StaticPage.settings 1)))
      = Ok [amount "19" "9" "9"])
  /\ (amount "19" "9" "9" <> amount "9" "9" "9").
Proof.
  split; [vm_compute; reflexivity |]. split; [vm_compute; reflexivity |].
  intros H. apply (f_equal Prim2SF) in H. vm_compute in H. discriminate H.
Qed.

(** ** Indexes beyond the matches *)

Section Indexes.
Context {B : Type} {D : Driver B}.

Lemma len_seq (n : nat) : len (seq 0 n) = Z.of_nat n.
Proof. unfold len. now rewrite length_seq. Qed.

Lemma nth_button_beyond (selector message : string) (index : Z)
    (w : World B) (n : nat) (b : B) :
  locator_all selector (browser w) = (Ok n, b) ->
  Z.of_nat n <= index ->
  bind (log_call INFO message)
    (fun _ =>
       bind (locator_all_list selector)
         (fun buttons =>
            if index <? len buttons
            then bind (lift (getitem buttons index))
                   (fun k => invoke (NthClick selector k)
                               (locator_nth_click selector k))
            else ret tt)) w
  = (Ok tt,
     mkWorld b (this w) (calls w ++ [All selector])
       (log w ++ [ {| log_name := logger (this w); log_level := INFO;
                      log_message := message |} ])).
Proof.
  intros E Hle.
  unfold bind at 1, log_call, log_as.
  erewrite bind_ok; [| apply locator_all_list_ok with (b := b); exact E].
  rewrite len_seq.
  destruct (Z.ltb_spec index (Z.of_nat n)) as [Hlt | _]; [lia |].
  unfold ret, after_call. cbn. now rewrite E.
Qed.

(** C9, as amended. With an index at or beyond the number of matching
    elements: [get_product_name_by_index] returns the empty text;
    [add_product_to_cart_by_index] and [remove_item_by_index] list the
    buttons, click nothing and return; [get_product_price_by_index] returns
    0.0 provided every rendered price converts to a float. *)
Theorem index_beyond_matches_degrades (index : Z) (w : World B) :
  (forall names b,
      locator_all_text_contents ".inventory_item_name" (browser w) = (Ok names, b) ->
      len names <= index ->
      InventoryPage.get_product_name_by_index index w
      = (Ok EmptyString,
         after_call (AllTextContents ".inventory_item_name")
           (locator_all_text_contents ".inventory_item_name") w))
  /\ (forall texts b,
      locator_all_text_contents ".inventory_item_price" (browser w) = (Ok texts, b) ->
      Forall (fun t => is_ok (price_of_text t) = true) texts ->
      len texts <= index ->
      InventoryPage.get_product_price_by_index index w
      = (Ok zero,
         after_call (AllTextContents ".inventory_item_price")
           (locator_all_text_contents ".inventory_item_price") w))
  /\ (forall n b,
      locator_all InventoryPage.ADD_TO_CART_BUTTON (browser w) = (Ok n, b) ->
      Z.of_nat n <= index ->
      let out := InventoryPage.add_product_to_cart_by_index index w in
      fst out = Ok tt
      /\ calls (snd out) = calls w ++ [All InventoryPage.ADD_TO_CART_BUTTON]
      /\ browser (snd out) = b)
  /\ (forall n b,
      locator_all CartPage.REMOVE_BUTTON (browser w) = (Ok n, b) ->
      Z.of_nat n <= index ->
      let out := CartPage.remove_item_by_index index w in
      fst out = Ok tt
      /\ calls (snd out) = calls w ++ [All CartPage.REMOVE_BUTTON]
      /\ browser (snd out) = b).
Proof.
  split; [| split; [| split]].
  - intros names b E Hle. unfold InventoryPage.get_product_name_by_index.
    erewrite bind_ok; [| apply get_all_texts_ok with (b := b); exact E].
    destruct (Z.ltb_spec index (len names)) as [Hlt | _]; [lia | reflexivity].
  - intros texts b E Hok Hle.
    unfold InventoryPage.get_product_price_by_index.
    destruct (price_list_eq w texts b E) as (Hp & _). cbv zeta in Hp.
    destruct (for_each_lift_all_ok price_of_text texts
                (after_call (AllTextContents ".inventory_item_price")
                   (locator_all_text_contents ".inventory_item_price") w) Hok)
      as (prices & Hprices & Hlen).
    erewrite bind_ok; [| rewrite Hp; exact Hprices].
    unfold len in *. rewrite Hlen.
    destruct (Z.ltb_spec index (Z.of_nat (length texts))) as [Hlt | _];
      [lia | reflexivity].
  - intros n b E Hle. cbv zeta.
    unfold InventoryPage.add_product_to_cart_by_index.
    now rewrite (nth_button_beyond _ _ index w n b E Hle).
  - intros n b E Hle. cbv zeta.
    unfold CartPage.remove_item_by_index.
    now rewrite (nth_button_beyond _ _ index w n b E Hle).
Qed.

End Indexes.

Lemma index_beyond_matches_degrades_catalog :
  (fst (InventoryPage.get_product_price_by_index 2
          (StaticPage.world (StaticPage.priced ["$29.99"; "$9.99"])
             (InventoryPage.init StaticPage.settings 1)))
   = Ok zero)
  /\ (fst (InventoryPage.get_product_name_by_index 0
             (StaticPage.world (StaticPage.priced ["$29.99"; "$9.99"])
                (InventoryPage.init StaticPage.settings 1)))
      = Ok EmptyString)
  /\ (calls (snd (CartPage.remove_item_by_index 0
                    (StaticPage.world (StaticPage.priced ["$29.99"; "$9.99"])
                       (CartPage.init StaticPage.settings 1))))
      = [All CartPage.REMOVE_BUTTON]).
Proof.
  split; [| split].
  - destruct (index_beyond_matches_degrades 2
                (StaticPage.world (StaticPage.priced ["$29.99"; "$9.99"])
                   (InventoryPage.init StaticPage.settings 1)))
      as (_ & H & _).
    rewrite (H ["$29.99"; "$9.99"] (StaticPage.priced ["$29.99"; "$9.99"]));
      [reflexivity | reflexivity | | discriminate].
    repeat constructor.
  - destruct (index_beyond_matches_degrades 0
                (StaticPage.world (StaticPage.priced ["$29.99"; "$9.99"])
                   (InventoryPage.init StaticPage.settings 1)))
      as (H & _).
    rewrite (H [] (StaticPage.priced ["$29.99"; "$9.99"]));
      [reflexivity | reflexivity | discriminate].
  - destruct (index_beyond_matches_degrades 0
                (StaticPage.world (StaticPage.priced ["$29.99"; "$9.99"])
                   (CartPage.init StaticPage.settings 1)))
      as (_ & _ & _ & H).
    destruct (H 0%nat (StaticPage.priced ["$29.99"; "$9.99"]) eq_refl)
      as (_ & Hcalls & _); [discriminate |].
    exact Hcalls.
Defined.

(** An index beyond the matches does not keep [get_product_price_by_index]
    from raising: every rendered price is converted before the index is
    looked at. *)
Lemma price_by_index_raises_beyond_matches :
  (len ["$29.99"; ""] <= 2)
  /\ (fst (InventoryPage.get_product_price_by_index 2
             (StaticPage.world (StaticPage.priced ["$29.99"; ""])
                (InventoryPage.init StaticPage.settings 1)))
      = Raise (ValueError "could not convert string to float: ''")).
Proof. split; [discriminate | vm_compute; reflexivity]. Qed.

(* ===================================================================== *)
(** * Further properties                                                  *)
(* ===================================================================== *)

Import Observe.

Section Actions.
Context {B : Type} {D : Driver B}.

Lemma fill_eq (selector value : string) (timeout : option Z) (w : World B) :
  let t := timeout_or timeout (BasePage.timeout (this w)) in
  fill selector value timeout w
  = (fst (page_fill selector value t (browser w)),
     mkWorld (snd (page_fill selector value t (browser w))) (this w)
       (calls w ++ [Fill selector value t])
       (log w ++ [logged (this w) DEBUG
                    ("Filling '" +:+ selector +:+ "' with: " +:+ value)])).
Proof.
  cbv zeta. unfold fill, bind, log_call, log_as, self_timeout, gets.
  rewrite invoke_eq. reflexivity.
Qed.

Lemma click_full_eq (selector : string) (timeout : option Z) (w : World B) :
  let t := timeout_or timeout (BasePage.timeout (this w)) in
  click selector timeout w
  = (fst (page_click selector t (browser w)),
     mkWorld (snd (page_click selector t (browser w))) (this w)
       (calls w ++ [Click selector t])
       (log w ++ [logged (this w) DEBUG ("Clicking element: " +:+ selector)])).
Proof.
  cbv zeta. unfold click, bind, log_call, log_as, self_timeout, gets.
  rewrite invoke_eq. reflexivity.
Qed.

Lemma login_eq (username password : string) (w : World B) :
  let d := BasePage.timeout (this w) in
  let self := this w in
  let info := logged self INFO ("Logging in with username: " +:+ username) in
  let du := logged self DEBUG
              ("Filling '" +:+ LoginPage.USERNAME_INPUT +:+ "' with: " +:+ username) in
  let dp := logged self DEBUG
              ("Filling '" +:+ LoginPage.PASSWORD_INPUT +:+ "' with: " +:+ password) in
  let dc := logged self DEBUG ("Clicking element: " +:+ LoginPage.LOGIN_BUTTON) in
  let fu := Fill LoginPage.USERNAME_INPUT username d in
  let fp := Fill LoginPage.PASSWORD_INPUT password d in
  LoginPage.login username password w =
  match page_fill LoginPage.USERNAME_INPUT username d (browser w) with
  | (Raise e, b1) =>
      (Raise e, mkWorld b1 self (calls w ++ [fu]) (log w ++ [info; du]))
  | (Ok _, b1) =>
      match page_fill LoginPage.PASSWORD_INPUT password d b1 with
      | (Raise e, b2) =>
          (Raise e, mkWorld b2 self (calls w ++ [fu; fp]) (log w ++ [info; du; dp]))
      | (Ok _, b2) =>
          (fst (page_click LoginPage.LOGIN_BUTTON d b2),
           mkWorld (snd (page_click LoginPage.LOGIN_BUTTON d b2)) self
             (calls w ++ [fu; fp; Click LoginPage.LOGIN_BUTTON d])
             (log w ++ [info; du; dp; dc]))
      end
  end.
Proof.
  cbv zeta. unfold LoginPage.login.
  unfold bind at 1, log_call at 1, log_as.
  unfold bind at 1. rewrite fill_eq.
  cbn [timeout_or this browser fst snd calls log].
  destruct (page_fill LoginPage.USERNAME_INPUT username _ (browser w))
    as [[[] | eu] b1]; cbn [fst snd];
    [| now rewrite <- !app_assoc].
  unfold bind at 1. rewrite fill_eq.
  cbn [timeout_or this browser fst snd calls log].
  destruct (page_fill LoginPage.PASSWORD_INPUT password _ b1)
    as [[[] | ep] b2]; cbn [fst snd];
    [| now rewrite <- !app_assoc].
  rewrite click_full_eq. cbn [timeout_or this browser fst snd calls log].
  now rewrite <- !app_assoc.
Qed.

(** X1. [login] fills the user name, then the password, then clicks the
    button, and stops at the first of these that raises: what comes after
    it is not attempted, and its exception is [login]'s. *)
Theorem login_stops_at_first_failure (username password : string) (w : World B) :
  let d := BasePage.timeout (this w) in
  let user := page_fill LoginPage.USERNAME_INPUT username d (browser w) in
  let pass := page_fill LoginPage.PASSWORD_INPUT password d (snd user) in
  let button := page_click LoginPage.LOGIN_BUTTON d (snd pass) in
  let out := LoginPage.login username password w in
  (forall e, fst user = Raise e ->
     fst out = Raise e
     /\ calls (snd out) = calls w ++ [Fill LoginPage.USERNAME_INPUT username d])
  /\ (forall e, fst user = Ok tt -> fst pass = Raise e ->
     fst out = Raise e
     /\ calls (snd out)
        = calls w ++ [Fill LoginPage.USERNAME_INPUT username d;
                      Fill LoginPage.PASSWORD_INPUT password d])
  /\ (fst user = Ok tt -> fst pass = Ok tt ->
     fst out = fst button
     /\ calls (snd out)
        = calls w ++ [Fill LoginPage.USERNAME_INPUT username d;
                      Fill LoginPage.PASSWORD_INPUT password d;
                      Click LoginPage.LOGIN_BUTTON d]).
Proof.
  cbv zeta. rewrite login_eq. cbv zeta.
  destruct (page_fill LoginPage.USERNAME_INPUT username _ (browser w))
    as [[[] | eu] b1]; cbn [fst snd].
  - destruct (page_fill LoginPage.PASSWORD_INPUT password _ b1)
      as [[[] | ep] b2]; cbn [fst snd calls].
    + split; [intros e H; discriminate H |].
      split; [intros e _ H; discriminate H |]. auto.
    + split; [intros e H; discriminate H |].
      split; [| intros _ H; discriminate H].
      intros e _ H. inversion H; subst. auto.
  - split; [| split].
    + intros e H. inversion H; subst. auto.
    + intros e H; discriminate H.
    + intros H; discriminate H.
Qed.

(** X2. Once the user name is filled, [login] has passed the password, in
    clear, to its logger (the debug record of [fill]). *)
Theorem login_logs_the_password (username password : string) (w : World B) :
  fst (page_fill LoginPage.USERNAME_INPUT username (BasePage.timeout (this w))
         (browser w)) = Ok tt ->
  In (logged (this w) DEBUG
        ("Filling '[data-test=" +:+ dq +:+ "password" +:+ dq +:+ "]' with: "
         +:+ password))
     (log (snd (LoginPage.login username password w))).
Proof.
  intros Hu. rewrite login_eq. cbv zeta.
  destruct (page_fill LoginPage.USERNAME_INPUT username _ (browser w))
    as [[[] | eu] b1]; [| discriminate Hu].
  destruct (page_fill LoginPage.PASSWORD_INPUT password _ b1)
    as [[[] | ep] b2]; cbn [snd log];
    apply in_or_app; right; right; right; now left.
Qed.
End Actions.

Lemma login_stops_at_first_failure_form :
  (fst (LoginPage.login "standard_user" "secret_sauce" login_form) = Ok tt)
  /\ (calls (snd (LoginPage.login "standard_user" "secret_sauce" login_form))
      = [Fill LoginPage.USERNAME_INPUT "standard_user" 30000;
         Fill LoginPage.PASSWORD_INPUT "secret_sauce" 30000;
         Click LoginPage.LOGIN_BUTTON 30000]).
Proof.
  destruct (login_stops_at_first_failure "standard_user" "secret_sauce"
              login_form) as (_ & _ & H).
  destruct (H eq_refl eq_refl) as [Hr Hc].
  split; [rewrite Hr; reflexivity | exact Hc].
Defined.

Lemma login_logs_the_password_form :
  In (logged (this login_form) DEBUG
        ("Filling '[data-test=" +:+ dq +:+ "password" +:+ dq
         +:+ "]' with: secret_sauce"))
     (log (snd (LoginPage.login "standard_user" "secret_sauce" login_form))).
Proof. exact (login_logs_the_password "standard_user" "secret_sauce" login_form eq_refl). Defined.


Section MoreProbes.
Context {B : Type} {D : Driver B}.

Lemma is_order_complete_eq (w : World B) :
  let d := BasePage.timeout (this w) in
  let w1 := after_call (WaitFor ".complete-header" "visible" d)
              (locator_wait_for ".complete-header" "visible" d) w in
  CheckoutCompletePage.is_order_complete w
  = if contains "checkout-complete" (page_url (browser w))
    then if is_ok (fst (locator_wait_for ".complete-header" "visible" d
                          (browser w)))
         then (Ok (is_ok (fst (locator_wait_for ".pony_express" "visible" d
                                 (browser w1)))),
               after_call (WaitFor ".pony_express" "visible" d)
                 (locator_wait_for ".pony_express" "visible" d) w1)
         else (Ok false, w1)
    else (Ok false, w).
Proof.
  cbv zeta. unfold CheckoutCompletePage.is_order_complete,
    CheckoutCompletePage.is_loaded, CheckoutCompletePage.is_success_image_visible.
  unfold bind at 1. unfold bind at 1. unfold get_url, gets, ret.
  destruct (contains "checkout-complete" (page_url (browser w))); [| reflexivity].
  unfold bind. rewrite is_visible_eq. cbn [timeout_or].
  destruct (is_ok _); [| reflexivity].
  rewrite is_visible_eq. reflexivity.
Qed.

(** X3. [is_order_complete] never raises. It is [True] exactly when the URL
    holds [checkout-complete] and the waits for the header and then for the
    image both succeed; when the URL does not hold it, [False] comes back
    at once and the driver is not called; when the header does not show,
    the image is not waited for. *)
Theorem is_order_complete_short_circuits (w : World B) :
  let d := BasePage.timeout (this w) in
  let loaded := contains "checkout-complete" (page_url (browser w)) in
  let header := locator_wait_for ".complete-header" "visible" d (browser w) in
  let image := locator_wait_for ".pony_express" "visible" d (snd header) in
  fst (CheckoutCompletePage.is_order_complete w)
  = Ok (loaded && is_ok (fst header) && is_ok (fst image))
  /\ (loaded = false ->
      CheckoutCompletePage.is_order_complete w = (Ok false, w))
  /\ (loaded = true -> is_ok (fst header) = false ->
      calls (snd (CheckoutCompletePage.is_order_complete w))
      = calls w ++ [WaitFor ".complete-header" "visible" d]).
Proof.
  cbv zeta. rewrite is_order_complete_eq. cbv zeta.
  destruct (contains "checkout-complete" (page_url (browser w))).
  - destruct (is_ok (fst (locator_wait_for ".complete-header" _ _ _))) eqn:E.
    + split; [reflexivity |].
      split; [intros H; discriminate H | intros _ H; discriminate H].
    + split; [reflexivity |]. split; [intros H; discriminate H |].
      intros _ _. reflexivity.
  - split; [reflexivity |]. split; [reflexivity |]. intros H; discriminate H.
Qed.

(** X4. [wait_for_selector] and [is_visible] make the same wait:
    [is_visible] returns [True] exactly when [wait_for_selector] for the
    state [visible] returns, and [False] exactly when it raises; the driver
    is left in the same state by both. *)
Theorem is_visible_is_wait_for_selector (selector : string)
    (timeout : option Z) (w : World B) :
  fst (is_visible selector timeout w)
  = Ok (is_ok (fst (wait_for_selector selector "visible" timeout w)))
  /\ browser (snd (is_visible selector timeout w))
     = browser (snd (wait_for_selector selector "visible" timeout w))
  /\ calls (snd (is_visible selector timeout w))
     = calls (snd (wait_for_selector selector "visible" timeout w)).
Proof.
  rewrite is_visible_eq. cbv zeta.
  unfold wait_for_selector, bind, log_call, log_as, self_timeout, gets.
  rewrite invoke_eq. cbn. auto.
Qed.

(** X5. A timeout of 0 given to [click], [fill], [get_text], [is_visible],
    [is_hidden] or [wait_for_selector] is not passed on: the call is made
    with the page object's own timeout, as when no timeout is given. Any
    other timeout, a negative one too, is passed on as it is. *)
Theorem zero_timeout_is_no_override (selector value state : string)
    (w : World B) :
  click selector (Some 0) w = click selector None w
  /\ fill selector value (Some 0) w = fill selector value None w
  /\ get_text selector (Some 0) w = get_text selector None w
  /\ is_visible selector (Some 0) w = is_visible selector None w
  /\ is_hidden selector (Some 0) w = is_hidden selector None w
  /\ wait_for_selector selector state (Some 0) w
     = wait_for_selector selector state None w
  /\ calls (snd (click selector (Some 0) w))
     = calls w ++ [Click selector (BasePage.timeout (this w))]
  /\ (forall t, t <> 0 ->
      calls (snd (click selector (Some t) w)) = calls w ++ [Click selector t]
      /\ calls (snd (fill selector value (Some t) w))
         = calls w ++ [Fill selector value t]
      /\ calls (snd (wait_for_selector selector state (Some t) w))
         = calls w ++ [WaitFor selector state t]
      /\ calls (snd (get_text selector (Some t) w))
         = calls w ++ [TextContent selector t]
      /\ calls (snd (is_visible selector (Some t) w))
         = calls w ++ [WaitFor selector "visible" t]
      /\ calls (snd (is_hidden selector (Some t) w))
         = calls w ++ [WaitFor selector "hidden" t]).
Proof.
  do 6 (split; [reflexivity |]). split; [apply click_eq |].
  intros t Ht. rewrite click_full_eq, fill_eq, is_visible_eq, is_hidden_eq.
  cbv zeta.
  unfold wait_for_selector, get_text, bind, log_call, log_as, self_timeout,
    gets, ret.
  rewrite !invoke_eq. unfold after_call. cbn [timeout_or snd calls this].
  destruct (Z.eqb_spec t 0) as [E | _]; [contradiction |].
  repeat split.
  now destruct (fst (locator_text_content selector t (browser w))).
Qed.

End MoreProbes.

Lemma zero_timeout_is_no_override_negative :
  calls (snd (click ".shopping_cart_link" (Some (-1)) StaticPage.without_badge))
  = [Click ".shopping_cart_link" (-1)].
Proof.
  refine (proj1 (proj2 (proj2 (proj2 (proj2 (proj2 (proj2 (proj2
    (zero_timeout_is_no_override ".shopping_cart_link" EmptyString "visible"
       StaticPage.without_badge))))))) (-1) _)).
  discriminate.
Defined.

Lemma is_order_complete_short_circuits_elsewhere :
  CheckoutCompletePage.is_order_complete
    (complete_page "https://www.saucedemo.com/inventory.html")
  = (Ok false, complete_page "https://www.saucedemo.com/inventory.html")
  /\ fst (CheckoutCompletePage.is_order_complete
            (complete_page "https://www.saucedemo.com/checkout-complete.html"))
     = Ok true.
Proof.
  split.
  - exact (proj1 (proj2 (is_order_complete_short_circuits
      (complete_page "https://www.saucedemo.com/inventory.html"))) eq_refl).
  - exact (proj1 (is_order_complete_short_circuits
      (complete_page "https://www.saucedemo.com/checkout-complete.html"))).
Defined.

(** ** Index-based clicks and the bulk operations *)

Import Loops.

Section WhileLoops.
Context {W : Type}.

(** A loop whose test reads a measure that each turn lowers by one comes to
    its end, given more fuel than the measure. *)
Lemma while_loop_terminates (cond : M (W := W) bool) (body : M (W := W) unit)
    (mu : W -> nat) (P : W -> Prop) :
  (forall w, P w ->
     exists w1, cond w = (Ok (negb (mu w =? 0)%nat), w1) /\ P w1 /\ mu w1 = mu w) ->
  (forall w, P w -> mu w <> O ->
     exists w2, body w = (Ok tt, w2) /\ P w2 /\ S (mu w2) = mu w) ->
  forall fuel w, P w -> (mu w < fuel)%nat ->
    exists w', while_loop fuel cond body w = (Ok (Some tt), w')
               /\ P w' /\ mu w' = O.
Proof.
  intros Hc Hb. induction fuel as [| fuel IH]; intros w HP Hlt; [lia |].
  destruct (Hc w HP) as (w1 & E1 & HP1 & M1).
  cbn [while_loop]. unfold bind at 1. rewrite E1.
  destruct (Nat.eqb_spec (mu w) O) as [Z | NZ]; cbn [negb].
  - exists w1. unfold ret. repeat split; [assumption | congruence].
  - destruct (Hb w1 HP1 ltac:(congruence)) as (w2 & E2 & HP2 & M2).
    unfold bind at 1. rewrite E2.
    apply IH; [assumption | lia].
Qed.

(** A loop whose test holds and whose body returns, on every state it can
    reach, is still running whatever the fuel. *)
Lemma while_loop_stuck (cond : M (W := W) bool) (body : M (W := W) unit)
    (P : W -> Prop) :
  (forall w, P w ->
     exists w1 w2, cond w = (Ok true, w1) /\ body w1 = (Ok tt, w2) /\ P w2) ->
  forall fuel w, P w ->
    exists w', while_loop fuel cond body w = (Ok None, w') /\ P w'.
Proof.
  intros H. induction fuel as [| fuel IH]; intros w HP; [now exists w |].
  destruct (H w HP) as (w1 & w2 & E1 & E2 & HP2).
  cbn [while_loop]. unfold bind at 1. rewrite E1.
  unfold bind at 1. rewrite E2. now apply IH.
Qed.

End WhileLoops.

Section Journal.
Context {B : Type}.

Lemma nth_clicks_app (selector : string) (l1 l2 : list Call) :
  nth_clicks selector (l1 ++ l2)
  = (nth_clicks selector l1 + nth_clicks selector l2)%nat.
Proof. unfold nth_clicks. now rewrite filter_app, length_app. Qed.

End Journal.

Section IndexClicks.
Context {B : Type} {D : Driver B}.

Lemma getitem_seq (n : nat) (i : Z) :
  getitem (seq 0 n) i
  = if (0 <=? i) && (i <? Z.of_nat n) then Ok (Z.to_nat i)
    else if (- Z.of_nat n <=? i) && (i <? 0)
         then Ok (Z.to_nat (i + Z.of_nat n))
         else Raise (IndexError "list index out of range").
Proof.
  unfold getitem. rewrite len_seq.
  destruct (Z.leb_spec 0 i) as [P | N]; cbn [andb].
  - destruct (Z.ltb_spec i 0); [lia |].
    destruct (Z.ltb_spec i 0); [lia |].
    rewrite nth_error_seq.
    destruct (Z.ltb_spec i (Z.of_nat n)), (Nat.ltb_spec (Z.to_nat i) n);
      try lia; try reflexivity.
    destruct (Z.leb_spec (- Z.of_nat n) i); reflexivity.
  - destruct (Z.ltb_spec i 0); [| lia].
    destruct (Z.leb_spec (- Z.of_nat n) i); cbn [andb].
    + destruct (Z.ltb_spec (i + Z.of_nat n) 0); [lia |].
      rewrite nth_error_seq.
      destruct (Nat.ltb_spec (Z.to_nat (i + Z.of_nat n)) n); [reflexivity | lia].
    + destruct (Z.ltb_spec (i + Z.of_nat n) 0); [reflexivity | lia].
Qed.

(** The shape shared by the index-based clicks: log, list the matches,
    test the index, take the element, click it. *)
Lemma nth_button_eq (selector message : string) (index : Z)
    (w : World B) (n : nat) (b : B) :
  locator_all selector (browser w) = (Ok n, b) ->
  let w1 := mkWorld b (this w) (calls w ++ [All selector])
              (log w ++ [ {| log_name := logger (this w); log_level := INFO;
                             log_message := message |} ]) in
  bind (log_call INFO message)
    (fun _ =>
       bind (locator_all_list selector)
         (fun buttons =>
            if index <? len buttons
            then bind (lift (getitem buttons index))
                   (fun k => invoke (NthClick selector k)
                               (locator_nth_click selector k))
            else ret tt)) w
  = if index <? Z.of_nat n
    then match getitem (seq 0 n) index with
         | Ok k => invoke (NthClick selector k) (locator_nth_click selector k) w1
         | Raise e => (Raise e, w1)
         end
    else (Ok tt, w1).
Proof.
  intros E. cbv zeta.
  unfold bind at 1, log_call, log_as.
  erewrite bind_ok; [| apply locator_all_list_ok with (b := b); exact E].
  rewrite len_seq. unfold after_call. cbn [browser this calls log].
  rewrite E. cbn [snd].
  destruct (index <? Z.of_nat n); [| reflexivity].
  unfold bind, lift. reflexivity.
Qed.

(** X9. [click_product_image] with [n] images on the page: an index from 0
    to [n - 1] clicks that image; an index of [n] or more clicks nothing
    and returns; a negative index down to [-n] counts from the end and
    clicks image [n + index]; an index below [-n] raises [IndexError], with
    nothing clicked. *)
Theorem click_product_image_by_index (index : Z) (w : World B) (n : nat)
    (b : B) :
  locator_all ".inventory_item_img" (browser w) = (Ok n, b) ->
  let out := InventoryPageBulk.click_product_image index w in
  let clicked k :=
    fst out = fst (locator_nth_click ".inventory_item_img" k b)
    /\ calls (snd out)
       = calls w ++ [All ".inventory_item_img";
                     NthClick ".inventory_item_img" k] in
  (0 <= index < Z.of_nat n -> clicked (Z.to_nat index))
  /\ (Z.of_nat n <= index ->
      fst out = Ok tt /\ calls (snd out) = calls w ++ [All ".inventory_item_img"])
  /\ (- Z.of_nat n <= index < 0 -> clicked (Z.to_nat (Z.of_nat n + index)))
  /\ (index < - Z.of_nat n ->
      fst out = Raise (IndexError "list index out of range")
      /\ calls (snd out) = calls w ++ [All ".inventory_item_img"]).
Proof.
  intros E. cbv zeta.
  unfold InventoryPageBulk.click_product_image.
  rewrite (nth_button_eq _ _ index w n b E). cbv zeta.
  rewrite getitem_seq.
  split; [| split; [| split]]; intros H.
  - destruct (Z.ltb_spec index (Z.of_nat n)); [| lia].
    destruct (Z.leb_spec 0 index); [| lia]. cbn [andb].
    rewrite invoke_eq. unfold after_call. cbn [fst snd calls browser].
    rewrite <- app_assoc. split; reflexivity.
  - destruct (Z.ltb_spec index (Z.of_nat n)); [lia |]. split; reflexivity.
  - destruct (Z.ltb_spec index (Z.of_nat n)); [| lia].
    destruct (Z.leb_spec 0 index); [lia |]. cbn [andb].
    destruct (Z.leb_spec (- Z.of_nat n) index); [| lia].
    destruct (Z.ltb_spec index 0); [| lia]. cbn [andb].
    rewrite invoke_eq. unfold after_call. cbn [fst snd calls browser].
    rewrite <- app_assoc, (Z.add_comm index). split; reflexivity.
  - destruct (Z.ltb_spec index (Z.of_nat n)); [| lia].
    destruct (Z.leb_spec 0 index); [lia |]. cbn [andb].
    destruct (Z.leb_spec (- Z.of_nat n) index); [lia |]. cbn [andb].
    split; reflexivity.
Qed.

End IndexClicks.

Lemma click_product_image_by_index_last :
  calls (snd (InventoryPageBulk.click_product_image (-1) gallery))
  = [All ".inventory_item_img"; NthClick ".inventory_item_img" 5]
  /\ fst (InventoryPageBulk.click_product_image (-7) gallery)
     = Raise (IndexError "list index out of range").
Proof.
  split.
  - refine (proj2 (proj1 (proj2 (proj2
      (click_product_image_by_index (-1) gallery 6 (browser gallery) eq_refl)))
      _)).
    lia.
  - refine (proj1 (proj2 (proj2 (proj2
      (click_product_image_by_index (-7) gallery 6 (browser gallery) eq_refl)))
      _)).
    lia.
Defined.

Section RemoveAll.
Context {B : Type} {D : Driver B}.
Variable items : B -> nat.

Hypothesis cart_items : forall b,
  locator_count CartPage.CART_ITEM b = (Ok (Z.of_nat (items b)), b).
Hypothesis remove_buttons : forall b,
  locator_all CartPage.REMOVE_BUTTON b = (Ok (items b), b).
Hypothesis first_button : forall b, items b <> O ->
  exists b', locator_nth_click CartPage.REMOVE_BUTTON 0 b = (Ok tt, b')
             /\ S (items b') = items b.

(** X6. On a cart page where every item has its remove button and a click
    on the first button takes one item away, [remove_all_items] returns,
    leaves no item, and has clicked the first button once for each item
    that was in the cart; [is_cart_empty] then answers [True]. *)
Theorem remove_all_items_empties_the_cart (fuel : nat) (w : World B) :
  (items (browser w) < fuel)%nat ->
  let out := CartPageBulk.remove_all_items fuel w in
  fst out = Ok (Some tt)
  /\ items (browser (snd out)) = O
  /\ nth_clicks CartPage.REMOVE_BUTTON (calls (snd out))
     = (nth_clicks CartPage.REMOVE_BUTTON (calls w) + items (browser w))%nat
  /\ fst (CartPageBulk.is_cart_empty (snd out)) = Ok true.
Proof.
  intros Hfuel. cbv zeta.
  set (w0 := snd (log_call INFO "Removing all items from cart" w)).
  assert (E0 : CartPageBulk.remove_all_items fuel w
               = while_loop fuel
                   (bind CartPage.get_cart_item_count (fun n => ret (0 <? n)))
                   (CartPage.remove_item_by_index 0) w0) by reflexivity.
  rewrite E0. clear E0.
  set (K := (nth_clicks CartPage.REMOVE_BUTTON (calls w) + items (browser w))%nat).
  destruct (while_loop_terminates
              (bind CartPage.get_cart_item_count (fun n => ret (0 <? n)))
              (CartPage.remove_item_by_index 0)
              (fun w => items (browser w))
              (fun w => (nth_clicks CartPage.REMOVE_BUTTON (calls w)
                         + items (browser w))%nat = K)) with (fuel := fuel) (w := w0)
    as (w' & E & HP & HM).
  - intros w1 HP. eexists. split; [| split].
    + unfold bind, CartPage.get_cart_item_count, get_element_count.
      rewrite invoke_eq. unfold after_call. rewrite cart_items. cbn [fst snd].
      unfold ret. f_equal. f_equal.
      destruct (items (browser w1)); [reflexivity |].
      cbn [Nat.eqb negb]. destruct (Z.ltb_spec 0 (Z.of_nat (S n))); [reflexivity | lia].
    + cbn [calls browser]. rewrite nth_clicks_app.
      change (nth_clicks CartPage.REMOVE_BUTTON [Count CartPage.CART_ITEM]) with O.
      lia.
    + reflexivity.
  - intros w1 HP NZ.
    destruct (first_button (browser w1) NZ) as (b' & Eb & Sb).
    eexists. split; [| split].
    + unfold CartPage.remove_item_by_index. unfold bind at 1.
      unfold log_call at 1, log_as. unfold bind at 1.
      unfold locator_all_list. unfold bind at 1. rewrite invoke_eq.
      unfold after_call. cbn [browser fst snd]. rewrite remove_buttons.
      cbn [fst snd]. unfold ret at 1.
      destruct (items (browser w1)) as [| n] eqn:En; [congruence |].
      replace (0 <? len (seq 0 (S n))) with true
        by (destruct (Z.ltb_spec 0 (len (seq 0 (S n)))) as [| L];
            [reflexivity | unfold len in L; rewrite length_seq in L; lia]).
      unfold bind at 1, lift. cbn [getitem seq].
      change (getitem (O :: seq 1 n) 0) with (Ok (A := nat) O). cbv beta iota.
      rewrite invoke_eq. unfold after_call. cbn [browser this calls log].
      rewrite Eb. reflexivity.
    + cbn [calls browser snd]. rewrite !nth_clicks_app.
      change (nth_clicks CartPage.REMOVE_BUTTON [All CartPage.REMOVE_BUTTON])
        with O.
      change (nth_clicks CartPage.REMOVE_BUTTON
                [NthClick CartPage.REMOVE_BUTTON 0]) with 1%nat.
      lia.
    + cbn [browser snd]. exact Sb.
  - reflexivity.
  - exact Hfuel.
  - rewrite E. cbn [fst snd]. subst K. split; [reflexivity |].
    split; [exact HM |]. split; [lia |].
    unfold CartPageBulk.is_cart_empty, bind, CartPage.get_cart_item_count,
      get_element_count.
    rewrite invoke_eq, cart_items, HM. reflexivity.
Qed.

End RemoveAll.

Section RemoveAllStuck.
Context {B : Type} {D : Driver B}.

(** X7. On a cart page that lists items but shows no remove button, and
    that reading does not change, [remove_all_items] never returns: whatever
    the number of turns allowed, the loop is still running, and no button
    has been clicked. *)
Theorem remove_all_items_never_returns (n : Z) (w : World B) :
  0 < n ->
  locator_count CartPage.CART_ITEM (browser w) = (Ok n, browser w) ->
  locator_all CartPage.REMOVE_BUTTON (browser w) = (Ok O, browser w) ->
  forall fuel,
    fst (CartPageBulk.remove_all_items fuel w) = Ok None
    /\ nth_clicks CartPage.REMOVE_BUTTON
         (calls (snd (CartPageBulk.remove_all_items fuel w)))
       = nth_clicks CartPage.REMOVE_BUTTON (calls w).
Proof.
  intros Hn Hc Ha fuel.
  set (w0 := snd (log_call INFO "Removing all items from cart" w)).
  change (CartPageBulk.remove_all_items fuel w)
    with (while_loop fuel
            (bind CartPage.get_cart_item_count (fun n => ret (0 <? n)))
            (CartPage.remove_item_by_index 0) w0).
  destruct (while_loop_stuck
              (bind CartPage.get_cart_item_count (fun n => ret (0 <? n)))
              (CartPage.remove_item_by_index 0)
              (fun w' => browser w' = browser w
                         /\ nth_clicks CartPage.REMOVE_BUTTON (calls w')
                            = nth_clicks CartPage.REMOVE_BUTTON (calls w)))
    with (fuel := fuel) (w := w0) as (w' & E & _ & HC).
  - intros w1 [HB HC]. eexists. eexists. split; [| split].
    + unfold bind, CartPage.get_cart_item_count, get_element_count.
      rewrite invoke_eq. unfold after_call. rewrite HB, Hc. cbn [fst snd].
      unfold ret. destruct (Z.ltb_spec 0 n); [reflexivity | lia].
    + unfold CartPage.remove_item_by_index.
      rewrite (nth_button_eq _ _ 0 _ O (browser w)) by exact Ha.
      reflexivity.
    + cbn [browser calls]. split; [reflexivity |].
      rewrite !nth_clicks_app, HC.
      change (nth_clicks CartPage.REMOVE_BUTTON [Count CartPage.CART_ITEM])
        with O.
      change (nth_clicks CartPage.REMOVE_BUTTON [All CartPage.REMOVE_BUTTON])
        with O.
      lia.
  - split; reflexivity.
  - rewrite E. split; [reflexivity | exact HC].
Qed.

End RemoveAllStuck.

Section InventoryBulk.
Context {B : Type} {D : Driver B}.
Variable buttons : B -> nat.

Hypothesis remove_buttons : forall b,
  locator_count InventoryPage.REMOVE_BUTTON b = (Ok (Z.of_nat (buttons b)), b).
Hypothesis first_button : forall b, buttons b <> O ->
  exists b', locator_nth_click InventoryPage.REMOVE_BUTTON 0 b = (Ok tt, b')
             /\ S (buttons b') = buttons b.

(** X8. On an inventory page where a click on the first remove button
    takes one remove button away, [remove_all_products_from_cart] returns,
    leaves no remove button, and has clicked the first button once for
    each button there was. *)
Theorem remove_all_products_clicks_each_once (fuel : nat) (w : World B) :
  (buttons (browser w) < fuel)%nat ->
  let out := InventoryPageBulk.remove_all_products_from_cart fuel w in
  fst out = Ok (Some tt)
  /\ buttons (browser (snd out)) = O
  /\ nth_clicks InventoryPage.REMOVE_BUTTON (calls (snd out))
     = (nth_clicks InventoryPage.REMOVE_BUTTON (calls w)
        + buttons (browser w))%nat.
Proof.
  intros Hfuel. cbv zeta.
  set (w0 := snd (log_call INFO "Removing all products from cart" w)).
  change (InventoryPageBulk.remove_all_products_from_cart fuel w)
    with (while_loop fuel
            (bind (get_element_count InventoryPage.REMOVE_BUTTON)
                  (fun n => ret (0 <? n)))
            (invoke (NthClick InventoryPage.REMOVE_BUTTON 0)
                    (locator_nth_click InventoryPage.REMOVE_BUTTON 0)) w0).
  set (K := (nth_clicks InventoryPage.REMOVE_BUTTON (calls w)
             + buttons (browser w))%nat).
  destruct (while_loop_terminates
              (bind (get_element_count InventoryPage.REMOVE_BUTTON)
                    (fun n => ret (0 <? n)))
              (invoke (NthClick InventoryPage.REMOVE_BUTTON 0)
                      (locator_nth_click InventoryPage.REMOVE_BUTTON 0))
              (fun w => buttons (browser w))
              (fun w => (nth_clicks InventoryPage.REMOVE_BUTTON (calls w)
                         + buttons (browser w))%nat = K))
    with (fuel := fuel) (w := w0) as (w' & E & HP & HM).
  - intros w1 HP. eexists. split; [| split].
    + unfold bind, get_element_count.
      rewrite invoke_eq. unfold after_call. rewrite remove_buttons.
      cbn [fst snd]. unfold ret. f_equal. f_equal.
      destruct (buttons (browser w1)) as [| n]; [reflexivity |].
      cbn [Nat.eqb negb].
      destruct (Z.ltb_spec 0 (Z.of_nat (S n))); [reflexivity | lia].
    + cbn [calls browser]. rewrite nth_clicks_app.
      change (nth_clicks InventoryPage.REMOVE_BUTTON
                [Count InventoryPage.REMOVE_BUTTON]) with O.
      lia.
    + reflexivity.
  - intros w1 HP NZ.
    destruct (first_button (browser w1) NZ) as (b' & Eb & Sb).
    eexists. split; [| split].
    + rewrite invoke_eq. unfold after_call. rewrite Eb. reflexivity.
    + cbn [calls browser snd]. rewrite nth_clicks_app.
      change (nth_clicks InventoryPage.REMOVE_BUTTON
                [NthClick InventoryPage.REMOVE_BUTTON 0]) with 1%nat.
      lia.
    + cbn [browser snd]. exact Sb.
  - reflexivity.
  - exact Hfuel.
  - rewrite E. cbn [fst snd]. subst K. split; [reflexivity |].
    split; [exact HM |]. lia.
Qed.

End InventoryBulk.

Lemma remove_all_items_empties_the_cart_shop :
  fst (CartPageBulk.remove_all_items 4 (ShopPage.world 3 3)) = Ok (Some tt)
  /\ nth_clicks CartPage.REMOVE_BUTTON
       (calls (snd (CartPageBulk.remove_all_items 4 (ShopPage.world 3 3))))
     = 3%nat.
Proof.
  assert (H : (ShopPage.in_cart (browser (ShopPage.world 3 3)) < 4)%nat)
    by (cbn; lia).
  assert (Hc : forall s, locator_count CartPage.CART_ITEM s
                         = (Ok (Z.of_nat (ShopPage.in_cart s)), s))
    by (intros s; reflexivity).
  assert (Ha : forall s, locator_all CartPage.REMOVE_BUTTON s
                         = (Ok (ShopPage.in_cart s), s))
    by (intros s; reflexivity).
  assert (Hk : forall s, ShopPage.in_cart s <> O ->
             exists s', locator_nth_click CartPage.REMOVE_BUTTON 0 s = (Ok tt, s')
                        /\ S (ShopPage.in_cart s') = ShopPage.in_cart s).
  { intros [shelf [| k]] NZ; [now destruct NZ |].
    eexists. split; reflexivity. }
  destruct (remove_all_items_empties_the_cart ShopPage.in_cart Hc Ha Hk
              4%nat (ShopPage.world 3 3) H) as (H1 & _ & H3 & _).
  split; [exact H1 | exact H3].
Defined.

Lemma remove_all_items_never_returns_without_buttons :
  fst (CartPageBulk.remove_all_items 1000 cart_without_buttons) = Ok None.
Proof.
  refine (proj1 (remove_all_items_never_returns 2 cart_without_buttons
                   _ eq_refl eq_refl 1000%nat)).
  lia.
Defined.

Lemma remove_all_products_clicks_each_once_shop :
  fst (InventoryPageBulk.remove_all_products_from_cart 7 (ShopPage.world 0 6))
  = Ok (Some tt)
  /\ nth_clicks InventoryPage.REMOVE_BUTTON
       (calls (snd (InventoryPageBulk.remove_all_products_from_cart 7
                      (ShopPage.world 0 6))))
     = 6%nat.
Proof.
  assert (H : (ShopPage.in_cart (browser (ShopPage.world 0 6)) < 7)%nat)
    by (cbn; lia).
  assert (Hc : forall s, locator_count InventoryPage.REMOVE_BUTTON s
                         = (Ok (Z.of_nat (ShopPage.in_cart s)), s))
    by (intros s; reflexivity).
  assert (Hk : forall s, ShopPage.in_cart s <> O ->
             exists s', locator_nth_click InventoryPage.REMOVE_BUTTON 0 s
                        = (Ok tt, s')
                        /\ S (ShopPage.in_cart s') = ShopPage.in_cart s).
  { intros [shelf [| k]] NZ; [now destruct NZ |].
    eexists. split; reflexivity. }
  destruct (remove_all_products_clicks_each_once ShopPage.in_cart Hc Hk
              7%nat (ShopPage.world 0 6) H) as (H1 & _ & H3).
  split; [exact H1 | exact H3].
Defined.

Section AddAll.
Context {B : Type} {D : Driver B}.
Variable adds : B -> nat.

Hypothesis add_buttons : forall b,
  locator_all InventoryPage.ADD_TO_CART_BUTTON b = (Ok (adds b), b).
Hypothesis add_click : forall b k, (k < adds b)%nat ->
  exists b', locator_nth_click InventoryPage.ADD_TO_CART_BUTTON k b = (Ok tt, b')
             /\ S (adds b') = adds b.

Lemma add_product_to_cart_by_index_eq (i : nat) (w : World B) :
  exists w',
    InventoryPage.add_product_to_cart_by_index (Z.of_nat i) w = (Ok tt, w')
    /\ adds (browser w') = (if (i <? adds (browser w))%nat
                            then Nat.pred (adds (browser w))
                            else adds (browser w))
    /\ (nth_clicks InventoryPage.ADD_TO_CART_BUTTON (calls w')
        + adds (browser w'))%nat
       = (nth_clicks InventoryPage.ADD_TO_CART_BUTTON (calls w)
          + adds (browser w))%nat.
Proof.
  unfold InventoryPage.add_product_to_cart_by_index.
  rewrite (nth_button_eq _ _ _ w _ _ (add_buttons (browser w))). cbv zeta.
  rewrite getitem_seq.
  destruct (Nat.ltb_spec i (adds (browser w))) as [L | L].
  - destruct (Z.ltb_spec (Z.of_nat i) (Z.of_nat (adds (browser w)))); [| lia].
    destruct (Z.leb_spec 0 (Z.of_nat i)); [| lia]. cbn [andb].
    rewrite Nat2Z.id, invoke_eq. unfold after_call. cbn [browser calls].
    destruct (add_click (browser w) i L) as (b' & Eb & Sb).
    rewrite Eb. eexists. split; [reflexivity |].
    cbn [browser calls snd]. split; [lia |].
    rewrite !nth_clicks_app.
    change (nth_clicks InventoryPage.ADD_TO_CART_BUTTON
              [All InventoryPage.ADD_TO_CART_BUTTON]) with O.
    change (nth_clicks InventoryPage.ADD_TO_CART_BUTTON
              [NthClick InventoryPage.ADD_TO_CART_BUTTON i]) with 1%nat.
    lia.
  - destruct (Z.ltb_spec (Z.of_nat i) (Z.of_nat (adds (browser w)))); [lia |].
    eexists. split; [reflexivity |]. cbn [browser calls]. split; [reflexivity |].
    rewrite nth_clicks_app.
    change (nth_clicks InventoryPage.ADD_TO_CART_BUTTON
              [All InventoryPage.ADD_TO_CART_BUTTON]) with O.
    lia.
Qed.

Lemma add_from_index (m i : nat) (w : World B) :
  exists w',
    for_in (map Z.of_nat (seq i m)) InventoryPage.add_product_to_cart_by_index w
    = (Ok tt, w')
    /\ adds (browser w') = add_buttons_left i (adds (browser w)) m
    /\ (nth_clicks InventoryPage.ADD_TO_CART_BUTTON (calls w')
        + adds (browser w'))%nat
       = (nth_clicks InventoryPage.ADD_TO_CART_BUTTON (calls w)
          + adds (browser w))%nat.
Proof.
  revert i w. induction m as [| m IH]; intros i w.
  - exists w. repeat split.
  - destruct (add_product_to_cart_by_index_eq i w) as (w1 & E1 & A1 & C1).
    destruct (IH (S i) w1) as (w2 & E2 & A2 & C2).
    exists w2. cbn [seq map for_in]. unfold bind at 1. rewrite E1.
    split; [exact E2 |]. split; [| lia].
    rewrite A2, A1. cbn [add_buttons_left].
    destruct (Nat.ltb_spec i (adds (browser w))) as [L | L]; [reflexivity |].
    clear - L. revert i L. generalize (adds (browser w)) as a.
    induction m as [| m IHm]; intros a i L; [reflexivity |].
    cbn [add_buttons_left].
    destruct (Nat.ltb_spec (S i) a); [lia | reflexivity].
Qed.

Lemma add_buttons_left_half (m i a : nat) :
  (a <= i + m)%nat ->
  if (i <? a)%nat
  then (2 * add_buttons_left i a m <= i + a <= 2 * add_buttons_left i a m + 1)%nat
  else add_buttons_left i a m = a.
Proof.
  revert i a. induction m as [| m IH]; intros i a H.
  - destruct (Nat.ltb_spec i a); [lia | reflexivity].
  - cbn [add_buttons_left]. destruct (Nat.ltb_spec i a) as [L | L]; [| reflexivity].
    specialize (IH (S i) (Nat.pred a) ltac:(lia)).
    destruct (Nat.ltb_spec (S i) (Nat.pred a)); lia.
Qed.

(** X10. On an inventory page where a clicked add button is an add button
    no more, [add_all_products_to_cart] returns but adds only every other
    product: of [a] add buttons, half (rounded down) are still there at the
    end, and the number of clicks made is the other half. *)
Theorem add_all_products_adds_every_other (w : World B) (n : nat) :
  locator_count InventoryPage.INVENTORY_ITEM (browser w)
  = (Ok (Z.of_nat n), browser w) ->
  (adds (browser w) <= n)%nat ->
  let out := InventoryPageBulk.add_all_products_to_cart w in
  let left := adds (browser (snd out)) in
  fst out = Ok tt
  /\ (2 * left <= adds (browser w) <= 2 * left + 1)%nat
  /\ (nth_clicks InventoryPage.ADD_TO_CART_BUTTON (calls (snd out)) + left)%nat
     = (nth_clicks InventoryPage.ADD_TO_CART_BUTTON (calls w)
        + adds (browser w))%nat.
Proof.
  intros Hc Hle. cbv zeta.
  set (w1 := mkWorld (browser w) (this w)
               (calls w ++ [Count InventoryPage.INVENTORY_ITEM])
               (log w ++ [ {| log_name := logger (this w); log_level := INFO;
                              log_message := "Adding all products to cart" |} ])).
  destruct (add_from_index n 0 w1) as (w2 & E2 & A2 & C2).
  assert (E : InventoryPageBulk.add_all_products_to_cart w = (Ok tt, w2)).
  { unfold InventoryPageBulk.add_all_products_to_cart. unfold bind at 1.
    unfold log_call at 1, log_as. unfold bind at 1.
    unfold InventoryPage.get_product_count, get_element_count.
    rewrite invoke_eq. unfold after_call. cbn [browser this calls log].
    rewrite Hc. cbn [fst snd]. unfold range. rewrite Nat2Z.id. exact E2. }
  rewrite E. cbn [fst snd]. split; [reflexivity |].
  subst w1. cbn [browser calls] in A2, C2.
  rewrite nth_clicks_app in C2.
  change (nth_clicks InventoryPage.ADD_TO_CART_BUTTON
            [Count InventoryPage.INVENTORY_ITEM]) with O in C2.
  split; [| lia].
  rewrite A2.
  pose proof (add_buttons_left_half n 0 (adds (browser w)) ltac:(lia)) as Hh.
  destruct (Nat.ltb_spec 0 (adds (browser w))) as [L | L]; lia.
Qed.

End AddAll.

Lemma add_all_products_adds_every_other_shop :
  fst (InventoryPageBulk.add_all_products_to_cart (ShopPage.world 6 0)) = Ok tt
  /\ ShopPage.on_shelf
       (browser (snd (InventoryPageBulk.add_all_products_to_cart
                        (ShopPage.world 6 0)))) = 3%nat.
Proof.
  assert (Ha : forall s, locator_all InventoryPage.ADD_TO_CART_BUTTON s
                         = (Ok (ShopPage.on_shelf s), s))
    by (intros s; reflexivity).
  assert (Hk : forall s k, (k < ShopPage.on_shelf s)%nat ->
             exists s', locator_nth_click InventoryPage.ADD_TO_CART_BUTTON k s
                        = (Ok tt, s')
                        /\ S (ShopPage.on_shelf s') = ShopPage.on_shelf s).
  { intros [shelf cart] k L. cbn [ShopPage.on_shelf] in L.
    exists {| ShopPage.on_shelf := Nat.pred shelf; ShopPage.in_cart := S cart |}.
    split; [| cbn; lia].
    change (locator_nth_click InventoryPage.ADD_TO_CART_BUTTON k
              {| ShopPage.on_shelf := shelf; ShopPage.in_cart := cart |})
      with (if (k <? shelf)%nat
            then (Ok tt, {| ShopPage.on_shelf := Nat.pred shelf;
                            ShopPage.in_cart := S cart |})
            else (Raise (TimeoutError
                    ("Timeout exceeded waiting for "
                     +:+ InventoryPage.ADD_TO_CART_BUTTON)),
                  {| ShopPage.on_shelf := shelf; ShopPage.in_cart := cart |})).
    destruct (Nat.ltb_spec k shelf); [reflexivity | lia]. }
  destruct (add_all_products_adds_every_other ShopPage.on_shelf Ha Hk
              (ShopPage.world 6 0) 6 eq_refl (le_n 6)) as (H1 & H2 & _).
  split; [exact H1 |]. cbv zeta in H2. cbn [ShopPage.world browser ShopPage.on_shelf] in H2.
  lia.
Defined.

(** ** Screenshots, user types, batches and phase reports *)

Section Screenshot.
Context {B : Type} {D : Driver B}.

(** X11. [screenshot] makes the directory, logs, takes the screenshot and
    returns the path [<project root>/<screenshot dir>/<name>.png]. When the
    directory cannot be made the exception goes to the caller, with nothing
    logged and no screenshot asked for; when the screenshot fails its
    exception goes to the caller; the path is returned only when both
    succeeded. *)
Theorem screenshot_makes_the_directory_first (settings : Settings.Settings)
    (name : string) (full_page : bool) (w : World B) :
  let path :=
    path_div (path_div (Settings.project_root settings)
                       (Settings.screenshot_dir settings)) (name +:+ ".png") in
  let dir := path_mkdir (path_parent path) (browser w) in
  let shot := page_screenshot path full_page (snd dir) in
  let out := BasePageScreenshot.screenshot settings name full_page w in
  (forall e, fst dir = Raise e ->
     fst out = Raise e
     /\ calls (snd out) = calls w ++ [Mkdir (path_parent path)]
     /\ log (snd out) = log w)
  /\ (fst dir = Ok tt ->
      fst out = match fst shot with Ok _ => Ok path | Raise e => Raise e end
      /\ calls (snd out)
         = calls w ++ [Mkdir (path_parent path); Screenshot path full_page]
      /\ log (snd out)
         = log w ++ [logged (this w) INFO ("Taking screenshot: " +:+ path)]).
Proof.
  cbv zeta.
  assert (E : BasePageScreenshot.screenshot settings name full_page w
          = let path := path_div (path_div (Settings.project_root settings)
                         (Settings.screenshot_dir settings)) (name +:+ ".png") in
            let dir := path_mkdir (path_parent path) (browser w) in
            let shot := page_screenshot path full_page (snd dir) in
            match fst dir with
            | Raise e => (Raise e, mkWorld (snd dir) (this w)
                                     (calls w ++ [Mkdir (path_parent path)]) (log w))
            | Ok _ =>
                (match fst shot with Ok _ => Ok path | Raise e => Raise e end,
                 mkWorld (snd shot) (this w)
                   ((calls w ++ [Mkdir (path_parent path)])
                    ++ [Screenshot path full_page])
                   (log w ++ [logged (this w) INFO
                                ("Taking screenshot: " +:+ path)]))
            end).
  { unfold BasePageScreenshot.screenshot, Conftest.screenshots_path.
    cbv zeta. unfold bind at 1. rewrite invoke_eq. unfold after_call.
    destruct (path_mkdir _ (browser w)) as [[[] | e] b1]; cbn [fst snd];
      [| reflexivity].
    unfold bind at 1. unfold log_call at 1, log_as. cbn [browser this calls log].
    unfold bind at 1. rewrite invoke_eq. unfold after_call.
    cbn [browser this calls log].
    destruct (page_screenshot _ full_page b1) as [[[] | e] b2]; reflexivity. }
  rewrite E. cbv zeta. split.
  - intros e He. rewrite He. cbn [fst snd calls log]. auto.
  - intros Hd. rewrite Hd. cbn [fst snd calls log].
    rewrite <- app_assoc. auto.
Qed.

End Screenshot.

Lemma screenshot_makes_the_directory_first_disk_full :
  fst (BasePageScreenshot.screenshot StaticPage.settings "cart" false
         (StaticPage.world
            {| StaticPage.elements := [];
               StaticPage.current_url := "https://www.saucedemo.com/cart.html";
               StaticPage.disk_ok := false; StaticPage.tracer_ok := true;
               StaticPage.files := []; StaticPage.clicked := [] |}
            (CartPage.init StaticPage.settings 1)))
  = Raise (OSError "cannot create /srv/framework/screenshots").
Proof.
  refine (proj1 (proj1 (screenshot_makes_the_directory_first
    StaticPage.settings "cart" false _) _ _)).
  reflexivity.
Defined.

Section UserTypes.

(** X12. The user types the test-data generator lists are exactly the keys
    [get_user_credentials] knows: each listed type has its own entry in the
    lookup table (none falls back to the standard user by default), no
    other text has one, and no type is listed twice. *)
Theorem get_all_user_types_are_the_known_keys (s : Settings.Settings)
    (g : TestData.TestDataGenerator) (user_type : string) :
  (In user_type (TestData.get_all_user_types g)
   <-> is_Some (Settings.user_map s !! user_type))
  /\ NoDup (TestData.get_all_user_types g).
Proof.
  split.
  - unfold TestData.get_all_user_types, Settings.user_map. split.
    + intros H. cbn [In] in H.
      destruct H as [<- | [<- | [<- | [<- | [<- | [<- | []]]]]]];
        vm_compute; eauto.
    + intros H.
      rewrite !lookup_insert_is_Some in H. rewrite lookup_empty in H.
      cbn [In].
      destruct H as [-> | [_ [-> | [_ [-> | [_ [-> | [_ [-> | [_ [-> | [_ H]]]]]]]]]]]];
        auto 10.
      destruct H as [x Hx]. discriminate Hx.
  - unfold TestData.get_all_user_types.
    compute_done.
Qed.

End UserTypes.

Section Batches.
Context {F : TestData.Faker}.

Lemma repeat_draw_length {A} (f : TestData.G A) (n : nat) (r : TestData.rng) :
  length (fst (TestData.repeat_draw f n r)) = n.
Proof.
  revert r. induction n as [| n IH]; intros r; [reflexivity |].
  cbn [TestData.repeat_draw]. destruct (f r) as [a r1].
  specialize (IH r1). destruct (TestData.repeat_draw f n r1) as [l r2].
  cbn [fst length] in *. now rewrite IH.
Qed.

Lemma repeat_draw_app {A} (f : TestData.G A) (n m : nat) (r : TestData.rng) :
  TestData.repeat_draw f (n + m) r
  = (fst (TestData.repeat_draw f n r)
     ++ fst (TestData.repeat_draw f m (snd (TestData.repeat_draw f n r))),
     snd (TestData.repeat_draw f m (snd (TestData.repeat_draw f n r)))).
Proof.
  revert r. induction n as [| n IH]; intros r.
  - cbn [TestData.repeat_draw Nat.add fst snd app].
    now destruct (TestData.repeat_draw f m r).
  - cbn [TestData.repeat_draw Nat.add]. destruct (f r) as [a r1].
    rewrite (IH r1). destruct (TestData.repeat_draw f n r1) as [l r2].
    cbn [fst snd].
    now destruct (TestData.repeat_draw f m r2).
Qed.

(** X13. [generate_postal_codes] and [generate_names] return as many
    entries as asked, and none (leaving the random generator untouched) for
    a count of zero or less; a batch of [a + b] entries is a batch of [a]
    followed by a batch of [b] drawn from where the first one stopped. *)
Theorem batches_have_the_asked_length (self : TestData.TestDataGenerator)
    (count a b : Z) (r : TestData.rng) :
  length (fst (TestData.generate_postal_codes self count r)) = Z.to_nat count
  /\ length (fst (TestData.generate_names self count r)) = Z.to_nat count
  /\ (count <= 0 ->
      TestData.generate_postal_codes self count r = ([], r)
      /\ TestData.generate_names self count r = ([], r))
  /\ (0 <= a -> 0 <= b ->
      let first := TestData.generate_postal_codes self a r in
      let second := TestData.generate_postal_codes self b (snd first) in
      TestData.generate_postal_codes self (a + b) r
      = (fst first ++ fst second, snd second))
  /\ (0 <= a -> 0 <= b ->
      let first := TestData.generate_names self a r in
      let second := TestData.generate_names self b (snd first) in
      TestData.generate_names self (a + b) r
      = (fst first ++ fst second, snd second)).
Proof.
  unfold TestData.generate_postal_codes, TestData.generate_names.
  split; [apply repeat_draw_length |].
  split; [apply repeat_draw_length |].
  split.
  - intros H. replace (Z.to_nat count) with O by lia. split; reflexivity.
  - split; intros Ha Hb; cbv zeta; rewrite Z2Nat.inj_add by assumption;
      apply repeat_draw_app.
Qed.

End Batches.

Section Reports.
Context {B : Type} {D : Driver B}.

Lemma rep_call_key (phase : string) :
  "rep_" +:+ phase = "rep_call" <-> phase = "call".
Proof.
  split; [| now intros ->].
  intros H. cbn in H. now injection H.
Qed.

Lemma call_failed_makereport (item : Conftest.Node)
    (rep : Conftest.TestReport) :
  Conftest.call_failed (Conftest.pytest_runtest_makereport item rep)
  = if String.eqb (Conftest.when rep) "call" then Conftest.failed rep
    else Conftest.call_failed item.
Proof.
  unfold Conftest.call_failed, Conftest.pytest_runtest_makereport.
  cbn [Conftest.attributes].
  destruct (String.eqb_spec (Conftest.when rep) "call") as [E | N].
  - rewrite E. now rewrite lookup_insert.
  - rewrite lookup_insert_ne; [reflexivity |].
    intros H. apply N. now apply rep_call_key.
Qed.

(** X14. Of the phase reports the [pytest_runtest_makereport] hook attaches
    to a test, only the last report of the [call] phase decides whether the
    test counts as failed: a failed set-up or tear-down leaves the verdict
    as it was. So for a test whose set-up failed (no [call] report), the
    guarded block of the [page] fixture does nothing at all. *)
Theorem only_the_call_report_decides (item : Conftest.Node)
    (reports : list Conftest.TestReport) (settings : Settings.Settings)
    (w : World B) :
  let node := fold_left Conftest.pytest_runtest_makereport reports item in
  Conftest.call_failed node
  = match find (fun rep => String.eqb (Conftest.when rep) "call")
               (rev reports) with
    | Some rep => Conftest.failed rep
    | None => Conftest.call_failed item
    end
  /\ (Forall (fun rep => Conftest.when rep <> "call") reports ->
      Conftest.call_failed item = false ->
      Conftest.capture_failure settings node w = (Ok tt, w)).
Proof.
  cbv zeta.
  assert (E : forall reports item,
    Conftest.call_failed
      (fold_left Conftest.pytest_runtest_makereport reports item)
    = match find (fun rep => String.eqb (Conftest.when rep) "call")
                 (rev reports) with
      | Some rep => Conftest.failed rep
      | None => Conftest.call_failed item
      end).
  { clear. intros reports. induction reports as [| rep reports IH] using rev_ind;
      intros item; [reflexivity |].
    rewrite fold_left_app, rev_app_distr. cbn [fold_left rev app find].
    rewrite call_failed_makereport.
    destruct (String.eqb (Conftest.when rep) "call"); [reflexivity | apply IH]. }
  split; [apply E |].
  intros Hall Hitem. unfold Conftest.capture_failure. rewrite E.
  destruct (find _ (rev reports)) as [rep |] eqn:Hf.
  - apply find_some in Hf. destruct Hf as [Hin Hc].
    apply in_rev in Hin. rewrite List.Forall_forall in Hall.
    specialize (Hall rep Hin).
    now destruct (String.eqb_spec (Conftest.when rep) "call").
  - now rewrite Hitem.
Qed.

End Reports.
Lemma batches_have_the_asked_length_counting :
  TestData.generate_postal_codes {| TestData.faker := "en_US" |} (-3) 42
  = ([], 42)
  /\ TestData.generate_names {| TestData.faker := "en_US" |} (2 + 1) 42
     = (fst (TestData.generate_names {| TestData.faker := "en_US" |} 2 42)
        ++ fst (TestData.generate_names {| TestData.faker := "en_US" |} 1 46),
        48).
Proof.
  destruct (batches_have_the_asked_length (F := CountingFaker.faker)
              {| TestData.faker := "en_US" |} (-3) 2 1 42)
    as (_ & _ & H0 & _ & Hn).
  split.
  - apply H0. lia.
  - refine (Hn _ _); lia.
Defined.

Lemma only_the_call_report_decides_setup_failure :
  Conftest.capture_failure StaticPage.settings
    (fold_left Conftest.pytest_runtest_makereport
       [ {| Conftest.when := "setup"; Conftest.failed := true |};
         {| Conftest.when := "teardown"; Conftest.failed := true |} ]
       {| Conftest.name := "test_login"; Conftest.attributes := ∅ |})
    StaticPage.without_badge
  = (Ok tt, StaticPage.without_badge).
Proof.
  refine (proj2 (only_the_call_report_decides
            {| Conftest.name := "test_login"; Conftest.attributes := ∅ |}
            [ {| Conftest.when := "setup"; Conftest.failed := true |};
              {| Conftest.when := "teardown"; Conftest.failed := true |} ]
            StaticPage.settings StaticPage.without_badge) _ eq_refl).
  repeat constructor; discriminate.
Defined.

(** ** Badge text, price failures and the remove button *)

Section BadgeText.
Context {B : Type} {D : Driver B}.

Local Open Scope exec_scope.

Lemma read_badge_eq (w : World B) :
  let t := BasePage.timeout (this w) in
  read_badge w
  = (match fst (locator_text_content ".shopping_cart_badge" t (browser w)) with
     | Ok o => str_to_int (text_or_empty o)
     | Raise e => Raise e
     end,
     after_call (TextContent ".shopping_cart_badge" t)
       (locator_text_content ".shopping_cart_badge" t) w).
Proof.
  cbv zeta. unfold read_badge, get_text, bind, self_timeout, gets.
  rewrite invoke_eq. cbn [timeout_or].
  now destruct (fst (locator_text_content _ _ _)).
Qed.

(** A text [int] does not read as an integer raises [ValueError], be it
    for its shape or for the length of its run of digits. *)
Lemma str_to_int_rejects (s : string) :
  parse_int s = None -> exists message, str_to_int s = Raise (ValueError message).
Proof.
  intros H. unfold str_to_int, invalid_literal, too_many_digits.
  destruct (snd (take_sign (lstrip_space s))) as [| c body]; [eauto |].
  destruct (isdigit_char c); [| eauto].
  destruct (int_digits false 0 (String c body)); [| eauto].
  destruct (int_max_str_digits <? count_digits (String c body)); [eauto |].
  rewrite H. eauto.
Qed.

(** X15. When the cart badge is visible, both badge queries read its text
    with the page object's own timeout (not the 2000 ms of the probe) and
    give it to [int]: a badge without text content, with an empty text or
    with any text that is not an integer makes them raise [ValueError]
    instead of returning a count. *)
Theorem badge_text_must_be_an_integer (w : World B) (o : option string)
    (b : B) :
  let t := BasePage.timeout (this w) in
  is_ok (fst (badge_probe w)) = true ->
  locator_text_content ".shopping_cart_badge" t (snd (badge_probe w))
  = (Ok o, b) ->
  let out := InventoryPage.get_cart_item_count w in
  CartPage.get_cart_badge_count w = out
  /\ calls (snd out)
     = calls w ++ [WaitFor ".shopping_cart_badge" "visible" 2000;
                   TextContent ".shopping_cart_badge" t]
  /\ fst out = str_to_int (text_or_empty o)
  /\ (parse_int (text_or_empty o) = None ->
      exists message, fst out = Raise (ValueError message))
  /\ (o = None -> exists message, fst out = Raise (ValueError message)).
Proof.
  cbv zeta. intros Hp Ht.
  split; [reflexivity |].
  pose proof (badge_query_eq w true Hp
              : InventoryPage.get_cart_item_count w
                = read_badge (after_badge_probe w)) as E.
  rewrite E, read_badge_eq. cbv zeta.
  unfold after_badge_probe, after_call. cbn [browser this calls fst snd].
  unfold badge_probe in Ht. rewrite Ht. cbn [fst].
  split; [now rewrite <- app_assoc |]. split; [reflexivity |].
  split.
  - apply str_to_int_rejects.
  - intros ->. now apply str_to_int_rejects.
Qed.

End BadgeText.

Lemma badge_text_must_be_an_integer_empty :
  exists message,
    fst (InventoryPage.get_cart_item_count (StaticPage.with_badge EmptyString))
    = Raise (ValueError message).
Proof.
  refine (proj1 (proj2 (proj2 (proj2
    (badge_text_must_be_an_integer (StaticPage.with_badge EmptyString)
       (Some EmptyString) _ eq_refl eq_refl)))) eq_refl).
Defined.

Section PriceFailures.
Context {B : Type} {D : Driver B}.

Lemma for_each_lift_first_failure {W A X} (f : X -> result A)
    (good : list X) (bad : X) (rest : list X) (e : exn) (w : W) :
  Forall (fun x => is_ok (f x) = true) good ->
  f bad = Raise e ->
  for_each (fun x => lift (f x)) (good ++ bad :: rest) w = (Raise e, w).
Proof.
  intros Hg Hb. induction Hg as [| x good Hx _ IH].
  - cbn [app for_each]. unfold bind at 1, lift at 1. now rewrite Hb.
  - cbn [app for_each]. unfold bind at 1, lift at 1.
    destruct (f x) as [a | e']; [| discriminate Hx].
    unfold bind at 1. now rewrite IH.
Qed.

(** X16. The price lists are all or nothing: when one rendered price does
    not convert, the three list getters raise the error of the first such
    price and return no price at all; and [get_product_price_by_index]
    raises that error for every index, also one whose own price converts. *)
Theorem one_bad_price_fails_every_price (w : World B)
    (good : list string) (bad : string) (rest : list string) (e : exn)
    (b : B) (index : Z) :
  locator_all_text_contents ".inventory_item_price" (browser w)
  = (Ok (good ++ bad :: rest), b) ->
  Forall (fun t => is_ok (price_of_text t) = true) good ->
  price_of_text bad = Raise e ->
  fst (InventoryPage.get_all_product_prices w) = Raise e
  /\ fst (CartPage.get_all_item_prices w) = Raise e
  /\ fst (CheckoutStepTwoPage.get_all_item_prices w) = Raise e
  /\ fst (InventoryPage.get_product_price_by_index index w) = Raise e.
Proof.
  intros Ht Hg Hb.
  destruct (price_list_eq w _ b Ht) as (H1 & H2 & H3).
  cbv zeta in H1, H2, H3.
  pose proof (for_each_lift_first_failure price_of_text good bad rest e
                (after_call (AllTextContents ".inventory_item_price")
                   (locator_all_text_contents ".inventory_item_price") w)
                Hg Hb) as Hf.
  rewrite H1, H2, H3, Hf. repeat split.
  unfold InventoryPage.get_product_price_by_index, bind.
  now rewrite H1, Hf.
Qed.

End PriceFailures.

Lemma one_bad_price_fails_every_price_first_index :
  fst (InventoryPage.get_product_price_by_index 0
         (StaticPage.world (StaticPage.priced ["$29.99"; "N/A"; "$9.99"])
            (InventoryPage.init StaticPage.settings 1)))
  = Raise (ValueError "could not convert string to float: 'N/A'").
Proof.
  refine (proj2 (proj2 (proj2
    (one_bad_price_fails_every_price
       (StaticPage.world (StaticPage.priced ["$29.99"; "N/A"; "$9.99"])
          (InventoryPage.init StaticPage.settings 1))
       ["$29.99"] "N/A" ["$9.99"] _ _ 0 eq_refl _ _)))).
  - repeat constructor.
  - vm_compute. reflexivity.
Defined.

Section InCart.
Context {B : Type} {D : Driver B}.

Lemma slug_spec_lower (s : string) : slug_spec (lower s) = slug_spec s.
Proof.
  unfold slug_spec, lower. rewrite map_chars_compose.
  apply map_chars_ext. intros c.
  destruct c as [[] [] [] [] [] [] [] []]; reflexivity.
Qed.

(** X17. [is_product_in_cart] never raises and never clicks: it waits at
    most 2000 ms for the very button that
    [remove_product_from_cart_by_name] clicks for that name. Two names with
    the same lowercased, hyphenated form (such as names that differ in
    letter case only) get the same answer. *)
Theorem is_product_in_cart_probes_the_remove_button (product_name other : string)
    (w : World B) :
  let probe := InventoryPage.is_product_in_cart product_name w in
  (exists selector,
      calls (snd probe) = calls w ++ [WaitFor selector "visible" 2000]
      /\ calls (snd (InventoryPage.remove_product_from_cart_by_name
                       product_name w))
         = calls w ++ [Click selector (BasePage.timeout (this w))]
      /\ fst probe
         = Ok (is_ok (fst (locator_wait_for selector "visible" 2000
                             (browser w)))))
  /\ (slug_spec other = slug_spec product_name ->
      InventoryPage.is_product_in_cart other w = probe)
  /\ InventoryPage.is_product_in_cart (lower product_name) w = probe.
Proof.
  cbv zeta. unfold InventoryPage.is_product_in_cart.
  split; [| split].
  - eexists. rewrite is_visible_eq. cbn [timeout_or Z.eqb fst snd].
    unfold after_call. cbn [calls]. split; [reflexivity |].
    split; [| reflexivity].
    unfold InventoryPage.remove_product_from_cart_by_name. unfold bind at 1.
    unfold log_call at 1, log_as. rewrite click_eq. reflexivity.
  - intros H. now rewrite !slug_code_spec, H.
  - now rewrite !slug_code_spec, slug_spec_lower.
Qed.

End InCart.

Lemma is_product_in_cart_probes_the_remove_button_backpack :
  InventoryPage.is_product_in_cart "sauce-labs-backpack" StaticPage.without_badge
  = InventoryPage.is_product_in_cart "Sauce Labs Backpack" StaticPage.without_badge.
Proof.
  refine (proj1 (proj2 (is_product_in_cart_probes_the_remove_button
    "Sauce Labs Backpack" "sauce-labs-backpack" StaticPage.without_badge)) _).
  reflexivity.
Defined.

(** ** Summary labels and accepted user names *)

Section Summary.
Context {B : Type} {D : Driver B}.

Lemma split_scan_first (x : ascii) (cur s : string) :
  split_scan (String x EmptyString) O cur s
  = String.rev_app cur (before_char x s)
    :: match after_char x s with
       | Some rest => split_scan (String x EmptyString) O EmptyString rest
       | None => []
       end.
Proof.
  revert cur. induction s as [| c s IH]; intros cur.
  - reflexivity.
  - cbn [split_scan startswith before_char after_char String.length Nat.pred].
    rewrite andb_true_r, (Ascii.eqb_sym x c).
    destruct (Ascii.eqb c x); [reflexivity |].
    now rewrite IH.
Qed.

Lemma amount_after_dollar_eq (text : string) :
  CheckoutStepTwoPage.amount_after_dollar text
  = match after_char "$" text with
    | None => Raise (IndexError "list index out of range")
    | Some rest => str_to_float (before_char "$" rest)
    end.
Proof.
  unfold CheckoutStepTwoPage.amount_after_dollar, split.
  rewrite split_scan_first.
  destruct (after_char "$" text) as [rest |]; [| reflexivity].
  rewrite split_scan_first. reflexivity.
Qed.

Lemma after_char_app (x : ascii) (label rest : string) :
  forallb_chars (fun c => negb (Ascii.eqb c x)) label = true ->
  after_char x (label +:+ String x rest) = Some rest
  /\ before_char x (label +:+ String x rest) = label.
Proof.
  induction label as [| c label IH].
  - intros _. cbn. now rewrite Ascii.eqb_refl.
  - cbn [forallb_chars String.append after_char before_char].
    intros [Hc Hs]%andb_true_iff. apply negb_true_iff in Hc. rewrite Hc.
    destruct (IH Hs) as [-> ->]. auto.
Qed.

Lemma before_char_absent (x : ascii) (s : string) :
  forallb_chars (fun c => negb (Ascii.eqb c x)) s = true ->
  before_char x s = s /\ after_char x s = None.
Proof.
  induction s as [| c s IH]; [auto |].
  cbn [forallb_chars after_char before_char].
  intros [Hc Hs]%andb_true_iff. apply negb_true_iff in Hc. rewrite Hc.
  destruct (IH Hs) as [-> ->]. auto.
Qed.

(** X18. [float(text.split('$')[1])], the conversion of the summary
    getters: a text without [$] raises [IndexError]; otherwise what comes
    before the first [$] is skipped, and what lies between the first [$]
    and the next one, or the end of the text, is given to [float]; what
    follows a second [$] is not read. *)
Theorem amount_after_dollar_reads_the_second_field
    (label field tail : string) :
  let no_dollar s := forallb_chars (fun c => negb (Ascii.eqb c "$")) s = true in
  no_dollar label -> no_dollar field ->
  CheckoutStepTwoPage.amount_after_dollar label
  = Raise (IndexError "list index out of range")
  /\ CheckoutStepTwoPage.amount_after_dollar (label +:+ "$" +:+ field)
     = str_to_float field
  /\ CheckoutStepTwoPage.amount_after_dollar
       (label +:+ "$" +:+ field +:+ "$" +:+ tail)
     = str_to_float field.
Proof.
  cbv zeta. intros Hl Hf. rewrite !amount_after_dollar_eq.
  destruct (before_char_absent "$" label Hl) as [_ ->].
  split; [reflexivity |].
  change ("$" +:+ field) with (String "$" field).
  change ("$" +:+ field +:+ "$" +:+ tail)
    with (String "$" (field +:+ String "$" tail)).
  destruct (after_char_app "$" label field Hl) as [-> _].
  destruct (after_char_app "$" label (field +:+ String "$" tail) Hl) as [-> _].
  destruct (before_char_absent "$" field Hf) as [-> _].
  destruct (after_char_app "$" field tail Hf) as [_ ->].
  auto.
Qed.

Lemma summary_getter_eq (selector : string) (w : World B) :
  let t := BasePage.timeout (this w) in
  bind (get_text selector None)
       (fun text => lift (CheckoutStepTwoPage.amount_after_dollar text)) w
  = (match fst (locator_text_content selector t (browser w)) with
     | Ok o => CheckoutStepTwoPage.amount_after_dollar (text_or_empty o)
     | Raise e => Raise e
     end,
     after_call (TextContent selector t) (locator_text_content selector t) w).
Proof.
  cbv zeta. unfold get_text, bind, self_timeout, gets, lift, ret.
  rewrite invoke_eq. cbn [timeout_or].
  now destruct (fst (locator_text_content _ _ _)).
Qed.

(** X19. When the subtotal label has no text content, or a text without
    [$], [get_subtotal] raises [IndexError], and so does
    [verify_total_calculation], which then has read the subtotal label
    only: the tax and the total are not looked at. *)
Theorem summary_label_without_dollar (w : World B) (o : option string)
    (b : B) :
  let t := BasePage.timeout (this w) in
  locator_text_content ".summary_subtotal_label" t (browser w) = (Ok o, b) ->
  after_char "$" (text_or_empty o) = None ->
  let out := CheckoutStepTwoPage.verify_total_calculation w in
  fst (CheckoutStepTwoPage.get_subtotal w)
  = Raise (IndexError "list index out of range")
  /\ fst out = Raise (IndexError "list index out of range")
  /\ calls (snd out) = calls w ++ [TextContent ".summary_subtotal_label" t]
  /\ browser (snd out) = b.
Proof.
  cbv zeta. intros Ht Hd.
  assert (E : CheckoutStepTwoPage.get_subtotal w
              = (Raise (IndexError "list index out of range"),
                 mkWorld b (this w)
                   (calls w ++ [TextContent ".summary_subtotal_label"
                                  (BasePage.timeout (this w))]) (log w))).
  { unfold CheckoutStepTwoPage.get_subtotal.
    rewrite summary_getter_eq. cbv zeta. unfold after_call.
    change CheckoutStepTwoPage.SUMMARY_SUBTOTAL with ".summary_subtotal_label".
    rewrite Ht. cbn [fst snd].
    now rewrite amount_after_dollar_eq, Hd. }
  split; [now rewrite E |].
  unfold CheckoutStepTwoPage.verify_total_calculation, bind.
  rewrite E. cbn [fst snd calls browser]. auto.
Qed.

End Summary.

Lemma summary_label_without_dollar_overview :
  fst (CheckoutStepTwoPage.verify_total_calculation
         (StaticPage.world
            (StaticPage.overview "Item total: 29.99" "Tax: $2.40"
               "Total: $32.39")
            (CheckoutStepTwoPage.init StaticPage.settings 1)))
  = Raise (IndexError "list index out of range").
Proof.
  refine (proj1 (proj2 (summary_label_without_dollar
    (StaticPage.world
       (StaticPage.overview "Item total: 29.99" "Tax: $2.40" "Total: $32.39")
       (CheckoutStepTwoPage.init StaticPage.settings 1))
    (Some "Item total: 29.99") _ eq_refl eq_refl))).
Defined.

Lemma amount_after_dollar_reads_the_second_field_total :
  CheckoutStepTwoPage.amount_after_dollar "Total: $32.39$1"
  = str_to_float "32.39".
Proof.
  exact (proj2 (proj2 (amount_after_dollar_reads_the_second_field
    "Total: " "32.39" "1" eq_refl eq_refl))).
Defined.

Section Usernames.

Lemma rstrip_cons_clean (c : ascii) (s : string) :
  LoginPage.isspace_str c = false ->
  LoginPage.rstrip (String c s) = String c (LoginPage.rstrip s).
Proof.
  intros Hc. cbn [LoginPage.rstrip]. rewrite Hc.
  now destruct (LoginPage.rstrip s).
Qed.

Lemma rstrip_idempotent (s : string) :
  LoginPage.rstrip (LoginPage.rstrip s) = LoginPage.rstrip s.
Proof.
  induction s as [| c s IH]; [reflexivity |].
  cbn [LoginPage.rstrip].
  destruct (LoginPage.rstrip s) as [| d r] eqn:E.
  - destruct (LoginPage.isspace_str c) eqn:Hc; [reflexivity |].
    cbn [LoginPage.rstrip]. now rewrite Hc.
  - cbn [LoginPage.rstrip]. change (LoginPage.rstrip (String d r))
      with (LoginPage.rstrip (String d r)) in IH.
    cbn [LoginPage.rstrip] in IH. rewrite IH. reflexivity.
Qed.

Lemma lstrip_head (s : string) :
  match LoginPage.lstrip s with
  | EmptyString => True
  | String c _ => LoginPage.isspace_str c = false
  end.
Proof.
  induction s as [| c s IH]; [exact I |].
  cbn [LoginPage.lstrip]. destruct (LoginPage.isspace_str c) eqn:Hc; assumption.
Qed.

Lemma strip_idempotent (s : string) :
  LoginPage.strip (LoginPage.strip s) = LoginPage.strip s.
Proof.
  unfold LoginPage.strip. pose proof (lstrip_head s) as H.
  destruct (LoginPage.lstrip s) as [| c t]; [reflexivity |].
  rewrite (rstrip_cons_clean c t H).
  cbn [LoginPage.lstrip]. rewrite H.
  rewrite <- (rstrip_cons_clean c t H). apply rstrip_idempotent.
Qed.

Lemma usernames_of_one_line (line : string) :
  forallb_chars (fun c => negb (Ascii.eqb c (ascii_of_nat 10))) line = true ->
  LoginPage.usernames_of line
  = if LoginPage.is_username_line line then [LoginPage.strip line] else [].
Proof.
  intros H. unfold LoginPage.usernames_of, LoginPage.LF.
  rewrite split_scan_first.
  destruct (before_char_absent _ line H) as [-> ->].
  cbn [String.rev_app].
  destruct (LoginPage.is_username_line line) eqn:E.
  - rewrite filter_cons_True by exact E. reflexivity.
  - rewrite filter_cons_False by (rewrite E; discriminate). reflexivity.
Qed.

Lemma usernames_of_lines (line rest : string) :
  forallb_chars (fun c => negb (Ascii.eqb c (ascii_of_nat 10))) line = true ->
  LoginPage.usernames_of (line +:+ LoginPage.LF +:+ rest)
  = LoginPage.usernames_of line ++ LoginPage.usernames_of rest.
Proof.
  intros H. rewrite (usernames_of_one_line line H).
  unfold LoginPage.usernames_of, LoginPage.LF.
  rewrite split_scan_first.
  change (String (ascii_of_nat 10) EmptyString +:+ rest)
    with (String (ascii_of_nat 10) rest).
  destruct (after_char_app (ascii_of_nat 10) line rest H) as [-> ->].
  cbn [String.rev_app].
  destruct (LoginPage.is_username_line line) eqn:E.
  - rewrite filter_cons_True by exact E. reflexivity.
  - rewrite filter_cons_False by (rewrite E; discriminate). reflexivity.
Qed.

(** X20. The user names [get_accepted_usernames] parses out of the
    credentials text: each is a line of the text stripped of the white
    space at its ends, is not empty, and comes from a line that holds
    [_user] in some letter case; lines are handled one by one, in order.
    A text without line feed is one line, so it gives at most one name,
    which is the whole stripped text. *)
Theorem accepted_usernames_are_stripped_lines (text line rest : string) :
  let one_line s :=
    forallb_chars (fun c => negb (Ascii.eqb c (ascii_of_nat 10))) s = true in
  Forall (fun u => u <> EmptyString /\ LoginPage.strip u = u
                   /\ exists l, u = LoginPage.strip l
                                /\ contains "_user" (lower l) = true)
         (LoginPage.usernames_of text)
  /\ (one_line line ->
      LoginPage.usernames_of line
      = if LoginPage.is_username_line line then [LoginPage.strip line] else [])
  /\ (one_line line ->
      LoginPage.usernames_of (line +:+ LoginPage.LF +:+ rest)
      = LoginPage.usernames_of line ++ LoginPage.usernames_of rest).
Proof.
  cbv zeta. split; [| split; [apply usernames_of_one_line
                           | apply usernames_of_lines]].
  unfold LoginPage.usernames_of. apply List.Forall_forall. intros u Hu.
  apply in_map_iff in Hu. destruct Hu as (l & <- & Hl).
  apply list_elem_of_In, list_elem_of_filter in Hl. destruct Hl as [Hp _].
  unfold LoginPage.is_username_line in Hp.
  destruct (LoginPage.strip l) as [| c t] eqn:E; [discriminate Hp |].
  split; [discriminate |]. split.
  - rewrite <- E. apply strip_idempotent.
  - exists l. now rewrite E.
Qed.

Lemma accepted_usernames_are_stripped_lines_run_together :
  LoginPage.usernames_of "Accepted usernames are:standard_userlocked_out_user"
  = ["Accepted usernames are:standard_userlocked_out_user"].
Proof.
  exact (proj1 (proj2 (accepted_usernames_are_stripped_lines EmptyString
    "Accepted usernames are:standard_userlocked_out_user" EmptyString))
    eq_refl).
Defined.

End Usernames.

(** ** Checkout information and logout *)

Section Sequences.
Context {B : Type} {D : Driver B}.

Lemma fill_information_eq (first_name last_name postal_code : string)
    (w : World B) :
  let d := BasePage.timeout (this w) in
  let self := this w in
  let filling selector value :=
    logged self DEBUG ("Filling '" +:+ selector +:+ "' with: " +:+ value) in
  let info := logged self INFO
                ("Filling checkout info: " +:+ first_name +:+ " " +:+ last_name
                 +:+ ", " +:+ postal_code) in
  let f1 := Fill CheckoutStepOnePage.FIRST_NAME_INPUT first_name d in
  let f2 := Fill CheckoutStepOnePage.LAST_NAME_INPUT last_name d in
  let f3 := Fill CheckoutStepOnePage.POSTAL_CODE_INPUT postal_code d in
  let l1 := filling CheckoutStepOnePage.FIRST_NAME_INPUT first_name in
  let l2 := filling CheckoutStepOnePage.LAST_NAME_INPUT last_name in
  let l3 := filling CheckoutStepOnePage.POSTAL_CODE_INPUT postal_code in
  CheckoutStepOnePage.fill_information first_name last_name postal_code w =
  match page_fill CheckoutStepOnePage.FIRST_NAME_INPUT first_name d (browser w) with
  | (Raise e, b1) =>
      (Raise e, mkWorld b1 self (calls w ++ [f1]) (log w ++ [info; l1]))
  | (Ok _, b1) =>
      match page_fill CheckoutStepOnePage.LAST_NAME_INPUT last_name d b1 with
      | (Raise e, b2) =>
          (Raise e, mkWorld b2 self (calls w ++ [f1; f2])
                      (log w ++ [info; l1; l2]))
      | (Ok _, b2) =>
          (fst (page_fill CheckoutStepOnePage.POSTAL_CODE_INPUT postal_code d b2),
           mkWorld
             (snd (page_fill CheckoutStepOnePage.POSTAL_CODE_INPUT postal_code d b2))
             self (calls w ++ [f1; f2; f3]) (log w ++ [info; l1; l2; l3]))
      end
  end.
Proof.
  cbv zeta. unfold CheckoutStepOnePage.fill_information.
  unfold bind at 1, log_call at 1, log_as.
  unfold bind at 1. rewrite fill_eq.
  cbn [timeout_or this browser fst snd calls log].
  destruct (page_fill CheckoutStepOnePage.FIRST_NAME_INPUT first_name _
              (browser w)) as [[[] | e1] b1]; cbn [fst snd];
    [| now rewrite <- !app_assoc].
  unfold bind at 1. rewrite fill_eq.
  cbn [timeout_or this browser fst snd calls log].
  destruct (page_fill CheckoutStepOnePage.LAST_NAME_INPUT last_name _ b1)
    as [[[] | e2] b2]; cbn [fst snd];
    [| now rewrite <- !app_assoc].
  rewrite fill_eq. cbn [timeout_or this browser fst snd calls log].
  now rewrite <- !app_assoc.
Qed.

(** X21. [fill_information] first logs the three values it is given, in
    clear and at level INFO, then fills the first name, the last name and
    the postal code in that order, each with the page object's timeout. It
    stops at the first fill that raises: the fills made are always a prefix
    of the three, all three when it returns, and fewer only when it
    raises. *)
Theorem fill_information_fills_in_order (first_name last_name postal_code : string)
    (w : World B) :
  let d := BasePage.timeout (this w) in
  let fills := [Fill CheckoutStepOnePage.FIRST_NAME_INPUT first_name d;
                Fill CheckoutStepOnePage.LAST_NAME_INPUT last_name d;
                Fill CheckoutStepOnePage.POSTAL_CODE_INPUT postal_code d] in
  let out :=
    CheckoutStepOnePage.fill_information first_name last_name postal_code w in
  exists (k : nat) (records : list LogRecord),
    calls (snd out) = calls w ++ firstn (S k) fills
    /\ (k < 3)%nat
    /\ (fst out = Ok tt -> k = 2%nat)
    /\ ((k < 2)%nat -> exists e, fst out = Raise e)
    /\ log (snd out)
       = log w
         ++ logged (this w) INFO
              ("Filling checkout info: " +:+ first_name +:+ " " +:+ last_name
               +:+ ", " +:+ postal_code)
         :: records.
Proof.
  cbv zeta. rewrite fill_information_eq. cbv zeta.
  destruct (page_fill CheckoutStepOnePage.FIRST_NAME_INPUT first_name _
              (browser w)) as [[[] | e1] b1].
  - destruct (page_fill CheckoutStepOnePage.LAST_NAME_INPUT last_name _ b1)
      as [[[] | e2] b2].
    + exists 2%nat. eexists. cbn [firstn fst snd calls log].
      split; [reflexivity |]. split; [lia |]. split; [reflexivity |].
      split; [lia | reflexivity].
    + exists 1%nat. eexists. cbn [firstn fst snd calls log].
      split; [reflexivity |]. split; [lia |]. split; [discriminate |].
      split; [eauto | reflexivity].
  - exists 0%nat. eexists. cbn [firstn fst snd calls log].
    split; [reflexivity |]. split; [lia |]. split; [discriminate |].
    split; [eauto | reflexivity].
Qed.

(** X22. [logout] clicks the burger menu button and then the logout link,
    each with the page object's timeout and with no wait in between; when
    the menu button cannot be clicked the link is not tried, and the
    exception is [logout]'s. *)
Theorem logout_opens_the_menu_first (w : World B) :
  let d := BasePage.timeout (this w) in
  let menu := page_click "#react-burger-menu-btn" d (browser w) in
  let link := page_click "#logout_sidebar_link" d (snd menu) in
  let out := InventoryPageBulk.logout w in
  (forall e, fst menu = Raise e ->
     fst out = Raise e
     /\ calls (snd out) = calls w ++ [Click "#react-burger-menu-btn" d])
  /\ (fst menu = Ok tt ->
      fst out = fst link
      /\ browser (snd out) = snd link
      /\ calls (snd out)
         = calls w ++ [Click "#react-burger-menu-btn" d;
                       Click "#logout_sidebar_link" d]).
Proof.
  cbv zeta.
  assert (E : InventoryPageBulk.logout w
          = let d := BasePage.timeout (this w) in
            let menu := page_click "#react-burger-menu-btn" d (browser w) in
            let link := page_click "#logout_sidebar_link" d (snd menu) in
            match fst menu with
            | Raise e =>
                (Raise e,
                 mkWorld (snd menu) (this w)
                   (calls w ++ [Click "#react-burger-menu-btn" d])
                   (log w ++ [logged (this w) INFO "Logging out";
                              logged (this w) INFO "Opening burger menu";
                              logged (this w) DEBUG
                                "Clicking element: #react-burger-menu-btn"]))
            | Ok _ =>
                (fst link,
                 mkWorld (snd link) (this w)
                   (calls w ++ [Click "#react-burger-menu-btn" d;
                                Click "#logout_sidebar_link" d])
                   (log w ++ [logged (this w) INFO "Logging out";
                              logged (this w) INFO "Opening burger menu";
                              logged (this w) DEBUG
                                "Clicking element: #react-burger-menu-btn";
                              logged (this w) DEBUG
                                "Clicking element: #logout_sidebar_link"]))
            end).
  { cbv zeta. unfold InventoryPageBulk.logout, InventoryPageBulk.open_burger_menu.
    unfold bind at 1, log_call at 1, log_as.
    unfold bind at 1. unfold bind at 1, log_call at 1, log_as.
    rewrite click_full_eq. cbn [timeout_or this browser fst snd calls log].
    change InventoryPageBulk.BURGER_MENU with "#react-burger-menu-btn".
    destruct (page_click "#react-burger-menu-btn" _ (browser w))
      as [[[] | e] b1]; cbn [fst snd].
    - rewrite click_full_eq. cbn [timeout_or this browser fst snd calls log].
      now rewrite <- !app_assoc.
    - now rewrite <- !app_assoc. }
  rewrite E. cbv zeta. split.
  - intros e He. rewrite He. auto.
  - intros Hm. rewrite Hm. auto.
Qed.

End Sequences.

Lemma fill_information_fills_in_order_no_form :
  exists e,
    fst (CheckoutStepOnePage.fill_information "Ada" "Lovelace" "NW1"
           StaticPage.without_badge) = Raise e.
Proof.
  destruct (fill_information_fills_in_order "Ada" "Lovelace" "NW1"
              StaticPage.without_badge) as (k & records & Hc & _ & _ & Hr & _).
  apply Hr.
  destruct k as [| [| k]]; [lia | lia |].
  apply (f_equal (@length Call)) in Hc. vm_compute in Hc. lia.
Defined.

Lemma logout_opens_the_menu_first_no_menu :
  calls (snd (InventoryPageBulk.logout StaticPage.without_badge))
  = [Click "#react-burger-menu-btn" 30000].
Proof.
  refine (proj2 (proj1 (logout_opens_the_menu_first StaticPage.without_badge)
                   _ eq_refl)).
Defined.

(** ** Negative indexes and page URLs *)

Section NegativeIndexes.
Context {B : Type} {D : Driver B}.

Lemma getitem_from_end {A} (l : list A) (index : Z) :
  index < 0 ->
  getitem l index
  = if index <? - len l then Raise (IndexError "list index out of range")
    else match nth_error l (Z.to_nat (len l + index)) with
         | Some a => Ok a
         | None => Raise (IndexError "list index out of range")
         end.
Proof.
  intros H. unfold getitem.
  destruct (Z.ltb_spec index 0); [| lia].
  destruct (Z.ltb_spec (index + len l) 0), (Z.ltb_spec index (- len l));
    try lia; [reflexivity |].
  now rewrite (Z.add_comm index).
Qed.

(** X23. A negative index is never "beyond the matches" for the index-based
    operations: with [n] matching elements, an index from [-n] to [-1]
    counts from the end ([add_product_to_cart_by_index] and
    [remove_item_by_index] click button [n + index],
    [get_product_name_by_index] returns name [n + index]), and an index
    below [-n] makes each of them raise [IndexError]. *)
Theorem negative_index_counts_from_the_end (index : Z) (w : World B) :
  index < 0 ->
  (forall n b,
      locator_all InventoryPage.ADD_TO_CART_BUTTON (browser w) = (Ok n, b) ->
      let out := InventoryPage.add_product_to_cart_by_index index w in
      (- Z.of_nat n <= index ->
       calls (snd out)
       = calls w ++ [All InventoryPage.ADD_TO_CART_BUTTON;
                     NthClick InventoryPage.ADD_TO_CART_BUTTON
                       (Z.to_nat (Z.of_nat n + index))])
      /\ (index < - Z.of_nat n ->
          fst out = Raise (IndexError "list index out of range")
          /\ calls (snd out) = calls w ++ [All InventoryPage.ADD_TO_CART_BUTTON]))
  /\ (forall n b,
      locator_all CartPage.REMOVE_BUTTON (browser w) = (Ok n, b) ->
      let out := CartPage.remove_item_by_index index w in
      (- Z.of_nat n <= index ->
       calls (snd out)
       = calls w ++ [All CartPage.REMOVE_BUTTON;
                     NthClick CartPage.REMOVE_BUTTON
                       (Z.to_nat (Z.of_nat n + index))])
      /\ (index < - Z.of_nat n ->
          fst out = Raise (IndexError "list index out of range")
          /\ calls (snd out) = calls w ++ [All CartPage.REMOVE_BUTTON]))
  /\ (forall names b,
      locator_all_text_contents ".inventory_item_name" (browser w)
      = (Ok names, b) ->
      let out := InventoryPage.get_product_name_by_index index w in
      (forall name, nth_error names (Z.to_nat (len names + index)) = Some name ->
                    - len names <= index -> fst out = Ok name)
      /\ (index < - len names ->
          fst out = Raise (IndexError "list index out of range"))).
Proof.
  intros Hneg.
  assert (Hclick : forall selector message n b,
    locator_all selector (browser w) = (Ok n, b) ->
    let out :=
      bind (log_call INFO message)
        (fun _ =>
           bind (locator_all_list selector)
             (fun buttons =>
                if index <? len buttons
                then bind (lift (getitem buttons index))
                       (fun k => invoke (NthClick selector k)
                                   (locator_nth_click selector k))
                else ret tt)) w in
    (- Z.of_nat n <= index ->
     calls (snd out)
     = calls w ++ [All selector;
                   NthClick selector (Z.to_nat (Z.of_nat n + index))])
    /\ (index < - Z.of_nat n ->
        fst out = Raise (IndexError "list index out of range")
        /\ calls (snd out) = calls w ++ [All selector])).
  { intros selector message n b E. cbv zeta.
    rewrite (nth_button_eq selector message index w n b E). cbv zeta.
    rewrite getitem_seq.
    destruct (Z.ltb_spec index (Z.of_nat n)); [| lia].
    destruct (Z.leb_spec 0 index); [lia |]. cbn [andb].
    destruct (Z.ltb_spec index 0); [| lia].
    destruct (Z.leb_spec (- Z.of_nat n) index); cbn [andb].
    - split; [intros _ | lia].
      rewrite invoke_eq. unfold after_call. cbn [snd calls].
      now rewrite <- app_assoc, (Z.add_comm index).
    - split; [lia | intros _]. split; reflexivity. }
  split; [| split].
  - intros n b E.
    exact (Hclick _ ("Adding product at index " +:+ pretty index +:+ " to cart")
             n b E).
  - intros n b E.
    exact (Hclick _ ("Removing item at index " +:+ pretty index) n b E).
  - intros names b E. cbv zeta.
    unfold InventoryPage.get_product_name_by_index,
      InventoryPage.get_all_product_names.
    erewrite bind_ok; [| apply get_all_texts_ok with (b := b); exact E].
    assert (Hlt : (index <? len names) = true)
      by (apply Z.ltb_lt; unfold len; lia).
    rewrite Hlt. unfold lift. cbn [fst].
    rewrite (getitem_from_end names index Hneg).
    split.
    + intros name Hn Hle.
      destruct (Z.ltb_spec index (- len names)); [lia |]. now rewrite Hn.
    + intros Hlow.
      destruct (Z.ltb_spec index (- len names)); [reflexivity | lia].
Qed.

End NegativeIndexes.

Lemma negative_index_counts_from_the_end_shelf :
  fst (InventoryPage.get_product_name_by_index (-1) shelf_of_three)
  = Ok "Sauce Labs Onesie"
  /\ fst (InventoryPage.get_product_name_by_index (-4) shelf_of_three)
     = Raise (IndexError "list index out of range")
  /\ calls (snd (InventoryPage.add_product_to_cart_by_index (-1) shelf_of_three))
     = [All InventoryPage.ADD_TO_CART_BUTTON;
        NthClick InventoryPage.ADD_TO_CART_BUTTON 2].
Proof.
  split; [| split].
  - refine (proj1 (proj2 (proj2
      (negative_index_counts_from_the_end (-1) shelf_of_three _))
      ["Sauce Labs Backpack"; "Sauce Labs Bike Light"; "Sauce Labs Onesie"]
      (browser shelf_of_three) eq_refl) _ eq_refl _); unfold len; simpl; lia.
  - refine (proj2 (proj2 (proj2
      (negative_index_counts_from_the_end (-4) shelf_of_three _))
      ["Sauce Labs Backpack"; "Sauce Labs Bike Light"; "Sauce Labs Onesie"]
      (browser shelf_of_three) eq_refl) _); unfold len; simpl; lia.
  - refine (proj1 (proj1
      (negative_index_counts_from_the_end (-1) shelf_of_three _)
      3%nat (browser shelf_of_three) eq_refl) _); lia.
Defined.

Section OwnUrl.
Context {B : Type} {D : Driver B}.

Lemma contains_app_r (sub a b : string) :
  contains sub b = true -> contains sub (a +:+ b) = true.
Proof.
  intros H. induction a as [| c a IH]; [exact H |].
  cbn [String.append contains]. rewrite IH. apply orb_true_r.
Qed.

(** X24. Each page object that tells by the URL whether it is loaded
    recognises the URL its own constructor builds, whatever the configured
    base URL: on a browser showing that URL, [is_loaded] of the cart page,
    of both checkout steps and of the order-complete page answers [True]
    without calling the driver. *)
Theorem pages_recognise_their_own_url (settings : Settings.Settings)
    (page : nat) (w : World B) :
  (url (CartPage.init settings page) = Some (page_url (browser w)) ->
   CartPage.is_loaded w = (Ok true, w))
  /\ (url (CheckoutStepOnePage.init settings page)
      = Some (page_url (browser w)) ->
      CheckoutStepOnePage.is_loaded w = (Ok true, w))
  /\ (url (CheckoutStepTwoPage.init settings page)
      = Some (page_url (browser w)) ->
      CheckoutStepTwoPage.is_loaded w = (Ok true, w))
  /\ (url (CheckoutCompletePage.init settings page)
      = Some (page_url (browser w)) ->
      CheckoutCompletePage.is_loaded w = (Ok true, w)).
Proof.
  unfold CartPage.is_loaded, CheckoutStepOnePage.is_loaded,
    CheckoutStepTwoPage.is_loaded, CheckoutCompletePage.is_loaded,
    bind, get_url, gets, ret.
  repeat split; intros H; cbn [url CartPage.init CheckoutStepOnePage.init
    CheckoutStepTwoPage.init CheckoutCompletePage.init] in H;
    injection H as <-; rewrite contains_app_r; reflexivity.
Qed.

End OwnUrl.

Lemma pages_recognise_their_own_url_complete :
  CheckoutCompletePage.is_loaded
    (complete_page "https://www.saucedemo.com/checkout-complete.html")
  = (Ok true,
     complete_page "https://www.saucedemo.com/checkout-complete.html").
Proof.
  exact (proj2 (proj2 (proj2 (pages_recognise_their_own_url
    StaticPage.settings 1
    (complete_page "https://www.saucedemo.com/checkout-complete.html"))))
    eq_refl).
Defined.
